(** * Dataset ingestion: Dataset, DatasetCSV, DatasetExcel

    A shallow embedding of [src/domain/dataset.py], [src/domain/dataset_csv.py]
    and [src/domain/dataset_excel.py].

    - A pandas DataFrame is a record of column labels, column dtypes and
      rows of cells; the pandas calls the code makes ([isnull], [duplicated],
      [drop_duplicates], [select_dtypes], [astype(str)], [str.strip],
      [str.lower], [str.replace]) are written out on it.  The semantics is
      that of pandas 2: a label is a [str], an [int] or NaN, [Index.str]
      exists only on an Index that pandas infers to hold strings, and
      [astype(str)] turns NaN into the string "nan".
    - Methods are computations in a small monad that threads the object's
      fields, collects what [print] writes and propagates Python exceptions.
    - The file system and the library calls that read it ([open],
      [chardet.detect], [pd.read_csv], [pd.ExcelFile], [pd.read_excel]) are an
      explicit environment record handed to the loading methods.
    - [DataSaver.guardar_dataframe] of [src/data/data_saver.py] is embedded
      with [os.path.splitext] written out for POSIX paths and the writers
      ([to_csv], [to_excel], [to_sql]) as an environment record. *)

From Stdlib Require Import String Ascii List Bool Arith ZArith Lia.
From Stdlib Require Import Decimal DecimalString.
Import ListNotations.
Open Scope string_scope.
Open Scope list_scope.
Open Scope nat_scope.

Set Implicit Arguments.

(* ================================================================== *)
(** ** Python strings

    A [string] is read as a sequence of code points below 256.  On that range
    [str.lower] moves A-Z, and the capitals of the Latin-1 block, 32 places up,
    and [str.isspace] holds of the twelve code points listed below. *)

Module PyStr.

Definition lower_char (c : ascii) : ascii :=
  let n := nat_of_ascii c in
  if (((65 <=? n) && (n <=? 90)) || ((192 <=? n) && (n <=? 214))
      || ((216 <=? n) && (n <=? 222)))%nat
  then ascii_of_nat (n + 32) else c.

Definition isspace (c : ascii) : bool :=
  let n := nat_of_ascii c in
  (((9 <=? n) && (n <=? 13)) || ((28 <=? n) && (n <=? 32))
   || (n =? 133) || (n =? 160))%nat.

Fixpoint map_chars (f : ascii -> ascii) (s : string) : string :=
  match s with
  | EmptyString => EmptyString
  | String c r => String (f c) (map_chars f r)
  end.

(** [s.lower()] *)
Definition lower (s : string) : string := map_chars lower_char s.

(** [s.replace(a, b)] for a one-character pattern [a] and replacement [b]. *)
Definition replace_char (a b : ascii) (s : string) : string :=
  map_chars (fun c => if Ascii.eqb c a then b else c) s.

(** [s.lstrip()], [s.rstrip()], [s.strip()] with no argument. *)
Fixpoint lstrip (s : string) : string :=
  match s with
  | EmptyString => EmptyString
  | String c r => if isspace c then lstrip r else s
  end.

Fixpoint rstrip (s : string) : string :=
  match s with
  | EmptyString => EmptyString
  | String c r =>
      match rstrip r with
      | EmptyString => if isspace c then EmptyString else String c EmptyString
      | r' => String c r'
      end
  end.

Definition strip (s : string) : string := rstrip (lstrip s).

(** [s.endswith(suf)] *)
Fixpoint endswith (s suf : string) : bool :=
  String.eqb s suf ||
  match s with
  | EmptyString => false
  | String _ r => endswith r suf
  end.

(** [str(z)] of a Python int. *)
Definition str_of_int (z : Z) : string := NilZero.string_of_int (Z.to_int z).

(** Truth value of an optional string: [None] and [""] are falsy. *)
Definition truthy (o : option string) : bool :=
  match o with
  | Some s => negb (String.eqb s "")
  | None => false
  end.

(** [a == b] on optional strings. *)
Definition eq_opt (a b : option string) : bool :=
  match a, b with
  | Some x, Some y => String.eqb x y
  | None, None => true
  | _, _ => false
  end.

(** [a or b] on optional strings. *)
Definition py_or (a b : option string) : option string :=
  if truthy a then a else b.

End PyStr.

(* ================================================================== *)
(** ** DataFrames *)

(** What [select_dtypes(include="object")] tells apart. *)
Inductive dtype := object | numerico.

(** A cell: the missing value (NaN), a Python [str], or a Python [int].
    Numbers are integers throughout; floating-point payloads are not
    represented.  In a [numerico] column cells are [NaN] or [Num]; an [object]
    column may hold any of the three (a text column read from a file with
    blanks holds [Str] and [NaN]). *)
Inductive celda :=
| NaN
| Str (s : string)
| Num (z : Z).

Definition celda_eq_dec (a b : celda) : {a = b} + {a <> b}.
Proof. decide equality; [apply string_dec | apply Z.eq_dec]. Defined.

Definition fila := list celda.

Definition fila_eq_dec : forall a b : fila, {a = b} + {a <> b} :=
  list_eq_dec celda_eq_dec.

(** A column label: a [str] (a header cell with text), an [int] (a numeric
    header cell, or a default label) or NaN (what the string methods of an
    Index give for a label that is not a [str]).  Float and date labels are
    not represented; an Index made of them alone is typed like one of [int]s
    and has no string methods either. *)
Inductive etiqueta :=
| Texto (s : string)
| Entero (z : Z)
| Nulo.

Definition etiqueta_eq_dec (a b : etiqueta) : {a = b} + {a <> b}.
Proof. decide equality; [apply string_dec | apply Z.eq_dec]. Defined.

(** The Index of the given [str] labels. *)
Definition textos (l : list string) : list etiqueta := map Texto l.

(** Column labels, one dtype per column, and the rows in index order.  The
    row index itself is not represented: no operation below reads it.
    [columns_object] is the dtype of the column Index: [true] for [object],
    which an Index holding a [str] always has; [false] for a typed Index,
    such as the [RangeIndex] of [pd.DataFrame()] and of an empty sheet, or the
    integer Index of numeric headers. *)
Record DataFrame := mkDF {
  columns : list etiqueta;
  columns_object : bool;
  dtypes : list dtype;
  filas : list fila
}.

Module Pandas.

(** [pd.isnull] on a scalar. *)
Definition isnull (c : celda) : bool :=
  match c with NaN => true | _ => false end.

Definition cuenta_nulos (r : fila) : nat := length (filter isnull r).

(** [df.isnull().sum().sum()] *)
Definition isnull_sum_sum (df : DataFrame) : nat :=
  list_sum (map cuenta_nulos (filas df)).

Definition esta_en (r : fila) (vistos : list fila) : bool :=
  if in_dec fila_eq_dec r vistos then true else false.

(** [df.duplicated()], keep='first': a row is marked when an equal row
    occurs before it; NaN cells compare equal to each other. *)
Fixpoint duplicated_desde (vistos : list fila) (rs : list fila) : list bool :=
  match rs with
  | [] => []
  | r :: rs' => esta_en r vistos :: duplicated_desde (r :: vistos) rs'
  end.

(** [df.empty]: no columns or no rows. *)
Definition empty (df : DataFrame) : bool :=
  (length (columns df) =? 0) || (length (filas df) =? 0).

(** pandas answers with an empty Series on an empty frame. *)
Definition duplicated (df : DataFrame) : list bool :=
  if empty df then [] else duplicated_desde [] (filas df).

(** [df.duplicated().sum()] *)
Definition duplicated_sum (df : DataFrame) : nat :=
  length (filter (fun b => b) (duplicated df)).

Fixpoint sin_duplicados_desde (vistos : list fila) (rs : list fila) : list fila :=
  match rs with
  | [] => []
  | r :: rs' =>
      if esta_en r vistos then sin_duplicados_desde (r :: vistos) rs'
      else r :: sin_duplicados_desde (r :: vistos) rs'
  end.

(** [df.drop_duplicates()]: the rows not marked by [duplicated], in order;
    an empty frame is copied as it is. *)
Definition drop_duplicates (df : DataFrame) : DataFrame :=
  mkDF (columns df) (columns_object df) (dtypes df)
       (if empty df then filas df else sin_duplicados_desde [] (filas df)).

(** [len(df)] *)
Definition len (df : DataFrame) : nat := length (filas df).

(** [df.columns.str.lower().str.replace(" ", "_").str.replace("-", "_")]
    on one [str] label. *)
Definition normalizar_nombre (s : string) : string :=
  PyStr.replace_char "-" "_" (PyStr.replace_char " " "_" (PyStr.lower s)).

Definition es_texto (e : etiqueta) : bool :=
  match e with Texto _ => true | _ => false end.

Definition es_nulo (e : etiqueta) : bool :=
  match e with Nulo => true | _ => false end.

(** Whether [df.columns.str] exists.  pandas infers the kind of the labels,
    NaN set aside, and raises [AttributeError] unless it is "string", "mixed",
    "mixed-integer" or "empty": some label is a [str], or no label is left and
    the Index has dtype [object].  A typed Index ([RangeIndex], integers) and
    an [object] Index of integers are refused. *)
Definition str_disponible (df : DataFrame) : bool :=
  existsb es_texto (columns df)
  || (forallb es_nulo (columns df) && columns_object df).

(** One label of [df.columns.str.lower().str.replace(" ", "_")
    .str.replace("-", "_")]: the string methods give NaN for a label that is
    not a [str]. *)
Definition normalizar_etiqueta (e : etiqueta) : etiqueta :=
  match e with
  | Texto s => Texto (normalizar_nombre s)
  | _ => Nulo
  end.

(** [df.columns = nuevas], for the [object] Index the string methods
    return. *)
Definition set_columns (nuevas : list etiqueta) (df : DataFrame) : DataFrame :=
  mkDF nuevas true (dtypes df) (filas df).

(** [etiqueta in df.columns] *)
Definition contiene_etiqueta (e : etiqueta) (cols : list etiqueta) : bool :=
  if in_dec etiqueta_eq_dec e cols then true else false.

(** [df.select_dtypes(include="object").columns]: the labels of the object
    columns, in column order (a label carried by two object columns is listed
    twice). *)
Fixpoint etiquetas_object (cols : list etiqueta) (ts : list dtype)
  : list etiqueta :=
  match cols, ts with
  | c :: cols', object :: ts' => c :: etiquetas_object cols' ts'
  | _ :: cols', numerico :: ts' => etiquetas_object cols' ts'
  | _, _ => []
  end.

Definition select_dtypes_object_columns (df : DataFrame) : list etiqueta :=
  etiquetas_object (columns df) (dtypes df).

(** [str(x)] of a cell, as [astype(str)] applies it: NaN becomes "nan". *)
Definition astype_str (c : celda) : string :=
  match c with
  | NaN => "nan"
  | Str s => s
  | Num z => PyStr.str_of_int z
  end.

(** One element of [serie.astype(str).str.strip()]. *)
Definition astype_str_strip (c : celda) : celda := Str (PyStr.strip (astype_str c)).

(** [str(etiqueta)] *)
Definition str_etiqueta (e : etiqueta) : string :=
  match e with
  | Texto s => s
  | Entero z => PyStr.str_of_int z
  | Nulo => "nan"
  end.

(** How many columns carry the label; NaN labels count as equal. *)
Definition apariciones (c : etiqueta) (cols : list etiqueta) : nat :=
  count_occ etiqueta_eq_dec cols c.

(** The row of [df.loc[:, etiqueta] = f(df[etiqueta])]: the cell under the
    label is replaced, the others stay. *)
Fixpoint asignar_en_fila (f : celda -> celda) (columna : etiqueta)
         (cols : list etiqueta) (r : fila) : fila :=
  match cols, r with
  | c :: cols', x :: r' =>
      (if etiqueta_eq_dec c columna then f x else x)
      :: asignar_en_fila f columna cols' r'
  | _, _ => r
  end.

Definition asignar_columna (f : celda -> celda) (columna : etiqueta)
           (df : DataFrame) : DataFrame :=
  mkDF (columns df) (columns_object df) (dtypes df)
       (map (asignar_en_fila f columna (columns df)) (filas df)).

End Pandas.

(* ================================================================== *)
(** ** Effects: fields, printed lines, exceptions *)

(** The exception classes the code raises, catches by name, or receives from
    pandas; all are subclasses of [Exception]. *)
Inductive excepcion :=
| TypeError
| ValueError
| AttributeError
| FileNotFoundError
| PermissionError
| UnicodeDecodeError
| EmptyDataError
| OtroError.

Inductive resultado (A : Type) :=
| Devuelve (a : A)
| Lanza (e : excepcion).

Arguments Devuelve {A} a.
Arguments Lanza {A} e.

(** How one of the three sheet selections of [read_excel] is given. *)
Inductive hoja_sel :=
| PorNombre (s : string)
| PorIndice (n : nat).

(** One constructor per [print] call of the three classes; the numbers and
    names a line interpolates are its arguments.  [Regla c n] is a rule of
    [n] characters [c] ("="*50 and the like). *)
Inductive mensaje :=
(* dataset.py *)
| ValoresFaltantes (n : nat)
| FilasDuplicadas (n : nat)
| DatasetVacio
| ValidacionCompletada
| SinDatosParaProcesar
| IniciandoLimpieza
| TransformacionesAplicadas
| ColumnasNormalizadas (n : nat)
| DuplicadasEliminadas (n : nat)
| ColumnasTextoLimpiadas (n : nat)
| SinDatosParaInformacion
| Regla (c : ascii) (n : nat)
| TituloInformacion
| ArchivoFuente (ruta : string)
| Dimensiones (nfilas ncols : nat)
| MemoriaUtilizada (df : DataFrame)
| TiposPorColumnaTitulo
| TiposPorColumna (cols : list etiqueta) (ts : list dtype)
| SinDatosParaResumen
| TituloResumen
| PrimerasFilasTitulo
| PrimerasFilas (df : DataFrame)
| EstadisticasTitulo
| Estadisticas (df : DataFrame)
| ColumnasFaltantes (cols : list string)
| ColumnasPresentes
(* dataset_csv.py *)
| IniciandoCargaCSV (ruta : string)
| CSVCargado
| SeparadorUtilizado (sep : option string)
| CodificacionUtilizada (enc : option string)
| RegistrosCargados (n : nat)
| ColumnasEncontradas (n : nat)
| NoSePudoCargarCSV
| ArchivoNoEncontrado (ruta : string)
| SinPermisos (ruta : string)
| ErrorDeCodificacion
| SugerenciaCodificacion
| ErrorInesperadoCSV (e : excepcion)
| ExtensionCSVNoReconocida (ruta : string)
| ExtensionesValidas (exts : list string)
| DetectandoCodificacion
| CodificacionDetectada (enc : option string) (confianza : nat)
| NoSePudoDetectarCodificacion (e : excepcion)
| UsandoCodificacionPorDefecto
| DetectandoSeparador
| SeparadorDetectado (sep : string)
| NoSePudoDetectarSeparador (e : excepcion)
| UsandoSeparadorPorDefecto
| ErrorAlLeerCSV (e : excepcion)
| AplicandoCambios (cambios : list (string * option string))
| SinCambiosEnParametros
| TituloArchivoCSV
| RutaCSV (ruta : string)
| CodificacionCSV (enc : option string)
| SeparadorCSV (sep : option string)
| ColumnasMuestra (cols : list string)
| SinDatosParaExportar
| ArchivoExportado
| DestinoExportacion (ruta : string)
| SeparadorExportacion (sep : string)
| CodificacionExportacion (enc : string)
| ErrorAlExportar (e : excepcion)
| SinDatosParaPrevisualizar
| PrevisualizacionTitulo (n : nat)
| Previsualizacion (df : DataFrame) (n : nat)
(* dataset_excel.py *)
| IniciandoCargaExcel (ruta : string)
| ExcelCargado
| HojaUtilizada (hoja : option string)
| NoSePudoCargarExcel
| ErrorInesperadoExcel (e : excepcion)
| ExtensionExcelNoReconocida (ruta : string)
| HojasDisponibles (hojas : list string)
| NoSePudieronObtenerHojas (e : excepcion)
| HojaNoExiste (hoja : string)
| ErrorAlLeerExcel (e : excepcion)
| SinInformacionDeHojas
| HojaInexistente (hoja : string)
| CambiandoDeHoja (anterior : option string) (nueva : string)
| TituloHojas
| LineaHoja (i : nat) (hoja : string) (activa : bool)
| HojaExportada (ruta : string).

(** What running a method leaves behind: the object's fields, the lines
    printed, and the value returned or the exception raised.  Fields mutated
    before an exception stay mutated. *)
Record efecto (S A : Type) := mkEfecto {
  estado : S;
  salida : list mensaje;
  res : resultado A
}.

Definition M (S A : Type) : Type := S -> efecto S A.

Definition ret {S A} (a : A) : M S A :=
  fun s => mkEfecto s [] (Devuelve a).

Definition bind {S A B} (m : M S A) (k : A -> M S B) : M S B :=
  fun s =>
    let r := m s in
    match res r with
    | Devuelve a =>
        let r' := k a (estado r) in
        mkEfecto (estado r') (salida r ++ salida r') (res r')
    | Lanza e => mkEfecto (estado r) (salida r) (Lanza e)
    end.

Definition raise {S A} (e : excepcion) : M S A :=
  fun s => mkEfecto s [] (Lanza e).

Definition print {S} (m : mensaje) : M S unit :=
  fun s => mkEfecto s [m] (Devuelve tt).

Definition leer {S A} (f : S -> A) : M S A :=
  fun s => mkEfecto s [] (Devuelve (f s)).

Definition modificar {S} (f : S -> S) : M S unit :=
  fun s => mkEfecto (f s) [] (Devuelve tt).

(** [try: m  except Exception as e: h e] *)
Definition try_except {S A} (m : M S A) (h : excepcion -> M S A) : M S A :=
  fun s =>
    let r := m s in
    match res r with
    | Devuelve _ => r
    | Lanza e =>
        let r' := h e (estado r) in
        mkEfecto (estado r') (salida r ++ salida r') (res r')
    end.

(** The outcome of a library call, replayed in the monad. *)
Definition llamar {S A} (r : resultado A) : M S A :=
  match r with
  | Devuelve a => ret a
  | Lanza e => raise e
  end.

Declare Scope py_scope.
Delimit Scope py_scope with py.
Notation "x <- m ;; k" := (bind m (fun x => k))
  (at level 61, m at next level, right associativity) : py_scope.
Notation "m ;; k" := (bind m (fun _ => k))
  (at level 61, right associativity) : py_scope.
Open Scope py_scope.

Definition devolvio {S A} (r : efecto S A) (a : A) : Prop := res r = Devuelve a.
Definition lanzo {S A} (r : efecto S A) (e : excepcion) : Prop := res r = Lanza e.
Definition no_lanza {S A} (r : efecto S A) : Prop := exists a, res r = Devuelve a.

(* ================================================================== *)
(** ** class Dataset *)

(** The three private fields of [Dataset]. *)
Record Dataset := mkDataset {
  ruta_archivo : string;
  dataframe : option DataFrame;
  esta_cargado : bool
}.

(** A Python value handed to the [dataframe] setter. *)
Inductive valor :=
| VNone
| VDataFrame (df : DataFrame)
| VStr (s : string)
| VInt (z : Z).

(** The names appended to [problemas_encontrados]. *)
Inductive problema := valores_faltantes | filas_duplicadas | dataset_vacio.

(** [df.describe(include='all')], kept symbolic; pandas raises [ValueError]
    on a frame without columns. *)
Inductive Resumen := describe_all (df : DataFrame).

Module Base.

(** [Dataset.__init__] *)
Definition init (ruta : string) : Dataset := mkDataset ruta None false.

(** [@dataframe.setter] *)
Definition set_dataframe (nuevo_dataframe : valor) : M Dataset unit :=
  match nuevo_dataframe with
  | VNone => modificar (fun s => mkDataset (ruta_archivo s) None false)
  | VDataFrame df => modificar (fun s => mkDataset (ruta_archivo s) (Some df) true)
  | _ => raise TypeError
  end.

(** [self.__dataframe = df], the direct field assignment inside [Dataset]. *)
Definition asignar_campo_dataframe (df : DataFrame) : M Dataset unit :=
  modificar (fun s => mkDataset (ruta_archivo s) (Some df) (esta_cargado s)).

(** Reading an attribute of [self.dataframe]: [AttributeError] on [None]. *)
Definition el_dataframe : M Dataset DataFrame :=
  fun s =>
    match dataframe s with
    | Some df => ret df s
    | None => raise AttributeError s
    end.

Definition cuando {S} (b : bool) (m : M S unit) : M S unit :=
  if b then m else ret tt.

Definition validar_integridad_datos : M Dataset bool :=
  cargado <- leer esta_cargado ;;
  if negb cargado then raise ValueError
  else
    df <- el_dataframe ;;
    let valores_nulos := Pandas.isnull_sum_sum df in
    cuando (0 <? valores_nulos) (print (ValoresFaltantes valores_nulos)) ;;
    let p1 := if 0 <? valores_nulos then [valores_faltantes] else [] in
    let duplicadas := Pandas.duplicated_sum df in
    cuando (0 <? duplicadas) (print (FilasDuplicadas duplicadas)) ;;
    let p2 := if 0 <? duplicadas then p1 ++ [filas_duplicadas] else p1 in
    cuando (Pandas.len df =? 0) (print DatasetVacio) ;;
    let problemas_encontrados :=
      if Pandas.len df =? 0 then p2 ++ [dataset_vacio] else p2 in
    cuando (length problemas_encontrados =? 0) (print ValidacionCompletada) ;;
    ret (length problemas_encontrados =? 0).

(** The body of the loop over [columnas_texto].  [self.__dataframe[columna]]
    is a Series when exactly one column carries the label; when several do it
    is a DataFrame, which has no [.str] accessor, so the right-hand side
    raises [AttributeError] before anything is assigned. *)
Fixpoint limpiar_columnas_texto (columnas_texto : list etiqueta)
  : M Dataset unit :=
  match columnas_texto with
  | [] => ret tt
  | columna :: resto =>
      df <- el_dataframe ;;
      (if Pandas.apariciones columna (columns df) =? 1
       then asignar_campo_dataframe
              (Pandas.asignar_columna Pandas.astype_str_strip columna df)
       else raise AttributeError) ;;
      limpiar_columnas_texto resto
  end.

(** The right-hand side of the renaming is evaluated first: where the column
    Index has no [.str] it raises [AttributeError] and nothing has been
    assigned yet. *)
Definition limpiar_y_transformar_datos : M Dataset bool :=
  cargado <- leer esta_cargado ;;
  if negb cargado then
    print SinDatosParaProcesar ;;
    ret false
  else
    print IniciandoLimpieza ;;
    df <- el_dataframe ;;
    let columnas_originales := length (columns df) in
    nuevas <- (if Pandas.str_disponible df
               then ret (map Pandas.normalizar_etiqueta (columns df))
               else raise AttributeError) ;;
    df <- el_dataframe ;;
    asignar_campo_dataframe (Pandas.set_columns nuevas df) ;;
    df <- el_dataframe ;;
    let filas_antes := Pandas.len df in
    asignar_campo_dataframe (Pandas.drop_duplicates df) ;;
    df <- el_dataframe ;;
    let filas_eliminadas := filas_antes - Pandas.len df in
    let columnas_texto := Pandas.select_dtypes_object_columns df in
    limpiar_columnas_texto columnas_texto ;;
    print TransformacionesAplicadas ;;
    print (ColumnasNormalizadas columnas_originales) ;;
    print (DuplicadasEliminadas filas_eliminadas) ;;
    print (ColumnasTextoLimpiadas (length columnas_texto)) ;;
    ret true.

Definition obtener_informacion_basica : M Dataset unit :=
  cargado <- leer esta_cargado ;;
  if negb cargado then
    print SinDatosParaInformacion ;;
    ret tt
  else
    print (Regla "=" 50) ;;
    print TituloInformacion ;;
    print (Regla "=" 50) ;;
    ruta <- leer ruta_archivo ;;
    print (ArchivoFuente ruta) ;;
    df <- el_dataframe ;;
    print (Dimensiones (Pandas.len df) (length (columns df))) ;;
    print (MemoriaUtilizada df) ;;
    print TiposPorColumnaTitulo ;;
    print (TiposPorColumna (columns df) (dtypes df)) ;;
    print (Regla "=" 50).

Definition describe (df : DataFrame) : resultado Resumen :=
  match columns df with
  | [] => Lanza ValueError
  | _ => Devuelve (describe_all df)
  end.

Definition mostrar_resumen_estadistico : M Dataset (option Resumen) :=
  cargado <- leer esta_cargado ;;
  if negb cargado then
    print SinDatosParaResumen ;;
    ret None
  else
    print (Regla "=" 60) ;;
    print TituloResumen ;;
    print (Regla "=" 60) ;;
    print PrimerasFilasTitulo ;;
    df <- el_dataframe ;;
    print (PrimerasFilas df) ;;
    print EstadisticasTitulo ;;
    _ <- llamar (describe df) ;;
    print (Estadisticas df) ;;
    print (Regla "=" 60) ;;
    r <- llamar (describe df) ;;
    ret (Some r).

Definition contiene (c : string) (cols : list string) : bool :=
  if in_dec string_dec c cols then true else false.

Definition verificar_columnas_requeridas (columnas_requeridas : list string)
  : M Dataset bool :=
  cargado <- leer esta_cargado ;;
  if negb cargado then ret false
  else
    df <- el_dataframe ;;
    let columnas_faltantes :=
      filter (fun c => negb (Pandas.contiene_etiqueta (Texto c) (columns df)))
             columnas_requeridas in
    match columnas_faltantes with
    | _ :: _ =>
        print (ColumnasFaltantes columnas_faltantes) ;;
        ret false
    | [] =>
        print ColumnasPresentes ;;
        ret true
    end.

End Base.

(* ================================================================== *)
(** ** Inheritance

    A subclass state holds the [Dataset] fields; an inherited method runs on
    them and leaves the subclass's own fields alone. *)

Class Hereda (S : Type) := {
  base : S -> Dataset;
  con_base : Dataset -> S -> S;
  base_con_base : forall d s, base (con_base d s) = d
}.

Definition heredado {S} `{Hereda S} {A} (m : M Dataset A) : M S A :=
  fun s =>
    let r := m (base s) in
    mkEfecto (con_base (estado r) s) (salida r) (res r).

#[export] Instance Hereda_Dataset : Hereda Dataset :=
  {| base := fun s => s; con_base := fun d _ => d;
     base_con_base := fun _ _ => eq_refl |}.

(* ================================================================== *)
(** ** class DatasetCSV *)

(** The file at [ruta_archivo] as the loader's library calls see it. *)
Record ArchivoCSV := mkArchivoCSV {
  (** [open(ruta, 'rb')], [read(10000)], [chardet.detect(muestra)]: the
      ['encoding'] and ['confidence'] entries of the result (confidence in
      percent), or the exception raised on the way.
      [chardet.detect] reports a sample it cannot classify with
      ['encoding'] [None] and confidence 0. *)
  chardet_detect : resultado (option string * nat);
  (** [open(ruta, 'r', encoding=enc)] and the five [readline] calls. *)
  leer_lineas_muestra : option string -> resultado unit;
  (** [pd.read_csv(ruta, sep=sep, encoding=enc, nrows=5)] *)
  read_csv_prueba : string -> option string -> resultado DataFrame;
  (** [pd.read_csv(ruta, sep=sep, encoding=enc, na_values=..,
      skipinitialspace=True, low_memory=False)] *)
  read_csv : option string -> option string -> resultado DataFrame;
  (** [df.to_csv(destino, sep=sep, encoding=enc, index=False)] *)
  to_csv : DataFrame -> string -> string -> string -> resultado unit
}.

Record DatasetCSV := mkDatasetCSV {
  csv_base : Dataset;
  csv_separador : option string;              (* __separador *)
  csv_codificacion : option string;           (* __codificacion *)
  separador_detectado : option string;        (* __separador_detectado *)
  codificacion_detectada : option string      (* __codificacion_detectada *)
}.

#[export] Instance Hereda_CSV : Hereda DatasetCSV :=
  {| base := csv_base;
     con_base := fun d s =>
       mkDatasetCSV d (csv_separador s) (csv_codificacion s)
                    (separador_detectado s) (codificacion_detectada s);
     base_con_base := fun _ _ => eq_refl |}.

Module CSV.

(** [DatasetCSV.__init__] *)
Definition init (ruta : string) (separador codificacion : option string)
  : DatasetCSV :=
  mkDatasetCSV (Base.init ruta) separador codificacion None None.

(** property [separador] *)
Definition separador (s : DatasetCSV) : option string :=
  PyStr.py_or (csv_separador s) (separador_detectado s).

(** property [codificacion] *)
Definition codificacion (s : DatasetCSV) : option string :=
  PyStr.py_or (csv_codificacion s) (codificacion_detectada s).

Definition set_separador_detectado (v : option string) : M DatasetCSV unit :=
  modificar (fun s => mkDatasetCSV (csv_base s) (csv_separador s)
                        (csv_codificacion s) v (codificacion_detectada s)).

Definition set_codificacion_detectada (v : option string) : M DatasetCSV unit :=
  modificar (fun s => mkDatasetCSV (csv_base s) (csv_separador s)
                        (csv_codificacion s) (separador_detectado s) v).

Definition set_separador (v : option string) : M DatasetCSV unit :=
  modificar (fun s => mkDatasetCSV (csv_base s) v (csv_codificacion s)
                        (separador_detectado s) (codificacion_detectada s)).

Definition set_codificacion (v : option string) : M DatasetCSV unit :=
  modificar (fun s => mkDatasetCSV (csv_base s) (csv_separador s) v
                        (separador_detectado s) (codificacion_detectada s)).

Definition extensiones_validas : list string := [".csv"; ".txt"; ".tsv"].

Definition _validar_extension_csv : M DatasetCSV bool :=
  ruta <- leer (fun s => ruta_archivo (base s)) ;;
  let extension := PyStr.lower ruta in
  if existsb (PyStr.endswith extension) extensiones_validas then ret true
  else
    print (ExtensionCSVNoReconocida ruta) ;;
    print (ExtensionesValidas extensiones_validas) ;;
    ret true.

Definition _detectar_codificacion (f : ArchivoCSV) : M DatasetCSV unit :=
  try_except
    (print DetectandoCodificacion ;;
     resultado <- llamar (chardet_detect f) ;;
     set_codificacion_detectada (fst resultado) ;;
     let confianza := snd resultado in
     enc <- leer codificacion_detectada ;;
     print (CodificacionDetectada enc confianza))
    (fun e =>
       print (NoSePudoDetectarCodificacion e) ;;
       set_codificacion_detectada (Some "utf-8") ;;
       print UsandoCodificacionPorDefecto).

(** TAB is code point 9. *)
Definition tab : string := String (ascii_of_nat 9) EmptyString.

Definition separadores_comunes : list string := [","; ";"; tab; "|"].

(** The [for sep in separadores_comunes] loop, carrying
    [(mejor_separador, max_columnas)]; a trial that raises is skipped. *)
Fixpoint probar_separadores (f : ArchivoCSV) (enc : option string)
         (seps : list string) (mejor : string * nat) : string * nat :=
  match seps with
  | [] => mejor
  | sep :: resto =>
      match read_csv_prueba f sep enc with
      | Devuelve df_prueba =>
          let num_columnas := length (columns df_prueba) in
          if snd mejor <? num_columnas
          then probar_separadores f enc resto (sep, num_columnas)
          else probar_separadores f enc resto mejor
      | Lanza _ => probar_separadores f enc resto mejor
      end
  end.

Definition _detectar_separador (f : ArchivoCSV) : M DatasetCSV unit :=
  try_except
    (print DetectandoSeparador ;;
     enc <- leer codificacion ;;
     llamar (leer_lineas_muestra f enc) ;;
     let mejor_separador :=
       fst (probar_separadores f enc separadores_comunes (",", 0)) in
     set_separador_detectado (Some mejor_separador) ;;
     print (SeparadorDetectado mejor_separador))
    (fun e =>
       print (NoSePudoDetectarSeparador e) ;;
       set_separador_detectado (Some ",") ;;
       print UsandoSeparadorPorDefecto).

Definition _leer_archivo_csv (f : ArchivoCSV) : M DatasetCSV (option DataFrame) :=
  try_except
    (sep <- leer separador ;;
     enc <- leer codificacion ;;
     df <- llamar (read_csv f sep enc) ;;
     ret (Some df))
    (fun e =>
       print (ErrorAlLeerCSV e) ;;
       ret None).

(** The [except] clauses of [cargar_datos], first match wins; the last one
    is [except Exception]. *)
Definition manejar_error_carga (e : excepcion) : M DatasetCSV bool :=
  ruta <- leer (fun s => ruta_archivo (base s)) ;;
  match e with
  | FileNotFoundError => print (ArchivoNoEncontrado ruta) ;; ret false
  | PermissionError => print (SinPermisos ruta) ;; ret false
  | UnicodeDecodeError =>
      print ErrorDeCodificacion ;;
      print SugerenciaCodificacion ;;
      ret false
  | _ => print (ErrorInesperadoCSV e) ;; ret false
  end.

Definition cargar_datos (f : ArchivoCSV) : M DatasetCSV bool :=
  try_except
    (ruta <- leer (fun s => ruta_archivo (base s)) ;;
     print (IniciandoCargaCSV ruta) ;;
     ext_ok <- _validar_extension_csv ;;
     if negb ext_ok then ret false
     else
       enc0 <- leer csv_codificacion ;;
       Base.cuando (negb (PyStr.truthy enc0)) (_detectar_codificacion f) ;;
       sep0 <- leer csv_separador ;;
       Base.cuando (negb (PyStr.truthy sep0)) (_detectar_separador f) ;;
       df <- _leer_archivo_csv f ;;
       match df with
       | Some df =>
           heredado (Base.set_dataframe (VDataFrame df)) ;;
           print CSVCargado ;;
           sep <- leer separador ;;
           print (SeparadorUtilizado sep) ;;
           enc <- leer codificacion ;;
           print (CodificacionUtilizada enc) ;;
           print (RegistrosCargados (Pandas.len df)) ;;
           print (ColumnasEncontradas (length (columns df))) ;;
           valido <- heredado Base.validar_integridad_datos ;;
           (if valido
            then _ <- heredado Base.limpiar_y_transformar_datos ;; ret tt
            else ret tt) ;;
           ret true
       | None =>
           print NoSePudoCargarCSV ;;
           ret false
       end)
    manejar_error_carga.

Definition cambiar_parametros_carga (f : ArchivoCSV)
           (nuevo_separador nueva_codificacion : option string)
  : M DatasetCSV bool :=
  sep0 <- leer csv_separador ;;
  let cambia_sep :=
    PyStr.truthy nuevo_separador
    && negb (PyStr.eq_opt nuevo_separador sep0) in
  Base.cuando cambia_sep (set_separador nuevo_separador) ;;
  enc0 <- leer csv_codificacion ;;
  let cambia_enc :=
    PyStr.truthy nueva_codificacion
    && negb (PyStr.eq_opt nueva_codificacion enc0) in
  Base.cuando cambia_enc (set_codificacion nueva_codificacion) ;;
  let cambios_realizados :=
    (if cambia_sep then [("separador", nuevo_separador)] else [])
    ++ (if cambia_enc then [("codificacion", nueva_codificacion)] else []) in
  match cambios_realizados with
  | _ :: _ =>
      print (AplicandoCambios cambios_realizados) ;;
      cargar_datos f
  | [] =>
      print SinCambiosEnParametros ;;
      ret false
  end.

Definition mostrar_informacion_archivo : M DatasetCSV unit :=
  print (Regla "=" 50) ;;
  print TituloArchivoCSV ;;
  print (Regla "=" 50) ;;
  ruta <- leer (fun s => ruta_archivo (base s)) ;;
  print (RutaCSV ruta) ;;
  enc <- leer codificacion ;;
  print (CodificacionCSV enc) ;;
  sep <- leer separador ;;
  print (SeparadorCSV sep) ;;
  cargado <- leer (fun s => esta_cargado (base s)) ;;
  (if cargado then
     df <- heredado Base.el_dataframe ;;
     print (Dimensiones (Pandas.len df) (length (columns df))) ;;
     let columnas_muestra :=
       map Pandas.str_etiqueta (firstn 5 (columns df))
       ++ (if 5 <? length (columns df)
           then ["...";
                 String.append "("
                   (String.append
                      (PyStr.str_of_int (Z.of_nat (length (columns df))))
                      " columnas total)")]
           else []) in
     print (ColumnasMuestra columnas_muestra)
   else ret tt) ;;
  print (Regla "=" 50).

Definition exportar_con_nuevos_parametros (f : ArchivoCSV)
           (ruta_destino separador_salida codificacion_salida : string)
  : M DatasetCSV bool :=
  cargado <- leer (fun s => esta_cargado (base s)) ;;
  if negb cargado then
    print SinDatosParaExportar ;;
    ret false
  else
    try_except
      (df <- heredado Base.el_dataframe ;;
       llamar (to_csv f df ruta_destino separador_salida codificacion_salida) ;;
       print ArchivoExportado ;;
       print (DestinoExportacion ruta_destino) ;;
       print (SeparadorExportacion separador_salida) ;;
       print (CodificacionExportacion codificacion_salida) ;;
       ret true)
      (fun e =>
         print (ErrorAlExportar e) ;;
         ret false).

Definition previsualizar_estructura (num_lineas : nat) : M DatasetCSV unit :=
  cargado <- leer (fun s => esta_cargado (base s)) ;;
  if negb cargado then
    print SinDatosParaPrevisualizar
  else
    print (PrevisualizacionTitulo num_lineas) ;;
    print (Regla "-" 60) ;;
    df <- heredado Base.el_dataframe ;;
    print (Previsualizacion df num_lineas) ;;
    print (Regla "-" 60).

End CSV.

(* ================================================================== *)
(** ** class DatasetExcel *)

(** The workbook at [ruta_archivo] as the loader's library calls see it. *)
Record ArchivoExcel := mkArchivoExcel {
  (** [pd.ExcelFile(ruta).sheet_names] *)
  sheet_names : resultado (list string);
  (** [pd.read_excel(ruta, engine='openpyxl', na_values=.., sheet_name=h)] *)
  read_excel : hoja_sel -> resultado DataFrame;
  (** [df.to_excel(destino, index=False, engine='openpyxl')] *)
  to_excel : DataFrame -> string -> resultado unit
}.

Record DatasetExcel := mkDatasetExcel {
  xl_base : Dataset;
  nombre_hoja : option string;          (* __nombre_hoja *)
  hojas_disponibles : list string       (* __hojas_disponibles *)
}.

#[export] Instance Hereda_Excel : Hereda DatasetExcel :=
  {| base := xl_base;
     con_base := fun d s => mkDatasetExcel d (nombre_hoja s) (hojas_disponibles s);
     base_con_base := fun _ _ => eq_refl |}.

Module Excel.

(** [DatasetExcel.__init__] *)
Definition init (ruta : string) (hoja : option string) : DatasetExcel :=
  mkDatasetExcel (Base.init ruta) hoja [].

Definition set_hojas_disponibles (v : list string) : M DatasetExcel unit :=
  modificar (fun s => mkDatasetExcel (xl_base s) (nombre_hoja s) v).

Definition set_nombre_hoja (v : option string) : M DatasetExcel unit :=
  modificar (fun s => mkDatasetExcel (xl_base s) v (hojas_disponibles s)).

Definition extensiones_validas : list string := [".xlsx"; ".xls"; ".xlsm"].

Definition _validar_extension_excel : M DatasetExcel bool :=
  ruta <- leer (fun s => ruta_archivo (base s)) ;;
  let extension := PyStr.lower ruta in
  if existsb (PyStr.endswith extension) extensiones_validas then ret true
  else
    print (ExtensionExcelNoReconocida ruta) ;;
    print (ExtensionesValidas extensiones_validas) ;;
    ret true.

Definition _obtener_hojas_disponibles (f : ArchivoExcel) : M DatasetExcel unit :=
  try_except
    (hojas <- llamar (sheet_names f) ;;
     set_hojas_disponibles hojas ;;
     print (HojasDisponibles hojas))
    (fun e =>
       print (NoSePudieronObtenerHojas e) ;;
       set_hojas_disponibles []).

(** The ['sheet_name'] entry of [parametros_lectura] and the warning that
    goes with it. *)
Definition elegir_hoja (hoja : option string) (hojas : list string)
  : list mensaje * hoja_sel :=
  match hoja with
  | Some h =>
      if PyStr.truthy hoja then
        if Base.contiene h hojas then ([], PorNombre h)
        else ([HojaNoExiste h], PorIndice 0)
      else ([], PorIndice 0)
  | None => ([], PorIndice 0)
  end.

Fixpoint imprimir {S} (ms : list mensaje) : M S unit :=
  match ms with
  | [] => ret tt
  | m :: ms' => print m ;; imprimir ms'
  end.

Definition _leer_archivo_excel (f : ArchivoExcel) : M DatasetExcel (option DataFrame) :=
  try_except
    (hoja <- leer nombre_hoja ;;
     hojas <- leer hojas_disponibles ;;
     let eleccion := elegir_hoja hoja hojas in
     imprimir (fst eleccion) ;;
     df <- llamar (read_excel f (snd eleccion)) ;;
     ret (Some df))
    (fun e =>
       print (ErrorAlLeerExcel e) ;;
       ret None).

Definition manejar_error_carga (e : excepcion) : M DatasetExcel bool :=
  ruta <- leer (fun s => ruta_archivo (base s)) ;;
  match e with
  | FileNotFoundError => print (ArchivoNoEncontrado ruta) ;; ret false
  | PermissionError => print (SinPermisos ruta) ;; ret false
  | _ => print (ErrorInesperadoExcel e) ;; ret false
  end.

Definition cargar_datos (f : ArchivoExcel) : M DatasetExcel bool :=
  try_except
    (ruta <- leer (fun s => ruta_archivo (base s)) ;;
     print (IniciandoCargaExcel ruta) ;;
     ext_ok <- _validar_extension_excel ;;
     if negb ext_ok then ret false
     else
       _obtener_hojas_disponibles f ;;
       df <- _leer_archivo_excel f ;;
       match df with
       | Some df =>
           heredado (Base.set_dataframe (VDataFrame df)) ;;
           print ExcelCargado ;;
           hoja <- leer nombre_hoja ;;
           print (HojaUtilizada (PyStr.py_or hoja (Some "Primera hoja"))) ;;
           print (RegistrosCargados (Pandas.len df)) ;;
           print (ColumnasEncontradas (length (columns df))) ;;
           valido <- heredado Base.validar_integridad_datos ;;
           (if valido
            then _ <- heredado Base.limpiar_y_transformar_datos ;; ret tt
            else ret tt) ;;
           ret true
       | None =>
           print NoSePudoCargarExcel ;;
           ret false
       end)
    manejar_error_carga.

Definition cambiar_hoja (f : ArchivoExcel) (nuevo_nombre_hoja : string)
  : M DatasetExcel bool :=
  hojas <- leer hojas_disponibles ;;
  match hojas with
  | [] =>
      print SinInformacionDeHojas ;;
      ret false
  | _ :: _ =>
      if negb (Base.contiene nuevo_nombre_hoja hojas) then
        print (HojaInexistente nuevo_nombre_hoja) ;;
        print (HojasDisponibles hojas) ;;
        ret false
      else
        anterior <- leer nombre_hoja ;;
        print (CambiandoDeHoja anterior nuevo_nombre_hoja) ;;
        set_nombre_hoja (Some nuevo_nombre_hoja) ;;
        cargar_datos f
  end.

Fixpoint lineas_hojas (i : nat) (activa : option string) (hojas : list string)
  : list mensaje :=
  match hojas with
  | [] => []
  | h :: resto =>
      LineaHoja i h (PyStr.eq_opt (Some h) activa) :: lineas_hojas (S i) activa resto
  end.

Definition mostrar_informacion_hojas : M DatasetExcel unit :=
  hojas <- leer hojas_disponibles ;;
  match hojas with
  | [] => print SinInformacionDeHojas
  | _ :: _ =>
      print (Regla "=" 50) ;;
      print TituloHojas ;;
      print (Regla "=" 50) ;;
      activa <- leer nombre_hoja ;;
      imprimir (lineas_hojas 1 activa hojas) ;;
      print (Regla "=" 50)
  end.

Definition exportar_hoja_actual (f : ArchivoExcel) (ruta_destino : string)
  : M DatasetExcel bool :=
  cargado <- leer (fun s => esta_cargado (base s)) ;;
  if negb cargado then
    print SinDatosParaExportar ;;
    ret false
  else
    try_except
      (df <- heredado Base.el_dataframe ;;
       llamar (to_excel f df ruta_destino) ;;
       print (HojaExportada ruta_destino) ;;
       ret true)
      (fun e =>
         print (ErrorAlExportar e) ;;
         ret false).

End Excel.

(* ================================================================== *)
(** ** Public operations

    What a client can do with a loader, one constructor per public method
    and one for the [dataframe] setter; loading methods come with the file
    as it is at the time of the call. *)

Inductive op_base :=
| OpSetDataframe (v : valor)
| OpValidar
| OpLimpiar
| OpInformacion
| OpResumen
| OpVerificar (cols : list string).

Inductive op_csv :=
| CsvBase (o : op_base)
| CsvCargar (f : ArchivoCSV)
| CsvCambiarParametros (f : ArchivoCSV) (sep enc : option string)
| CsvMostrarInformacion
| CsvExportar (f : ArchivoCSV) (destino sep enc : string)
| CsvPrevisualizar (n : nat).

Inductive op_excel :=
| XlBase (o : op_base)
| XlCargar (f : ArchivoExcel)
| XlCambiarHoja (f : ArchivoExcel) (hoja : string)
| XlMostrarHojas
| XlExportar (f : ArchivoExcel) (destino : string).

(** Running an operation and keeping only the object it leaves: a client
    that catches the exception goes on with the same object. *)
Definition tras {S A} (m : M S A) (s : S) : S := estado (m s).

Definition ejecutar_base (o : op_base) (s : Dataset) : Dataset :=
  match o with
  | OpSetDataframe v => tras (Base.set_dataframe v) s
  | OpValidar => tras Base.validar_integridad_datos s
  | OpLimpiar => tras Base.limpiar_y_transformar_datos s
  | OpInformacion => tras Base.obtener_informacion_basica s
  | OpResumen => tras Base.mostrar_resumen_estadistico s
  | OpVerificar cols => tras (Base.verificar_columnas_requeridas cols) s
  end.

Definition ejecutar_csv (o : op_csv) (s : DatasetCSV) : DatasetCSV :=
  match o with
  | CsvBase o => con_base (ejecutar_base o (base s)) s
  | CsvCargar f => tras (CSV.cargar_datos f) s
  | CsvCambiarParametros f sep enc => tras (CSV.cambiar_parametros_carga f sep enc) s
  | CsvMostrarInformacion => tras CSV.mostrar_informacion_archivo s
  | CsvExportar f d sep enc => tras (CSV.exportar_con_nuevos_parametros f d sep enc) s
  | CsvPrevisualizar n => tras (CSV.previsualizar_estructura n) s
  end.

Definition ejecutar_excel (o : op_excel) (s : DatasetExcel) : DatasetExcel :=
  match o with
  | XlBase o => con_base (ejecutar_base o (base s)) s
  | XlCargar f => tras (Excel.cargar_datos f) s
  | XlCambiarHoja f h => tras (Excel.cambiar_hoja f h) s
  | XlMostrarHojas => tras Excel.mostrar_informacion_hojas s
  | XlExportar f d => tras (Excel.exportar_hoja_actual f d) s
  end.

(** States reached from a freshly constructed loader. *)
Inductive alcanzable_csv : DatasetCSV -> Prop :=
| alc_csv_init ruta sep enc : alcanzable_csv (CSV.init ruta sep enc)
| alc_csv_paso s o : alcanzable_csv s -> alcanzable_csv (ejecutar_csv o s).

Inductive alcanzable_excel : DatasetExcel -> Prop :=
| alc_xl_init ruta hoja : alcanzable_excel (Excel.init ruta hoja)
| alc_xl_paso s o : alcanzable_excel s -> alcanzable_excel (ejecutar_excel o s).

(** [esta_cargado] agrees with "the table is not None". *)
Definition sincronizado (d : Dataset) : Prop :=
  esta_cargado d = true <-> dataframe d <> None.

(* ================================================================== *)
(** ** class DataSaver *)

Module OsPath.

(** The suffix of [s] that starts at the last occurrence of [c]. *)
Fixpoint ultimo_sufijo (c : ascii) (s : string) : option string :=
  match s with
  | EmptyString => None
  | String a r =>
      match ultimo_sufijo c r with
      | Some x => Some x
      | None => if Ascii.eqb a c then Some s else None
      end
  end.

(** What follows the last ["/"]. *)
Definition basename (p : string) : string :=
  match ultimo_sufijo "/" p with
  | Some (String _ r) => r
  | _ => p
  end.

Fixpoint sin_puntos_iniciales (s : string) : string :=
  match s with
  | String c r => if Ascii.eqb c "." then sin_puntos_iniciales r else s
  | EmptyString => EmptyString
  end.

(** The second component of [os.path.splitext(p)] (POSIX): from the last
    dot of the file name on, the leading dots of the file name set aside. *)
Definition splitext_ext (p : string) : string :=
  match ultimo_sufijo "." (sin_puntos_iniciales (basename p)) with
  | Some e => e
  | None => EmptyString
  end.

End OsPath.

(** The file system and the database as [guardar_dataframe] reaches them. *)
Record Destinos := mkDestinos {
  (** [dataframe.to_csv(destino, index=False)] *)
  guardar_csv : DataFrame -> string -> resultado unit;
  (** [dataframe.to_excel(destino, index=False, engine='openpyxl')] *)
  guardar_excel : DataFrame -> string -> resultado unit;
  (** [dataframe.to_sql(name=destino, con=engine, index=False,
      if_exists=if_exists)] *)
  to_sql : DataFrame -> string -> string -> resultado unit
}.

(** The lines [guardar_dataframe] prints. *)
Inductive aviso_guardado :=
| DataFrameVacio
| GuardadoCSV (destino : string)
| GuardadoExcel (destino : string)
| GuardadoMySQL (destino : string)
| SinConexionMySQL
| ErrorAlGuardar (destino : string) (e : excepcion).

Module Saver.

(** [DataSaver.guardar_dataframe]; [engine] tells whether [self.engine] is
    set.  The method changes no attribute and catches every exception, so it
    is given by what it prints and returns. *)
Definition guardar_dataframe (engine : bool) (w : Destinos)
           (dataframe : option DataFrame) (destino if_exists : string)
  : list aviso_guardado * bool :=
  match dataframe with
  | None => ([DataFrameVacio], false)
  | Some df =>
      if Pandas.empty df then ([DataFrameVacio], false)
      else
        let extension := PyStr.lower (OsPath.splitext_ext destino) in
        if String.eqb extension ".csv" then
          match guardar_csv w df destino with
          | Devuelve _ => ([GuardadoCSV destino], true)
          | Lanza e => ([ErrorAlGuardar destino e], false)
          end
        else if String.eqb extension ".xlsx" || String.eqb extension ".xls" then
          match guardar_excel w df destino with
          | Devuelve _ => ([GuardadoExcel destino], true)
          | Lanza e => ([ErrorAlGuardar destino e], false)
          end
        else if engine then
          match to_sql w df destino if_exists with
          | Devuelve _ => ([GuardadoMySQL destino], true)
          | Lanza e => ([ErrorAlGuardar destino e], false)
          end
        else ([SinConexionMySQL], false)
  end.

End Saver.

(* ================================================================== *)
(** ** Vocabulary of the statements *)

(** The lines [validar_integridad_datos] prints for given counts. *)
Definition lineas_validacion (nulos duplicadas nfilas : nat) : list mensaje :=
  (if 0 <? nulos then [ValoresFaltantes nulos] else [])
  ++ (if 0 <? duplicadas then [FilasDuplicadas duplicadas] else [])
  ++ (if nfilas =? 0 then [DatasetVacio] else [])
  ++ (if (nulos =? 0) && (duplicadas =? 0) && negb (nfilas =? 0)
      then [ValidacionCompletada] else []).

(** A graceful failure: a value is returned and at least one line printed. *)
Definition falla_con_aviso {S A} (r : efecto S A) : Prop :=
  no_lanza r /\ salida r <> [].

(** Running [m] from a state in [P] ends in a state in [P], whether [m]
    returns or raises. *)
Definition conserva {S A} (P : S -> Prop) (m : M S A) : Prop :=
  forall s, P s -> P (estado (m s)).

(** A loaded document: the flag is up and the table is there. *)
Definition listo (d : Dataset) : Prop :=
  esta_cargado d = true /\ dataframe d <> None.

(** The invariant seen from a loader. *)
Definition sinc {S} `{Hereda S} (s : S) : Prop := sincronizado (base s).

(** The column count of the trial parse with [sep], when it succeeds. *)
Definition columnas_prueba (f : ArchivoCSV) (enc : option string) (sep : string)
  : option nat :=
  match read_csv_prueba f sep enc with
  | Devuelve df => Some (length (columns df))
  | Lanza _ => None
  end.

(** [c] is declared before [sep] in the candidate list [l]. *)
Definition precede (c sep : string) (l : list string) : Prop :=
  exists l1 l2, l = l1 ++ sep :: l2 /\ In c l1.

(** From a state in [P], [m] ends in a state and with a result related
    by [Q]. *)
Definition hoare {S A} (P : S -> Prop) (m : M S A)
           (Q : S -> resultado A -> Prop) : Prop :=
  forall s, P s -> Q (estado (m s)) (res (m s)).

(** The [sheet_name] argument [_leer_archivo_excel] passes in state [s]. *)
Definition hoja_leida (s : DatasetExcel) : hoja_sel :=
  snd (Excel.elegir_hoja (nombre_hoja s) (hojas_disponibles s)).

(** The state in which [cargar_datos] calls [_leer_archivo_excel]. *)
Definition con_hojas_enumeradas (f : ArchivoExcel) (s : DatasetExcel)
  : DatasetExcel :=
  mkDatasetExcel (xl_base s) (nombre_hoja s)
    (match sheet_names f with Devuelve hs => hs | Lanza _ => [] end).

(** At least one column, and every label a [str]. *)
Definition etiquetas_de_texto (df : DataFrame) : bool :=
  negb (length (columns df) =? 0) && forallb Pandas.es_texto (columns df).

(** The labels of the text columns once the labels are normalised. *)
Definition etiquetas_texto (df : DataFrame) : list etiqueta :=
  Pandas.etiquetas_object (map Pandas.normalizar_etiqueta (columns df))
                          (dtypes df).

(** No text column shares its normalised label with another column. *)
Definition sin_colision (df : DataFrame) : bool :=
  forallb
    (fun c =>
       Pandas.apariciones c (map Pandas.normalizar_etiqueta (columns df)) =? 1)
    (etiquetas_texto df).

(** A row with the cells under the labels [etqs] cast to [str] and trimmed. *)
Fixpoint limpiar_fila (etqs cols : list etiqueta) (r : fila) : fila :=
  match cols, r with
  | c :: cols', x :: r' =>
      (if Pandas.contiene_etiqueta c etqs then Pandas.astype_str_strip x else x)
      :: limpiar_fila etqs cols' r'
  | _, _ => r
  end.

(** The table a completed [limpiar_y_transformar_datos] leaves: labels
    normalised, later copies of a row dropped, text cells trimmed. *)
Definition tabla_limpia (df : DataFrame) : DataFrame :=
  let cols := map Pandas.normalizar_etiqueta (columns df) in
  mkDF cols true (dtypes df)
       (map (limpiar_fila (etiquetas_texto df) cols)
            (filas (Pandas.drop_duplicates (Pandas.set_columns cols df)))).

(** What [limpiar_y_transformar_datos] prints when it completes. *)
Definition lineas_limpieza (df : DataFrame) : list mensaje :=
  [IniciandoLimpieza; TransformacionesAplicadas;
   ColumnasNormalizadas (length (columns df));
   DuplicadasEliminadas
     (length (filas df)
      - length (filas (Pandas.drop_duplicates
                         (Pandas.set_columns
                            (map Pandas.normalizar_etiqueta (columns df)) df))));
   ColumnasTextoLimpiadas (length (etiquetas_texto df))].

(** What normalisation does to one character. *)
Definition normalizar_char (c : ascii) : ascii :=
  let c1 := PyStr.lower_char c in
  let c2 := if Ascii.eqb c1 " " then "_"%char else c1 in
  if Ascii.eqb c2 "-" then "_"%char else c2.

(** Empty, or starting with a character that is not a blank. *)
Definition sin_blanco_inicial (s : string) : Prop :=
  match s with
  | EmptyString => True
  | String c _ => PyStr.isspace c = false
  end.

(** What [validar_integridad_datos] returns on a loaded table. *)
Definition valida (df : DataFrame) : bool :=
  (Pandas.isnull_sum_sum df =? 0) && (Pandas.duplicated_sum df =? 0)
  && negb (Pandas.len df =? 0).

(** The [Dataset] fields [d] and the result [r] that validation and cleaning
    leave once the table [df] has been stored in a loader on [ru]. *)
Definition tras_validar_y_limpiar (df : DataFrame) (ru : string)
           (d : Dataset) (r : resultado bool) (lanzada : resultado bool) : Prop :=
  (valida df = false ->
     r = Devuelve true /\ d = mkDataset ru (Some df) true)
  /\ (valida df = true -> Pandas.str_disponible df = true ->
      sin_colision df = true ->
     r = Devuelve true /\ d = mkDataset ru (Some (tabla_limpia df)) true)
  /\ (valida df = true -> Pandas.str_disponible df = true ->
      sin_colision df = false ->
     r = lanzada /\ ruta_archivo d = ru /\ esta_cargado d = true
     /\ exists t, dataframe d = Some t
          /\ columns t = map Pandas.normalizar_etiqueta (columns df)
          /\ length (filas t) = length (filas df))
  /\ (valida df = true -> Pandas.str_disponible df = false ->
     r = lanzada /\ d = mkDataset ru (Some df) true).

(** From a state in [K], [m] ends in a state in [K] and returns. *)
Definition seguro {S A} (K : S -> Prop) (m : M S A) : Prop :=
  forall s, K s -> K (estado (m s)) /\ exists a, res (m s) = Devuelve a.

(** The lower-cased path ends with one of the extensions. *)
Definition extension_reconocida (exts : list string) (ruta : string) : Prop :=
  exists ext pre, In ext exts /\ PyStr.lower ruta = String.append pre ext.

(** A file name: not empty, without ["/"] or ["."]. *)
Fixpoint sin_caracter (c : ascii) (s : string) : Prop :=
  match s with
  | EmptyString => True
  | String a r => a <> c /\ sin_caracter c r
  end.

Definition nombre_simple (s : string) : Prop :=
  s <> "" /\ sin_caracter "/" s /\ sin_caracter "." s.

(** ** Sample inputs *)

Definition tabla_ejemplo : DataFrame :=
  mkDF (textos ["a"; "b"]) true [numerico; numerico]
       [[Num 1; Num 2]; [Num 1; Num 2]].

Definition tabla_ventas : DataFrame :=
  mkDF (textos ["Fecha"; "Monto Total"; "Descripcion"]) true
       [object; numerico; object]
       [[Str "2024-01-01"; Num 10; Str "pan "];
        [Str "2024-01-02"; Num 25; Str "leche"]].

(** A semicolon-separated file: only [";"] splits the header in three. *)
Definition archivo_punto_y_coma : ArchivoCSV :=
  mkArchivoCSV
    (Devuelve (Some "utf-8", 99))
    (fun _ => Devuelve tt)
    (fun sep _ =>
       if String.eqb sep ";"
       then Devuelve (mkDF (textos ["Fecha"; "Monto Total"; "Descripcion"])
                           true [object; numerico; object] [])
       else Devuelve (mkDF (textos ["Fecha;Monto Total;Descripcion"])
                           true [object] []))
    (fun _ _ => Devuelve tabla_ventas)
    (fun _ _ _ _ => Devuelve tt).

(** An existing, empty file: nothing for the detector to classify, nothing
    to parse. *)
Definition archivo_vacio : ArchivoCSV :=
  mkArchivoCSV
    (Devuelve (None, 0))
    (fun _ => Devuelve tt)
    (fun _ _ => Lanza EmptyDataError)
    (fun _ _ => Lanza EmptyDataError)
    (fun _ _ _ _ => Devuelve tt).

(** A workbook with the sheets Q1 and Q2. *)
Definition libro_trimestres : ArchivoExcel :=
  mkArchivoExcel
    (Devuelve ["Q1"; "Q2"])
    (fun h =>
       match h with
       | PorIndice 0 => Devuelve tabla_ventas
       | PorNombre n =>
           if String.eqb n "Q1" then Devuelve tabla_ventas
           else if String.eqb n "Q2" then Devuelve tabla_ejemplo
           else Lanza ValueError
       | PorIndice _ => Lanza ValueError
       end)
    (fun _ _ => Devuelve tt).

(** A workbook that cannot be opened. *)
Definition libro_ilegible : ArchivoExcel :=
  mkArchivoExcel (Lanza OtroError) (fun _ => Lanza OtroError)
                 (fun _ _ => Lanza OtroError).

(** A CSV loader that already holds a table. *)
Definition csv_con_tabla : DatasetCSV :=
  con_base (mkDataset "ventas.csv" (Some tabla_ejemplo) true)
           (CSV.init "ventas.csv" None None).

(** An Excel loader that already holds a table. *)
Definition excel_con_tabla : DatasetExcel :=
  con_base (mkDataset "ventas.xlsx" (Some tabla_ejemplo) true)
           (Excel.init "ventas.xlsx" None).

(** Two rows that differ only by a trailing blank. *)
Definition tabla_espacios : DataFrame :=
  mkDF (textos ["x"]) true [object] [[Str "a "]; [Str "a"]].


(** Two text columns whose labels differ only in case. *)
Definition tabla_colision : DataFrame :=
  mkDF (textos ["A"; "a"]) true [object; object] [[NaN; Str "x"]].

(** Three text columns, two of them with labels that differ only in case;
    one row without blank cells. *)
Definition tabla_mayusculas : DataFrame :=
  mkDF (textos ["X"; "A"; "a"]) true [object; object; object]
       [[Str " u "; Str " v "; Str "w"]].

(** A comma-separated file that holds [tabla_mayusculas]. *)
Definition archivo_mayusculas : ArchivoCSV :=
  mkArchivoCSV
    (Devuelve (Some "utf-8", 99))
    (fun _ => Devuelve tt)
    (fun _ _ => Devuelve tabla_mayusculas)
    (fun _ _ => Devuelve tabla_mayusculas)
    (fun _ _ _ _ => Devuelve tt).

(** A sheet whose header cells are the years: integer labels in a typed
    Index. *)
Definition tabla_anios : DataFrame :=
  mkDF [Entero 2023; Entero 2024] false [numerico; numerico]
       [[Num 10; Num 12]; [Num 20; Num 25]].

(** A workbook whose only sheet has the years as header cells. *)
Definition libro_anios : ArchivoExcel :=
  mkArchivoExcel (Devuelve ["Hoja1"]) (fun _ => Devuelve tabla_anios)
                 (fun _ _ => Devuelve tt).

(** A workbook whose only sheet is empty. *)
Definition libro_hoja_vacia : ArchivoExcel :=
  mkArchivoExcel (Devuelve ["Hoja1"]) (fun _ => Devuelve (mkDF [] false [] []))
                 (fun _ _ => Devuelve tt).

(* ================================================================== *)
(** * Properties *)

(** ** The monad computes *)

Lemma estado_bind_leer {S A B} (f : S -> A) (k : A -> M S B) (s : S) :
  bind (leer f) k s = k (f s) s.
Proof.
  unfold bind, leer; simpl. destruct (k (f s) s); reflexivity.
Qed.

Lemma bind_print {S B} (m : mensaje) (k : unit -> M S B) (s : S) :
  bind (print m) k s
  = mkEfecto (estado (k tt s)) (m :: salida (k tt s)) (res (k tt s)).
Proof. reflexivity. Qed.

Lemma bind_ret {S A B} (a : A) (k : A -> M S B) (s : S) :
  bind (ret a) k s = k a s.
Proof. unfold bind, ret; simpl. destruct (k a s); reflexivity. Qed.

Lemma bind_raise {S A B} (e : excepcion) (k : A -> M S B) (s : S) :
  bind (raise e) k s = mkEfecto s [] (Lanza e).
Proof. reflexivity. Qed.

Lemma bind_conocido {S A B} (m : M S A) (k : A -> M S B) (s s1 : S)
      (l : list mensaje) (a : A) :
  m s = mkEfecto s1 l (Devuelve a) ->
  bind m k s
  = mkEfecto (estado (k a s1)) (l ++ salida (k a s1)) (res (k a s1)).
Proof. intros H. unfold bind. rewrite H. reflexivity. Qed.

Lemma bind_el_dataframe {B} (k : DataFrame -> M Dataset B) (s : Dataset) df :
  dataframe s = Some df -> bind Base.el_dataframe k s = k df s.
Proof.
  intros H. unfold bind, Base.el_dataframe. rewrite H. simpl.
  destruct (k df s); reflexivity.
Qed.

(** ** Reading the validation counts *)

Section Conteos.

Lemma cuenta_nulos_cero (r : fila) :
  Pandas.cuenta_nulos r = 0 <-> ~ In NaN r.
Proof.
  unfold Pandas.cuenta_nulos. induction r as [|c r IH]; simpl.
  - tauto.
  - destruct c; simpl; split; intros H; try discriminate.
    + exfalso. apply H. now left.
    + apply IH in H. intros [E|E]; [discriminate | tauto].
    + apply IH. tauto.
    + apply IH in H. intros [E|E]; [discriminate | tauto].
    + apply IH. tauto.
Qed.

(** The missing-value total is zero exactly when no cell is NaN. *)
Lemma isnull_sum_sum_cero (df : DataFrame) :
  Pandas.isnull_sum_sum df = 0 <-> (forall r, In r (filas df) -> ~ In NaN r).
Proof.
  unfold Pandas.isnull_sum_sum. induction (filas df) as [|r rs IH]; simpl.
  - split; [intros _ r [] | reflexivity].
  - split.
    + intros H r' [<-|Hin].
      * apply cuenta_nulos_cero. lia.
      * apply IH; [lia | assumption].
    + intros H.
      assert (H1 : Pandas.cuenta_nulos r = 0)
        by (apply cuenta_nulos_cero, H; now left).
      assert (H2 : list_sum (map Pandas.cuenta_nulos rs) = 0)
        by (apply IH; intros; apply H; now right).
      lia.
Qed.

Lemma esta_en_true (r : fila) (vistos : list fila) :
  Pandas.esta_en r vistos = true <-> In r vistos.
Proof.
  unfold Pandas.esta_en. destruct (in_dec fila_eq_dec r vistos); split;
    intros; try assumption; try reflexivity; try discriminate; contradiction.
Qed.

Lemma esta_en_false (r : fila) (vistos : list fila) :
  Pandas.esta_en r vistos = false <-> ~ In r vistos.
Proof.
  rewrite <- esta_en_true. destruct (Pandas.esta_en r vistos); split;
    intros; try reflexivity; try discriminate; try congruence.
Qed.

Lemma duplicadas_desde_cero (vistos rs : list fila) :
  length (filter (fun b : bool => b) (Pandas.duplicated_desde vistos rs)) = 0
  <-> (NoDup rs /\ forall r, In r rs -> ~ In r vistos).
Proof.
  revert vistos. induction rs as [|r rs IH]; intros vistos; simpl.
  - split; [intros _; split; [constructor | intros r []] | reflexivity].
  - destruct (Pandas.esta_en r vistos) eqn:E; simpl.
    + split; [discriminate|]. intros [_ H]. exfalso.
      apply (H r); [now left | now apply esta_en_true].
    + rewrite IH. apply esta_en_false in E. split.
      * intros [Hnd H]. split.
        -- constructor; [|assumption]. intros Hin. apply (H r Hin). now left.
        -- intros r' [<-|Hin]; [assumption|].
           intros Hv. apply (H r' Hin). now right.
      * intros [Hnd H]. inversion Hnd as [|? ? Hnotin Hnd']; subst. split.
        -- assumption.
        -- intros r' Hin [<-|Hv]; [contradiction|].
           apply (H r'); [now right | assumption].
Qed.

Lemma empty_true (df : DataFrame) :
  Pandas.empty df = true <-> columns df = [] \/ filas df = [].
Proof.
  unfold Pandas.empty.
  rewrite orb_true_iff, !Nat.eqb_eq, !length_zero_iff_nil. tauto.
Qed.

(** The duplicate count is zero exactly when the frame has no columns or no
    row repeats an earlier one. *)
Lemma duplicated_sum_cero (df : DataFrame) :
  Pandas.duplicated_sum df = 0 <-> columns df = [] \/ NoDup (filas df).
Proof.
  unfold Pandas.duplicated_sum, Pandas.duplicated.
  destruct (Pandas.empty df) eqn:E.
  - apply empty_true in E. simpl. split; [intros _ | reflexivity].
    destruct E as [E|E]; [now left | right; rewrite E; constructor].
  - rewrite duplicadas_desde_cero.
    assert (Hc : columns df <> []).
    { intros H. assert (Pandas.empty df = true) by (apply empty_true; now left).
      congruence. }
    split.
    + intros [H _]. now right.
    + intros [H|H]; [contradiction|]. split; [assumption | intros r _ []].
Qed.

Lemma sin_duplicados_desde_id (vistos rs : list fila) :
  NoDup rs -> (forall r, In r rs -> ~ In r vistos) ->
  Pandas.sin_duplicados_desde vistos rs = rs.
Proof.
  revert vistos. induction rs as [|r rs IH]; intros vistos Hnd H; simpl.
  - reflexivity.
  - inversion Hnd as [|? ? Hnotin Hnd']; subst.
    assert (E : Pandas.esta_en r vistos = false)
      by (apply esta_en_false, H; now left).
    rewrite E. f_equal. apply IH; [assumption|].
    intros r' Hin [<-|Hv]; [contradiction|].
    apply (H r'); [now right | assumption].
Qed.

(** Dropping duplicates from a frame without any leaves it as it is. *)
Lemma drop_duplicates_id (df : DataFrame) :
  Pandas.duplicated_sum df = 0 -> Pandas.drop_duplicates df = df.
Proof.
  intros H. apply duplicated_sum_cero in H.
  unfold Pandas.drop_duplicates.
  destruct (Pandas.empty df) eqn:E; [destruct df; reflexivity|].
  destruct H as [H|H].
  - assert (Pandas.empty df = true) by (apply empty_true; now left). congruence.
  - rewrite sin_duplicados_desde_id; [destruct df; reflexivity | assumption |].
    intros r _ [].
Qed.

End Conteos.

(* ------------------------------------------------------------------ *)
(** ** The [dataframe] setter *)

(** C7. Assigning a value that is neither [None] nor a DataFrame raises
    [TypeError] and leaves every field, the table and [esta_cargado] among
    them, as it was; assigning [None] or a DataFrame returns normally and
    stores it. *)
Theorem setter_contrato (d : Dataset) (v : valor) :
  let r := Base.set_dataframe v d in
  match v with
  | VNone =>
      res r = Devuelve tt /\ dataframe (estado r) = None
      /\ esta_cargado (estado r) = false
  | VDataFrame df =>
      res r = Devuelve tt /\ dataframe (estado r) = Some df
      /\ esta_cargado (estado r) = true
  | VStr _ | VInt _ =>
      res r = Lanza TypeError /\ estado r = d /\ salida r = []
  end.
Proof.
  destruct v; simpl; repeat split; reflexivity.
Qed.

(* ------------------------------------------------------------------ *)
(** ** validar_integridad_datos *)

Lemma validar_cargado (d : Dataset) (df : DataFrame) :
  esta_cargado d = true -> dataframe d = Some df ->
  Base.validar_integridad_datos d =
  mkEfecto d
    (lineas_validacion (Pandas.isnull_sum_sum df) (Pandas.duplicated_sum df)
                       (Pandas.len df))
    (Devuelve ((Pandas.isnull_sum_sum df =? 0) && (Pandas.duplicated_sum df =? 0)
               && negb (Pandas.len df =? 0))).
Proof.
  intros Hc Hd. unfold Base.validar_integridad_datos.
  rewrite estado_bind_leer, Hc. cbn [negb].
  rewrite (@bind_el_dataframe _ _ _ _ Hd).
  unfold lineas_validacion.
  destruct (Pandas.isnull_sum_sum df) as [|n];
    destruct (Pandas.duplicated_sum df) as [|m];
    destruct (Pandas.len df) as [|k]; reflexivity.
Qed.

(** C5. On a loaded document [validar_integridad_datos] returns [True]
    exactly when no cell is missing, the duplicate-row count is zero (on a
    table with columns: no row repeats an earlier row) and there is at least
    one row; it prints one line for each of the three problems it finds (and
    the all-clear line when it finds none); the document is left as it
    was. *)
Theorem validar_integridad_correcta (d : Dataset) (df : DataFrame) :
  esta_cargado d = true -> dataframe d = Some df ->
  let r := Base.validar_integridad_datos d in
  estado r = d
  /\ (exists b, res r = Devuelve b
        /\ (b = true <->
            (forall f, In f (filas df) -> ~ In NaN f)
            /\ Pandas.duplicated_sum df = 0
            /\ filas df <> []))
  /\ (columns df <> [] ->
      (Pandas.duplicated_sum df = 0 <-> NoDup (filas df)))
  /\ salida r =
       lineas_validacion (Pandas.isnull_sum_sum df) (Pandas.duplicated_sum df)
                         (length (filas df)).
Proof.
  intros Hc Hd. cbv zeta. rewrite (validar_cargado d Hc Hd). simpl.
  split; [reflexivity|]. split; [|split; [|reflexivity]].
  - eexists; split; [reflexivity|].
    rewrite !andb_true_iff, negb_true_iff, !Nat.eqb_eq, Nat.eqb_neq.
    rewrite isnull_sum_sum_cero.
    unfold Pandas.len. rewrite length_zero_iff_nil. tauto.
  - intros Hcols. rewrite duplicated_sum_cero. tauto.
Qed.

Lemma validar_integridad_correcta_witness :
  let d := mkDataset "datos.csv" (Some tabla_ejemplo) true in
  let r := Base.validar_integridad_datos d in
  estado r = d
  /\ (exists b, res r = Devuelve b
        /\ (b = true <->
            (forall f, In f (filas tabla_ejemplo) -> ~ In NaN f)
            /\ Pandas.duplicated_sum tabla_ejemplo = 0
            /\ filas tabla_ejemplo <> []))
  /\ (columns tabla_ejemplo <> [] ->
      (Pandas.duplicated_sum tabla_ejemplo = 0 <-> NoDup (filas tabla_ejemplo)))
  /\ salida r =
       lineas_validacion (Pandas.isnull_sum_sum tabla_ejemplo)
                         (Pandas.duplicated_sum tabla_ejemplo)
                         (length (filas tabla_ejemplo)).
Proof.
  exact (@validar_integridad_correcta
           (mkDataset "datos.csv" (Some tabla_ejemplo) true) tabla_ejemplo
           eq_refl eq_refl).
Defined.

(* ------------------------------------------------------------------ *)
(** ** Methods called without a table *)

(** C2, refuted as stated: on a fresh document [validar_integridad_datos]
    raises, and [verificar_columnas_requeridas] prints nothing. *)
Lemma sin_tabla_contraejemplo :
  dataframe (Base.init "datos.csv") = None
  /\ ~ falla_con_aviso (Base.validar_integridad_datos (Base.init "datos.csv"))
  /\ ~ falla_con_aviso
         (Base.verificar_columnas_requeridas ["x"] (Base.init "datos.csv")).
Proof.
  split; [reflexivity|]. split.
  - intros [[b Hb] _]. discriminate Hb.
  - intros [_ H]. apply H. reflexivity.
Qed.

(** C2, amended. On a document without a table
    [limpiar_y_transformar_datos] returns [False] and the two summary methods
    return [None], each after one printed line; [verificar_columnas_requeridas]
    returns [False] and prints nothing; none of the four raises.
    [validar_integridad_datos] raises [ValueError].  All five leave the
    document as it was. *)
Theorem sin_tabla_fallos (d : Dataset) :
  sincronizado d -> dataframe d = None ->
  Base.limpiar_y_transformar_datos d
    = mkEfecto d [SinDatosParaProcesar] (Devuelve false)
  /\ Base.obtener_informacion_basica d
    = mkEfecto d [SinDatosParaInformacion] (Devuelve tt)
  /\ Base.mostrar_resumen_estadistico d
    = mkEfecto d [SinDatosParaResumen] (Devuelve None)
  /\ (forall cols,
        Base.verificar_columnas_requeridas cols d = mkEfecto d [] (Devuelve false))
  /\ Base.validar_integridad_datos d = mkEfecto d [] (Lanza ValueError).
Proof.
  intros Hs Hd.
  assert (Hc : esta_cargado d = false).
  { destruct (esta_cargado d) eqn:E; [|reflexivity].
    exfalso. now apply Hs. }
  unfold Base.limpiar_y_transformar_datos, Base.obtener_informacion_basica,
    Base.mostrar_resumen_estadistico, Base.verificar_columnas_requeridas,
    Base.validar_integridad_datos.
  repeat split; intros; rewrite estado_bind_leer, Hc; reflexivity.
Qed.

Lemma sin_tabla_fallos_witness :
  Base.limpiar_y_transformar_datos (Base.init "datos.csv")
    = mkEfecto (Base.init "datos.csv") [SinDatosParaProcesar] (Devuelve false)
  /\ Base.validar_integridad_datos (Base.init "datos.csv")
    = mkEfecto (Base.init "datos.csv") [] (Lanza ValueError).
Proof.
  assert (Hs : sincronizado (Base.init "datos.csv")).
  { split; simpl; [discriminate | congruence]. }
  destruct (@sin_tabla_fallos (Base.init "datos.csv") Hs eq_refl)
    as (H1 & _ & _ & _ & H5).
  exact (conj H1 H5).
Defined.

(* ------------------------------------------------------------------ *)
(** ** [esta_cargado] follows the table *)

Section Conserva.

Context {S : Type}.
Variable P : S -> Prop.

Lemma conserva_ret {A} (a : A) : conserva P (ret a).
Proof. intros s H; exact H. Qed.

Lemma conserva_raise {A} (e : excepcion) : conserva P (@raise S A e).
Proof. intros s H; exact H. Qed.

Lemma conserva_print (m : mensaje) : conserva P (print m).
Proof. intros s H; exact H. Qed.

Lemma conserva_leer {A} (f : S -> A) : conserva P (leer f).
Proof. intros s H; exact H. Qed.

Lemma conserva_llamar {A} (r : resultado A) : conserva P (llamar r).
Proof. destruct r; intros s H; exact H. Qed.

Lemma conserva_modificar (f : S -> S) :
  (forall s, P s -> P (f s)) -> conserva P (modificar f).
Proof. intros Hf s H; apply Hf, H. Qed.

Lemma conserva_bind {A B} (m : M S A) (k : A -> M S B) :
  conserva P m -> (forall a, conserva P (k a)) -> conserva P (bind m k).
Proof.
  intros Hm Hk s H. unfold bind. specialize (Hm s H).
  destruct (res (m s)); simpl; [apply Hk|]; exact Hm.
Qed.

Lemma conserva_try {A} (m : M S A) (h : excepcion -> M S A) :
  conserva P m -> (forall e, conserva P (h e)) -> conserva P (try_except m h).
Proof.
  intros Hm Hh s H. unfold try_except. specialize (Hm s H).
  destruct (res (m s)); simpl; [|apply Hh]; exact Hm.
Qed.

Lemma conserva_cuando (b : bool) (m : M S unit) :
  conserva P m -> conserva P (Base.cuando b m).
Proof. destruct b; intros Hm; [exact Hm | apply conserva_ret]. Qed.

Lemma conserva_imprimir (ms : list mensaje) : conserva P (Excel.imprimir ms).
Proof.
  induction ms as [|m ms IH]; simpl.
  - apply conserva_ret.
  - apply conserva_bind; [apply conserva_print | intros _; exact IH].
Qed.

End Conserva.

Lemma conserva_heredado {S} `{Hereda S} (P : Dataset -> Prop) {A}
      (m : M Dataset A) :
  conserva P m -> conserva (fun s => P (base s)) (heredado m).
Proof.
  intros Hm s Hs. unfold heredado; simpl. rewrite base_con_base. apply Hm, Hs.
Qed.

Lemma conserva_el_dataframe (P : Dataset -> Prop) : conserva P Base.el_dataframe.
Proof.
  intros s H. unfold Base.el_dataframe. destruct (dataframe s); exact H.
Qed.

Create HintDb conserva.
#[export] Hint Resolve conserva_ret conserva_raise conserva_print conserva_leer
  conserva_llamar conserva_cuando conserva_imprimir conserva_el_dataframe
  : conserva.

(** Walks through a method body: sequencing, handlers and branches. *)
Ltac conserva_paso :=
  match goal with
  | |- conserva _ (bind _ _) => apply conserva_bind; [| intro]
  | |- conserva _ (try_except _ _) => apply conserva_try; [| intro]
  | |- conserva _ (Base.cuando _ _) => apply conserva_cuando
  | |- conserva _ (if ?b then _ else _) => destruct b
  | |- conserva _ (match ?x with _ => _ end) => destruct x
  | |- conserva _ (let _ := _ in _) => cbv zeta
  | |- conserva _ _ => solve [auto with conserva]
  end.

Ltac conserva_tac := repeat conserva_paso.

Lemma listo_sincronizado (d : Dataset) : listo d -> sincronizado d.
Proof. intros [H1 H2]; split; intros _; assumption. Qed.

Lemma conserva_asignar_campo (df : DataFrame) :
  conserva listo (Base.asignar_campo_dataframe df).
Proof.
  apply conserva_modificar. intros s [H1 H2]; split; simpl;
    [assumption | discriminate].
Qed.

#[export] Hint Resolve conserva_asignar_campo : conserva.

Lemma conserva_limpiar_columnas (cols : list etiqueta) :
  conserva listo (Base.limpiar_columnas_texto cols).
Proof.
  induction cols as [|c cols IH]; simpl; conserva_tac.
Qed.

#[export] Hint Resolve conserva_limpiar_columnas : conserva.

(** What a guarded method does from a synchronised state: nothing to the
    fields when the flag is down, the loaded branch otherwise. *)
Lemma conserva_con_guarda {A} (sin_datos con_datos : M Dataset A) :
  conserva sincronizado sin_datos ->
  conserva listo con_datos ->
  conserva sincronizado
    (cargado <- leer esta_cargado ;;
     if negb cargado then sin_datos else con_datos).
Proof.
  intros H0 H1 s Hs. rewrite estado_bind_leer.
  destruct (esta_cargado s) eqn:E; cbn [negb].
  - apply listo_sincronizado, H1. split; [assumption | now apply Hs].
  - apply H0, Hs.
Qed.

Lemma conserva_set_dataframe (v : valor) :
  conserva sincronizado (Base.set_dataframe v).
Proof.
  destruct v; simpl; try apply conserva_raise;
    apply conserva_modificar; intros s _; split; simpl; congruence.
Qed.

Lemma conserva_validar : conserva sincronizado Base.validar_integridad_datos.
Proof. unfold Base.validar_integridad_datos. conserva_tac. Qed.

Lemma conserva_limpiar : conserva sincronizado Base.limpiar_y_transformar_datos.
Proof. apply conserva_con_guarda; conserva_tac. Qed.

Lemma conserva_informacion : conserva sincronizado Base.obtener_informacion_basica.
Proof. unfold Base.obtener_informacion_basica. conserva_tac. Qed.

Lemma conserva_resumen : conserva sincronizado Base.mostrar_resumen_estadistico.
Proof. unfold Base.mostrar_resumen_estadistico. conserva_tac. Qed.

Lemma conserva_verificar (cols : list string) :
  conserva sincronizado (Base.verificar_columnas_requeridas cols).
Proof. unfold Base.verificar_columnas_requeridas. conserva_tac. Qed.

#[export] Hint Resolve conserva_set_dataframe conserva_validar conserva_limpiar
  conserva_informacion conserva_resumen conserva_verificar : conserva.

Lemma ejecutar_base_sincronizado (o : op_base) (d : Dataset) :
  sincronizado d -> sincronizado (ejecutar_base o d).
Proof.
  intros H. destruct o; simpl; unfold tras;
    match goal with |- sincronizado (estado (?m d)) =>
      assert (Hm : conserva sincronizado m) by auto with conserva;
      exact (Hm d H)
    end.
Qed.

Lemma conserva_heredado_sinc {S} `{Hereda S} {A} (m : M Dataset A) :
  conserva sincronizado m -> conserva sinc (heredado m).
Proof. intros Hm. exact (@conserva_heredado _ _ sincronizado _ m Hm). Qed.

Lemma conserva_campo_propio {S} `{Hereda S} (f : S -> S) :
  (forall s, base (f s) = base s) -> conserva sinc (modificar f).
Proof.
  intros Hf. apply conserva_modificar. intros s Hs.
  unfold sinc. rewrite Hf. exact Hs.
Qed.

Ltac conserva_cargador :=
  repeat first
    [ conserva_paso
    | apply conserva_heredado_sinc; solve [auto with conserva]
    | apply conserva_campo_propio; intros; reflexivity ].

Lemma conserva_csv_cargar (f : ArchivoCSV) : conserva sinc (CSV.cargar_datos f).
Proof.
  unfold CSV.cargar_datos, CSV._validar_extension_csv, CSV._detectar_codificacion,
    CSV._detectar_separador, CSV._leer_archivo_csv, CSV.manejar_error_carga,
    CSV.set_codificacion_detectada, CSV.set_separador_detectado.
  conserva_cargador.
Qed.

Lemma conserva_xl_cargar (f : ArchivoExcel) : conserva sinc (Excel.cargar_datos f).
Proof.
  unfold Excel.cargar_datos, Excel._validar_extension_excel,
    Excel._obtener_hojas_disponibles, Excel._leer_archivo_excel,
    Excel.manejar_error_carga, Excel.set_hojas_disponibles.
  conserva_cargador.
Qed.

#[export] Hint Resolve conserva_csv_cargar conserva_xl_cargar : conserva.

Lemma ejecutar_csv_sinc (o : op_csv) (s : DatasetCSV) :
  sinc s -> sinc (ejecutar_csv o s).
Proof.
  intros H. destruct o as [o| | | | |]; simpl.
  - unfold sinc in *; simpl in *. apply ejecutar_base_sincronizado, H.
  - exact (@conserva_csv_cargar f s H).
  - assert (Hm : conserva sinc (CSV.cambiar_parametros_carga f sep enc)).
    { unfold CSV.cambiar_parametros_carga, CSV.set_separador, CSV.set_codificacion.
      conserva_cargador. }
    exact (Hm s H).
  - assert (Hm : conserva sinc CSV.mostrar_informacion_archivo).
    { unfold CSV.mostrar_informacion_archivo. conserva_cargador. }
    exact (Hm s H).
  - assert (Hm : conserva sinc (CSV.exportar_con_nuevos_parametros f destino sep enc)).
    { unfold CSV.exportar_con_nuevos_parametros. conserva_cargador. }
    exact (Hm s H).
  - assert (Hm : conserva sinc (CSV.previsualizar_estructura n)).
    { unfold CSV.previsualizar_estructura. conserva_cargador. }
    exact (Hm s H).
Qed.

Lemma ejecutar_excel_sinc (o : op_excel) (s : DatasetExcel) :
  sinc s -> sinc (ejecutar_excel o s).
Proof.
  intros H. destruct o as [o| | | |]; simpl.
  - unfold sinc in *; simpl in *. apply ejecutar_base_sincronizado, H.
  - exact (@conserva_xl_cargar f s H).
  - assert (Hm : conserva sinc (Excel.cambiar_hoja f hoja)).
    { unfold Excel.cambiar_hoja, Excel.set_nombre_hoja. conserva_cargador. }
    exact (Hm s H).
  - assert (Hm : conserva sinc Excel.mostrar_informacion_hojas).
    { unfold Excel.mostrar_informacion_hojas. conserva_cargador. }
    exact (Hm s H).
  - assert (Hm : conserva sinc (Excel.exportar_hoja_actual f destino)).
    { unfold Excel.exportar_hoja_actual. conserva_cargador. }
    exact (Hm s H).
Qed.

(** C4. In every state a CSV loader or an Excel loader reaches from its
    constructor through public operations (the setter, the inherited methods
    and its own, whether they return or raise), [esta_cargado] is true exactly
    when the table is not [None]. *)
Theorem esta_cargado_sincronizado :
  (forall s, alcanzable_csv s ->
     (esta_cargado (base s) = true <-> dataframe (base s) <> None))
  /\ (forall s, alcanzable_excel s ->
     (esta_cargado (base s) = true <-> dataframe (base s) <> None)).
Proof.
  split; intros s Hs; change (sinc s); induction Hs.
  - split; simpl; [discriminate | congruence].
  - now apply ejecutar_csv_sinc.
  - split; simpl; [discriminate | congruence].
  - now apply ejecutar_excel_sinc.
Qed.

Lemma esta_cargado_sincronizado_witness :
  let s := ejecutar_csv (CsvCargar archivo_punto_y_coma)
                        (CSV.init "ventas.csv" None None) in
  alcanzable_csv s
  /\ (esta_cargado (base s) = true <-> dataframe (base s) <> None).
Proof.
  assert (H : alcanzable_csv
                (ejecutar_csv (CsvCargar archivo_punto_y_coma)
                              (CSV.init "ventas.csv" None None)))
    by apply alc_csv_paso, alc_csv_init.
  split; [exact H|].
  exact (proj1 esta_cargado_sincronizado _ H).
Defined.

(* ------------------------------------------------------------------ *)
(** ** Separator detection *)

Lemma probar_separadores_spec (f : ArchivoCSV) (enc : option string)
      (seps : list string) (b0 : string) (m0 : nat) :
  let cols := columnas_prueba f enc in
  let R := CSV.probar_separadores f enc seps (b0, m0) in
  (forall c k, In c seps -> cols c = Some k -> k <= snd R)
  /\ m0 <= snd R
  /\ ((R = (b0, m0))
      \/ (exists l1 l2,
            seps = l1 ++ fst R :: l2
            /\ cols (fst R) = Some (snd R)
            /\ m0 < snd R
            /\ forall c k, In c l1 -> cols c = Some k -> k < snd R)).
Proof.
  cbv zeta. revert b0 m0.
  induction seps as [|sep resto IH]; intros b0 m0; simpl.
  - repeat split; [intros c k [] | lia | now left].
  - unfold columnas_prueba in *.
    destruct (read_csv_prueba f sep enc) as [df|e] eqn:E.
    + destruct (m0 <? length (columns df)) eqn:Hlt.
      * apply Nat.ltb_lt in Hlt.
        destruct (IH sep (length (columns df))) as (Hmax & Hle & Hsel).
        split; [|split].
        -- intros c k [<-|Hin] Hc.
           ++ rewrite E in Hc. injection Hc as <-. exact Hle.
           ++ eapply Hmax; eassumption.
        -- lia.
        -- right. destruct Hsel as [Heq | (l1 & l2 & Hl & Hc & Hm & Hantes)].
           ++ rewrite Heq; simpl. exists [], resto.
              rewrite E. repeat split; try assumption. intros c k [].
           ++ exists (sep :: l1), l2. rewrite Hl at 1. repeat split.
              ** exact Hc.
              ** lia.
              ** intros c k [<-|Hin] Hk.
                 --- rewrite E in Hk. injection Hk as <-. exact Hm.
                 --- eapply Hantes; eassumption.
      * apply Nat.ltb_ge in Hlt.
        destruct (IH b0 m0) as (Hmax & Hle & Hsel).
        split; [|split].
        -- intros c k [<-|Hin] Hc.
           ++ rewrite E in Hc. injection Hc as <-. lia.
           ++ eapply Hmax; eassumption.
        -- exact Hle.
        -- destruct Hsel as [Heq | (l1 & l2 & Hl & Hc & Hm & Hantes)].
           ++ now left.
           ++ right. exists (sep :: l1), l2. rewrite Hl at 1. repeat split.
              ** exact Hc.
              ** exact Hm.
              ** intros c k [<-|Hin] Hk.
                 --- rewrite E in Hk. injection Hk as <-. lia.
                 --- eapply Hantes; eassumption.
    + destruct (IH b0 m0) as (Hmax & Hle & Hsel).
      split; [|split].
      * intros c k [<-|Hin] Hc.
        -- rewrite E in Hc. discriminate.
        -- eapply Hmax; eassumption.
      * exact Hle.
      * destruct Hsel as [Heq | (l1 & l2 & Hl & Hc & Hm & Hantes)].
        -- now left.
        -- right. exists (sep :: l1), l2. rewrite Hl at 1. repeat split.
           ++ exact Hc.
           ++ exact Hm.
           ++ intros c k [<-|Hin] Hk.
              ** rewrite E in Hk. discriminate.
              ** eapply Hantes; eassumption.
Qed.

(** With no trial parse succeeding the loop keeps its starting pair. *)
Lemma probar_separadores_todos_fallan (f : ArchivoCSV) (enc : option string)
      (seps : list string) (mejor : string * nat) :
  (forall c, In c seps -> columnas_prueba f enc c = None) ->
  CSV.probar_separadores f enc seps mejor = mejor.
Proof.
  induction seps as [|sep resto IH]; intros H; simpl; [reflexivity|].
  assert (Hs := H sep (or_introl eq_refl)). unfold columnas_prueba in Hs.
  destruct (read_csv_prueba f sep enc); [discriminate|].
  apply IH. intros c Hc. apply H. now right.
Qed.

Lemma detectar_separador_efecto (f : ArchivoCSV) (s : DatasetCSV) :
  let enc := CSV.codificacion s in
  let r := CSV._detectar_separador f s in
  res r = Devuelve tt
  /\ base (estado r) = base s
  /\ csv_separador (estado r) = csv_separador s
  /\ separador_detectado (estado r) =
       Some (match leer_lineas_muestra f enc with
             | Devuelve _ =>
                 fst (CSV.probar_separadores f enc CSV.separadores_comunes (",", 0))
             | Lanza _ => ","
             end).
Proof.
  cbv zeta. unfold CSV._detectar_separador, try_except.
  rewrite bind_print. cbn [res estado salida].
  rewrite estado_bind_leer.
  destruct (leer_lineas_muestra f (CSV.codificacion s)) as [[]|e]; simpl;
    repeat split; reflexivity.
Qed.

Lemma descomposicion_unica {A} (x : A) (l1 l1' l2 l2' : list A) :
  ~ In x l1 -> ~ In x l1' -> l1 ++ x :: l2 = l1' ++ x :: l2' -> l1 = l1'.
Proof.
  revert l1'. induction l1 as [|a l1 IH]; intros [|a' l1'] H1 H1' E;
    simpl in *; try reflexivity.
  - injection E as <- _. exfalso. apply H1'. now left.
  - injection E as -> _. exfalso. apply H1. now left.
  - injection E as <- E. f_equal. apply IH; [tauto | tauto | exact E].
Qed.

Lemma separadores_comunes_NoDup : NoDup CSV.separadores_comunes.
Proof.
  unfold CSV.separadores_comunes.
  repeat constructor; simpl; intros H;
    repeat (destruct H as [H|H]; [discriminate H|]); exact H.
Qed.

(** C3. With no explicit separator, [_detectar_separador] never raises and
    stores a separator, which becomes the effective one.  Once the sample
    lines have been read, each candidate of [",", ";", TAB, "|"] is
    trial-parsed in that order on the first five rows; if some trial parse
    succeeds, the stored separator is the candidate with the largest column
    count, and among equal counts the one declared first.  If every trial
    parse fails, or the sample cannot be read, the stored separator is the
    comma.  (A successful [read_csv] yields at least one column.) *)
Theorem deteccion_separador (f : ArchivoCSV) (s : DatasetCSV) :
  (forall sep df,
      read_csv_prueba f sep (CSV.codificacion s) = Devuelve df ->
      columns df <> []) ->
  let enc := CSV.codificacion s in
  let cols := columnas_prueba f enc in
  let seps := CSV.separadores_comunes in
  let r := CSV._detectar_separador f s in
  res r = Devuelve tt
  /\ exists sep,
       separador_detectado (estado r) = Some sep
       /\ (PyStr.truthy (csv_separador s) = false ->
           CSV.separador (estado r) = Some sep)
       /\ (leer_lineas_muestra f enc = Devuelve tt ->
           (exists c, In c seps /\ cols c <> None) ->
           In sep seps
           /\ exists n, cols sep = Some n
                /\ (forall c k, In c seps -> cols c = Some k -> k <= n)
                /\ (forall c k, precede c sep seps -> cols c = Some k -> k < n))
       /\ ((forall c, In c seps -> cols c = None) -> sep = ",")
       /\ ((exists e, leer_lineas_muestra f enc = Lanza e) -> sep = ",").
Proof.
  intros Hpos. cbv zeta.
  destruct (detectar_separador_efecto f s) as (Hres & _ & Hexp & Hdet).
  split; [exact Hres|].
  eexists; split; [exact Hdet|]. split; [|split; [|split]].
  - intros Ht. unfold CSV.separador, PyStr.py_or. rewrite Hexp, Ht. exact Hdet.
  - intros Hok (c0 & Hc0 & Hsome). rewrite Hok.
    assert (Hspec := probar_separadores_spec f (CSV.codificacion s)
                       CSV.separadores_comunes "," 0).
    cbv zeta in Hspec.
    set (R := CSV.probar_separadores _ _ _ _) in *.
    destruct Hspec as (Hmax & _ & Hsel).
    destruct Hsel as [Heq | (l1 & l2 & Hl & Hc & Hm & Hantes)].
    + exfalso. destruct (columnas_prueba f (CSV.codificacion s) c0) as [k|] eqn:Ek;
        [|now apply Hsome].
      assert (Hk := Hmax c0 k Hc0 Ek). rewrite Heq in Hk. simpl in Hk.
      unfold columnas_prueba in Ek.
      destruct (read_csv_prueba f c0 (CSV.codificacion s)) as [df|] eqn:Er;
        [|discriminate].
      apply Hpos in Er. injection Ek as <-.
      destruct (columns df); [now apply Er | simpl in Hk; lia].
    + split.
      * rewrite Hl. apply in_or_app. right. now left.
      * eexists; split; [exact Hc|]. split; [exact Hmax|].
        intros c k (l1' & l2' & Hl' & Hin) Hk.
        assert (Hnd := separadores_comunes_NoDup).
        assert (l1' = l1) as ->.
        { assert (Hnd1 := Hnd). rewrite Hl in Hnd1. apply NoDup_remove_2 in Hnd1.
          assert (Hnd2 := Hnd). rewrite Hl' in Hnd2. apply NoDup_remove_2 in Hnd2.
          eapply descomposicion_unica.
          - intros Hx. apply Hnd2. apply in_or_app. left. exact Hx.
          - intros Hx. apply Hnd1. apply in_or_app. left. exact Hx.
          - rewrite <- Hl'. exact Hl. }
        eapply Hantes; eassumption.
  - intros Hnone.
    rewrite (probar_separadores_todos_fallan _ _ _ _ Hnone).
    destruct (leer_lineas_muestra f (CSV.codificacion s)); reflexivity.
  - intros [e He]. rewrite He. reflexivity.
Qed.

Lemma deteccion_separador_witness :
  let s := CSV.init "ventas.csv" None None in
  let r := CSV._detectar_separador archivo_punto_y_coma s in
  res r = Devuelve tt
  /\ separador_detectado (estado r) = Some ";".
Proof.
  assert (Hpos : forall sep df,
             read_csv_prueba archivo_punto_y_coma sep
               (CSV.codificacion (CSV.init "ventas.csv" None None)) = Devuelve df ->
             columns df <> []).
  { intros sep df. simpl. destruct (String.eqb sep ";"); intros H;
      injection H as <-; discriminate. }
  destruct (@deteccion_separador archivo_punto_y_coma
              (CSV.init "ventas.csv" None None) Hpos) as (Hres & sep & Hdet & _).
  split; [exact Hres|]. reflexivity.
Defined.

(* ------------------------------------------------------------------ *)
(** ** A failed load keeps the previous table *)

Section Hoare.

Context {S : Type}.

Lemma hoare_bind {A B} (P I : S -> Prop) (m : M S A) (k : A -> M S B)
      (Q : S -> resultado B -> Prop) :
  (forall s, P s -> I (estado (m s))) ->
  (forall a, hoare I (k a) Q) ->
  (forall s e, I s -> Q s (Lanza e)) ->
  hoare P (bind m k) Q.
Proof.
  intros Hm Hk He s Hs. unfold bind. specialize (Hm s Hs).
  destruct (res (m s)) as [a|e]; simpl; [apply Hk | apply He]; exact Hm.
Qed.

(** The same, when what [m] returns matters to what follows. *)
Lemma hoare_bind_res {A B} (P : S -> Prop) (I : A -> S -> Prop) (m : M S A)
      (k : A -> M S B) (Q : S -> resultado B -> Prop) :
  (forall s, P s -> match res (m s) with
                    | Devuelve a => I a (estado (m s))
                    | Lanza e => Q (estado (m s)) (Lanza e)
                    end) ->
  (forall a, hoare (I a) (k a) Q) ->
  hoare P (bind m k) Q.
Proof.
  intros Hm Hk s Hs. unfold bind. specialize (Hm s Hs).
  destruct (res (m s)) as [a|e]; simpl; [apply Hk|]; exact Hm.
Qed.

Lemma hoare_try {A} (P I : S -> Prop) (m : M S A) (h : excepcion -> M S A)
      (Q : S -> resultado A -> Prop) :
  hoare P m (fun s r => match r with
                        | Devuelve _ => Q s r
                        | Lanza _ => I s
                        end) ->
  (forall e, hoare I (h e) Q) ->
  hoare P (try_except m h) Q.
Proof.
  intros Hm Hh s Hs. unfold try_except. specialize (Hm s Hs).
  destruct (res (m s)) as [a|e] eqn:E; simpl.
  - rewrite E. exact Hm.
  - apply Hh. exact Hm.
Qed.

Lemma hoare_conserva {A} (P I : S -> Prop) (m : M S A)
      (Q : S -> resultado A -> Prop) :
  (forall s, P s -> I s) -> conserva I m -> (forall s r, I s -> Q s r) ->
  hoare P m Q.
Proof. intros HP Hm HQ s Hs. apply HQ, Hm, HP, Hs. Qed.

End Hoare.

(** An inherited method leaves alone whatever does not depend on the
    [Dataset] fields. *)
Lemma conserva_heredado_propios {S} `{Hereda S} (P : S -> Prop) {A}
      (m : M Dataset A) :
  (forall d s, P s -> P (con_base d s)) -> conserva P (heredado m).
Proof. intros HP s Hs. unfold heredado; simpl. apply HP, Hs. Qed.

Ltac conserva_base :=
  repeat first
    [ conserva_paso
    | apply conserva_modificar; intros ? ?; simpl; assumption ].

Ltac conserva_propios :=
  repeat first
    [ conserva_paso
    | apply conserva_heredado_propios; intros ? ? ?; assumption ].

(** Steps over a statement that keeps the invariant [K] of the goal. *)
Ltac paso_con K lema :=
  apply hoare_bind with (I := K); [lema | intro | intros; now left].

Lemma leer_archivo_csv_efecto (f : ArchivoCSV) (s : DatasetCSV) :
  estado (CSV._leer_archivo_csv f s) = s
  /\ res (CSV._leer_archivo_csv f s) =
       Devuelve (match read_csv f (CSV.separador s) (CSV.codificacion s) with
                 | Devuelve df => Some df
                 | Lanza _ => None
                 end).
Proof.
  unfold CSV._leer_archivo_csv, try_except. rewrite !estado_bind_leer.
  destruct (read_csv f (CSV.separador s) (CSV.codificacion s));
    simpl; split; reflexivity.
Qed.

Lemma leer_archivo_excel_efecto (f : ArchivoExcel) (s : DatasetExcel) :
  estado (Excel._leer_archivo_excel f s) = s
  /\ res (Excel._leer_archivo_excel f s) =
       Devuelve (match read_excel f (hoja_leida s) with
                 | Devuelve df => Some df
                 | Lanza _ => None
                 end).
Proof.
  unfold Excel._leer_archivo_excel, try_except, hoja_leida.
  rewrite !estado_bind_leer.
  destruct (Excel.elegir_hoja (nombre_hoja s) (hojas_disponibles s)) as [avisos sel].
  cbn [fst snd].
  assert (Hi : forall ms, Excel.imprimir ms s = mkEfecto s ms (Devuelve tt)).
  { induction ms as [|m ms IH]; [reflexivity|].
    simpl. rewrite bind_print, IH. reflexivity. }
  rewrite (@bind_conocido _ _ _ _ _ _ _ _ _ (Hi avisos)).
  destruct (read_excel f sel); simpl; split; reflexivity.
Qed.

Lemma manejar_error_csv_efecto (e : excepcion) (s : DatasetCSV) :
  estado (CSV.manejar_error_carga e s) = s
  /\ res (CSV.manejar_error_carga e s) = Devuelve false.
Proof.
  unfold CSV.manejar_error_carga. rewrite estado_bind_leer.
  destruct e; split; reflexivity.
Qed.

Lemma manejar_error_excel_efecto (e : excepcion) (s : DatasetExcel) :
  estado (Excel.manejar_error_carga e s) = s
  /\ res (Excel.manejar_error_carga e s) = Devuelve false.
Proof.
  unfold Excel.manejar_error_carga. rewrite estado_bind_leer.
  destruct e; split; reflexivity.
Qed.

Lemma conserva_base_detectar_codificacion (f : ArchivoCSV) (d : Dataset) :
  conserva (fun s => base s = d) (CSV._detectar_codificacion f).
Proof.
  unfold CSV._detectar_codificacion, CSV.set_codificacion_detectada.
  conserva_base.
Qed.

Lemma conserva_base_detectar_separador (f : ArchivoCSV) (d : Dataset) :
  conserva (fun s => base s = d) (CSV._detectar_separador f).
Proof.
  unfold CSV._detectar_separador, CSV.set_separador_detectado.
  conserva_base.
Qed.

Lemma conserva_base_validar_extension_csv (d : Dataset) :
  conserva (fun s => base s = d) CSV._validar_extension_csv.
Proof. unfold CSV._validar_extension_csv. conserva_base. Qed.

Lemma conserva_base_validar_extension_excel (d : Dataset) :
  conserva (fun s => base s = d) Excel._validar_extension_excel.
Proof. unfold Excel._validar_extension_excel. conserva_base. Qed.

Lemma conserva_base_obtener_hojas (f : ArchivoExcel) (d : Dataset) :
  conserva (fun s => base s = d) (Excel._obtener_hojas_disponibles f).
Proof.
  unfold Excel._obtener_hojas_disponibles, Excel.set_hojas_disponibles.
  conserva_base.
Qed.

(** After [cargar_datos], either the [Dataset] fields are the previous ones
    and [False] was returned, or the full parse under the effective
    separator and encoding had succeeded. *)
Lemma carga_csv (f : ArchivoCSV) (s0 : DatasetCSV) :
  hoare (fun s => base s = base s0) (CSV.cargar_datos f)
    (fun s r =>
       (base s = base s0 /\ r = Devuelve false)
       \/ exists df,
            read_csv f (CSV.separador s) (CSV.codificacion s) = Devuelve df).
Proof.
  unfold CSV.cargar_datos.
  set (K := fun s : DatasetCSV => base s = base s0).
  apply hoare_try with
    (I := fun s => K s \/ exists df,
             read_csv f (CSV.separador s) (CSV.codificacion s) = Devuelve df).
  2:{ intros e s Hs. destruct (manejar_error_csv_efecto e s) as [-> ->].
      destruct Hs as [Hs|Hs]; [left; now split | now right]. }
  paso_con K ltac:(intros s Hs; exact Hs).
  paso_con K ltac:(intros s Hs; exact Hs).
  paso_con K ltac:(apply conserva_base_validar_extension_csv).
  match goal with b : bool |- _ => destruct b end; cbn [negb];
    [| intros s Hs; left; now split].
  paso_con K ltac:(intros s Hs; exact Hs).
  paso_con K ltac:(apply conserva_cuando, conserva_base_detectar_codificacion).
  paso_con K ltac:(intros s Hs; exact Hs).
  paso_con K ltac:(apply conserva_cuando, conserva_base_detectar_separador).
  apply hoare_bind_res with
    (I := fun (o : option DataFrame) s =>
            K s /\ match o with
                   | Some df =>
                       read_csv f (CSV.separador s) (CSV.codificacion s) = Devuelve df
                   | None => True
                   end).
  { intros s Hs. destruct (leer_archivo_csv_efecto f s) as [-> ->].
    destruct (read_csv f (CSV.separador s) (CSV.codificacion s)); split; auto. }
  intros [df|].
  - apply hoare_conserva with
      (I := fun s =>
              read_csv f (CSV.separador s) (CSV.codificacion s) = Devuelve df).
    + intros s [_ H]; exact H.
    + conserva_propios.
    + intros s r H. destruct r; right; eexists; exact H.
  - intros s [Hs _]. left. split; [exact Hs | reflexivity].
Qed.

Lemma carga_excel (f : ArchivoExcel) (s0 : DatasetExcel) :
  hoare (fun s => base s = base s0) (Excel.cargar_datos f)
    (fun s r =>
       (base s = base s0 /\ r = Devuelve false)
       \/ exists df, read_excel f (hoja_leida s) = Devuelve df).
Proof.
  unfold Excel.cargar_datos.
  set (K := fun s : DatasetExcel => base s = base s0).
  apply hoare_try with
    (I := fun s => K s \/ exists df, read_excel f (hoja_leida s) = Devuelve df).
  2:{ intros e s Hs. destruct (manejar_error_excel_efecto e s) as [-> ->].
      destruct Hs as [Hs|Hs]; [left; now split | now right]. }
  paso_con K ltac:(intros s Hs; exact Hs).
  paso_con K ltac:(intros s Hs; exact Hs).
  paso_con K ltac:(apply conserva_base_validar_extension_excel).
  match goal with b : bool |- _ => destruct b end; cbn [negb];
    [| intros s Hs; left; now split].
  paso_con K ltac:(apply conserva_base_obtener_hojas).
  apply hoare_bind_res with
    (I := fun (o : option DataFrame) s =>
            K s /\ match o with
                   | Some df => read_excel f (hoja_leida s) = Devuelve df
                   | None => True
                   end).
  { intros s Hs. destruct (leer_archivo_excel_efecto f s) as [-> ->].
    destruct (read_excel f (hoja_leida s)); split; auto. }
  intros [df|].
  - apply hoare_conserva with
      (I := fun s => read_excel f (hoja_leida s) = Devuelve df).
    + intros s [_ H]; exact H.
    + conserva_propios.
    + intros s r H. destruct r; right; eexists; exact H.
  - intros s [Hs _]. left. split; [exact Hs | reflexivity].
Qed.

(** X20. Where the code keeps the previous table: whenever the parse of a
    [cargar_datos] call fails (the full [read_csv] under the effective
    separator and encoding, or [read_excel] on the chosen sheet, raises), the
    call returns [False] and the table and [esta_cargado] are the ones the
    loader had before; in any case the fields change only when that parse has
    succeeded. *)
Theorem carga_fallida_conserva_tabla :
  (forall (f : ArchivoCSV) (s : DatasetCSV),
      let r := CSV.cargar_datos f s in
      ((exists e, read_csv f (CSV.separador (estado r))
                           (CSV.codificacion (estado r)) = Lanza e) ->
       res r = Devuelve false /\ base (estado r) = base s)
      /\ (base (estado r) <> base s ->
          exists df, read_csv f (CSV.separador (estado r))
                              (CSV.codificacion (estado r)) = Devuelve df))
  /\ (forall (f : ArchivoExcel) (s : DatasetExcel),
      let r := Excel.cargar_datos f s in
      ((exists e, read_excel f (hoja_leida (estado r)) = Lanza e) ->
       res r = Devuelve false /\ base (estado r) = base s)
      /\ (base (estado r) <> base s ->
          exists df, read_excel f (hoja_leida (estado r)) = Devuelve df)).
Proof.
  split; intros f s; cbv zeta.
  - destruct (@carga_csv f s s eq_refl) as [[Hb Hr] | [df Hdf]].
    + split; [intros _; now split | intros H; contradiction].
    + split; [intros [e He]; congruence | intros _; now exists df].
  - destruct (@carga_excel f s s eq_refl) as [[Hb Hr] | [df Hdf]].
    + split; [intros _; now split | intros H; contradiction].
    + split; [intros [e He]; congruence | intros _; now exists df].
Qed.

Lemma carga_fallida_conserva_tabla_witness :
  (res (CSV.cargar_datos archivo_vacio csv_con_tabla) = Devuelve false
   /\ base (estado (CSV.cargar_datos archivo_vacio csv_con_tabla))
      = base csv_con_tabla)
  /\ (res (Excel.cargar_datos libro_ilegible excel_con_tabla) = Devuelve false
      /\ base (estado (Excel.cargar_datos libro_ilegible excel_con_tabla))
         = base excel_con_tabla).
Proof.
  split.
  - apply (proj1 (proj1 carga_fallida_conserva_tabla archivo_vacio csv_con_tabla)).
    exists EmptyDataError. reflexivity.
  - apply (proj1 (proj2 carga_fallida_conserva_tabla libro_ilegible excel_con_tabla)).
    exists OtroError. reflexivity.
Defined.

(** C8, where the code departs from it.  [cargar_datos] stores the parsed
    table before it validates and cleans it, and a cleaning that raises is
    reported as a failed load.  A CSV loader that holds a table and reloads
    from a file whose header has the labels A and a returns [False] with the
    previous table replaced by a partly cleaned one: labels renamed, the
    first text column trimmed, the others not.  An Excel loader that holds a
    table and reloads from a sheet whose header cells are numbers returns
    [False] with the previous table replaced by the sheet as parsed. *)
Theorem carga_fallida_expone_tabla :
  let r := CSV.cargar_datos archivo_mayusculas csv_con_tabla in
  let q := Excel.cargar_datos libro_anios excel_con_tabla in
  (dataframe (base csv_con_tabla) = Some tabla_ejemplo
   /\ res r = Devuelve false
   /\ In (ErrorInesperadoCSV AttributeError) (salida r)
   /\ dataframe (base (estado r))
      = Some (mkDF (textos ["x"; "a"; "a"]) true [object; object; object]
                   [[Str "u"; Str " v "; Str "w"]])
   /\ dataframe (base (estado r)) <> dataframe (base csv_con_tabla))
  /\ (dataframe (base excel_con_tabla) = Some tabla_ejemplo
      /\ res q = Devuelve false
      /\ In (ErrorInesperadoExcel AttributeError) (salida q)
      /\ dataframe (base (estado q)) = Some tabla_anios
      /\ dataframe (base (estado q)) <> dataframe (base excel_con_tabla)).
Proof.
  cbv zeta. split.
  - split; [reflexivity|]. split; [vm_compute; reflexivity|].
    split; [vm_compute; tauto|]. split; [vm_compute; reflexivity|].
    vm_compute. discriminate.
  - split; [reflexivity|]. split; [vm_compute; reflexivity|].
    split; [vm_compute; tauto|]. split; [vm_compute; reflexivity|].
    vm_compute. discriminate.
Qed.

(* ------------------------------------------------------------------ *)
(** ** Encoding detection *)

Lemma detectar_codificacion_lanza (f : ArchivoCSV) (s : DatasetCSV) (e : excepcion) :
  chardet_detect f = Lanza e ->
  CSV._detectar_codificacion f s =
  mkEfecto
    (mkDatasetCSV (csv_base s) (csv_separador s) (csv_codificacion s)
                  (separador_detectado s) (Some "utf-8"))
    [DetectandoCodificacion; NoSePudoDetectarCodificacion e;
     UsandoCodificacionPorDefecto]
    (Devuelve tt).
Proof.
  intros H. unfold CSV._detectar_codificacion, try_except.
  rewrite bind_print. cbn [res estado salida].
  unfold bind at 1. rewrite H. reflexivity.
Qed.

Lemma detectar_codificacion_resultado (f : ArchivoCSV) (s : DatasetCSV)
      (enc : option string) (confianza : nat) :
  chardet_detect f = Devuelve (enc, confianza) ->
  CSV._detectar_codificacion f s =
  mkEfecto
    (mkDatasetCSV (csv_base s) (csv_separador s) (csv_codificacion s)
                  (separador_detectado s) enc)
    [DetectandoCodificacion; CodificacionDetectada enc confianza]
    (Devuelve tt).
Proof.
  intros H. unfold CSV._detectar_codificacion, try_except.
  rewrite bind_print. cbn [res estado salida].
  unfold bind at 1. rewrite H. reflexivity.
Qed.

(** C6, where the code departs from it.  On an existing empty file the
    detector returns no candidate: [_detectar_codificacion] returns normally,
    the detected and the effective encoding are [None] rather than "utf-8",
    and the fall-back line is not printed; a whole [cargar_datos] leaves the
    effective encoding at [None] as well. *)
Theorem deteccion_sin_candidato :
  let s := CSV.init "vacio.csv" None None in
  let r := CSV._detectar_codificacion archivo_vacio s in
  res r = Devuelve tt
  /\ codificacion_detectada (estado r) = None
  /\ CSV.codificacion (estado r) <> Some "utf-8"
  /\ salida r = [DetectandoCodificacion; CodificacionDetectada None 0]
  /\ CSV.codificacion (estado (CSV.cargar_datos archivo_vacio s)) = None
  /\ res (CSV.cargar_datos archivo_vacio s) = Devuelve false.
Proof.
  cbv zeta.
  rewrite (@detectar_codificacion_resultado archivo_vacio _ None 0 eq_refl).
  repeat split; try reflexivity. simpl. discriminate.
Qed.

(* ------------------------------------------------------------------ *)
(** ** Sheet selection *)

Lemma estado_bind_conocido {S A B} (m : M S A) (k : A -> M S B) (s s1 : S)
      (l : list mensaje) (a : A) :
  m s = mkEfecto s1 l (Devuelve a) ->
  estado (bind m k s) = estado (k a s1).
Proof. intros H. rewrite (@bind_conocido _ _ _ _ _ _ _ _ _ H). reflexivity. Qed.

Lemma salida_bind_conocido {S A B} (m : M S A) (k : A -> M S B) (s s1 : S)
      (l : list mensaje) (a : A) (x : mensaje) :
  m s = mkEfecto s1 l (Devuelve a) ->
  In x (salida (k a s1)) -> In x (salida (bind m k s)).
Proof.
  intros H Hx. rewrite (@bind_conocido _ _ _ _ _ _ _ _ _ H). simpl. apply in_or_app. now right.
Qed.

Lemma salida_bind_izq {S A B} (m : M S A) (k : A -> M S B) (s : S) (x : mensaje) :
  In x (salida (m s)) -> In x (salida (bind m k s)).
Proof.
  intros Hx. unfold bind. destruct (res (m s)); simpl;
    [apply in_or_app; now left | exact Hx].
Qed.

Lemma salida_try {S A} (m : M S A) (h : excepcion -> M S A) (s : S) (x : mensaje) :
  In x (salida (m s)) -> In x (salida (try_except m h s)).
Proof.
  intros Hx. unfold try_except. destruct (res (m s)); simpl;
    [exact Hx | apply in_or_app; now left].
Qed.

Lemma estado_try_manejado {S A} (m : M S A) (h : excepcion -> M S A) (s : S) :
  (forall e s', estado (h e s') = s') ->
  estado (try_except m h s) = estado (m s).
Proof.
  intros Hh. unfold try_except. destruct (res (m s)); simpl;
    [reflexivity | apply Hh].
Qed.

Lemma validar_extension_excel_forma (s : DatasetExcel) :
  exists l, Excel._validar_extension_excel s = mkEfecto s l (Devuelve true).
Proof.
  unfold Excel._validar_extension_excel. rewrite estado_bind_leer.
  destruct (existsb _ _); eexists; reflexivity.
Qed.

(** The sheet list [_obtener_hojas_disponibles] stores. *)
Lemma obtener_hojas_forma (f : ArchivoExcel) (s : DatasetExcel) :
  exists l,
    Excel._obtener_hojas_disponibles f s =
    mkEfecto
      (mkDatasetExcel (xl_base s) (nombre_hoja s)
         (match sheet_names f with Devuelve hs => hs | Lanza _ => [] end))
      l (Devuelve tt).
Proof.
  unfold Excel._obtener_hojas_disponibles, try_except.
  destruct (sheet_names f); eexists; reflexivity.
Qed.

Lemma imprimir_forma {S} (ms : list mensaje) (s : S) :
  Excel.imprimir ms s = mkEfecto s ms (Devuelve tt).
Proof.
  induction ms as [|m ms IH]; [reflexivity|].
  simpl. rewrite bind_print, IH. reflexivity.
Qed.

Lemma leer_archivo_excel_salida (f : ArchivoExcel) (s : DatasetExcel) :
  salida (Excel._leer_archivo_excel f s) =
  fst (Excel.elegir_hoja (nombre_hoja s) (hojas_disponibles s))
  ++ match read_excel f (hoja_leida s) with
     | Devuelve _ => []
     | Lanza e => [ErrorAlLeerExcel e]
     end.
Proof.
  unfold Excel._leer_archivo_excel, try_except, hoja_leida.
  rewrite !estado_bind_leer.
  destruct (Excel.elegir_hoja (nombre_hoja s) (hojas_disponibles s)) as [avisos sel].
  cbn [fst snd].
  rewrite (@bind_conocido _ _ _ _ _ _ _ _ _ (imprimir_forma avisos s)).
  destruct (read_excel f sel); simpl; rewrite ?app_nil_r; reflexivity.
Qed.

Lemma contiene_true (c : string) (cols : list string) :
  Base.contiene c cols = true <-> In c cols.
Proof.
  unfold Base.contiene. destruct (in_dec string_dec c cols); split; intros;
    try assumption; try reflexivity; try discriminate; contradiction.
Qed.

Lemma contiene_false (c : string) (cols : list string) :
  Base.contiene c cols = false <-> ~ In c cols.
Proof.
  unfold Base.contiene. destruct (in_dec string_dec c cols); split; intros;
    try assumption; try reflexivity; try discriminate; contradiction.
Qed.

(** The three cases of the choice of sheet. *)
Lemma elegir_hoja_casos (hoja : option string) (hojas : list string) :
  (forall h, hoja = Some h -> h <> "" -> ~ In h hojas ->
             Excel.elegir_hoja hoja hojas = ([HojaNoExiste h], PorIndice 0))
  /\ (forall h, hoja = Some h -> h <> "" -> In h hojas ->
             Excel.elegir_hoja hoja hojas = ([], PorNombre h))
  /\ (hoja = None \/ hoja = Some "" ->
             Excel.elegir_hoja hoja hojas = ([], PorIndice 0)).
Proof.
  repeat split.
  - intros h -> Hne Hno. unfold Excel.elegir_hoja, PyStr.truthy.
    apply String.eqb_neq in Hne. rewrite Hne. simpl.
    apply contiene_false in Hno. rewrite Hno. reflexivity.
  - intros h -> Hne Hin. unfold Excel.elegir_hoja, PyStr.truthy.
    apply String.eqb_neq in Hne. rewrite Hne. simpl.
    apply contiene_true in Hin. rewrite Hin. reflexivity.
  - intros [-> | ->]; reflexivity.
Qed.

Lemma cargar_excel_hojas (f : ArchivoExcel) (s : DatasetExcel) :
  let r := Excel.cargar_datos f s in
  hojas_disponibles (estado r)
  = match sheet_names f with Devuelve hs => hs | Lanza _ => [] end
  /\ nombre_hoja (estado r) = nombre_hoja s
  /\ forall x, In x (salida (Excel._leer_archivo_excel f (con_hojas_enumeradas f s))) ->
               In x (salida r).
Proof.
  cbv zeta. unfold Excel.cargar_datos.
  destruct (validar_extension_excel_forma s) as [l1 H1].
  destruct (obtener_hojas_forma f s) as [l2 H2].
  fold (con_hojas_enumeradas f s) in H2.
  set (hs := match sheet_names f with Devuelve hs => hs | Lanza _ => [] end).
  assert (Hinv : forall s1,
             (hojas_disponibles s1 = hs /\ nombre_hoja s1 = nombre_hoja s) ->
             forall A (m : M DatasetExcel A),
               conserva (fun s' => hojas_disponibles s' = hs
                                   /\ nombre_hoja s' = nombre_hoja s) m ->
               hojas_disponibles (estado (m s1)) = hs
               /\ nombre_hoja (estado (m s1)) = nombre_hoja s).
  { intros s1 Hs1 A m Hm. exact (Hm s1 Hs1). }
  rewrite estado_try_manejado
    by (intros e s'; apply manejar_error_excel_efecto).
  rewrite estado_bind_leer.
  rewrite (@estado_bind_conocido _ _ _ (print _) _ s s [_] tt eq_refl).
  rewrite (@estado_bind_conocido _ _ _ _ _ _ _ _ _ H1). cbn [negb].
  rewrite (@estado_bind_conocido _ _ _ _ _ _ _ _ _ H2).
  split; [|split].
  - apply Hinv; [split; reflexivity|].
    unfold Excel._leer_archivo_excel. conserva_propios.
  - apply Hinv; [split; reflexivity|].
    unfold Excel._leer_archivo_excel. conserva_propios.
  - intros x Hx. apply salida_try.
    rewrite estado_bind_leer.
    apply (@salida_bind_conocido _ _ _ (print _) _ s s [_] tt x eq_refl).
    apply (@salida_bind_conocido _ _ _ _ _ _ _ _ _ _ H1). cbn [negb].
    apply (@salida_bind_conocido _ _ _ _ _ _ _ _ _ _ H2).
    apply salida_bind_izq. exact Hx.
Qed.

(** C9, refuted as stated: a loader built with the sheet name [""] has a
    selected sheet that is absent from the workbook's sheets, yet
    [cargar_datos] prints no warning. *)
Lemma hoja_vacia_sin_aviso :
  let s := Excel.init "ventas.xlsx" (Some "") in
  let r := Excel.cargar_datos libro_trimestres s in
  nombre_hoja s = Some ""
  /\ hojas_disponibles (estado r) = ["Q1"; "Q2"]
  /\ ~ In "" (hojas_disponibles (estado r))
  /\ res r = Devuelve true
  /\ forall h, ~ In (HojaNoExiste h) (salida r).
Proof.
  cbv zeta. repeat split; try (vm_compute; reflexivity).
  - vm_compute. intros [H|[H|[]]]; discriminate H.
  - intros h. vm_compute.
    intros H; repeat (destruct H as [H|H]; [discriminate H|]); exact H.
Qed.

(** C9, amended.  [cargar_datos] stores the enumerated sheet list (the empty
    list when enumeration fails) and keeps the selected name; it then reads
    the workbook once, and
    - a selected name that is not empty and not among the sheets makes it
      print the warning and parse the first sheet;
    - a selected name that is not empty and among the sheets is the sheet
      parsed, without that warning;
    - no selected name, or the empty string, makes it parse the first sheet
      without that warning. *)
Theorem seleccion_de_hoja (f : ArchivoExcel) (s : DatasetExcel) :
  let r := Excel.cargar_datos f s in
  let hs := match sheet_names f with Devuelve hs => hs | Lanza _ => [] end in
  let s1 := con_hojas_enumeradas f s in
  let lectura := Excel._leer_archivo_excel f s1 in
  hojas_disponibles (estado r) = hs
  /\ nombre_hoja (estado r) = nombre_hoja s
  /\ hoja_leida (estado r) = hoja_leida s1
  /\ res lectura = Devuelve (match read_excel f (hoja_leida s1) with
                             | Devuelve df => Some df
                             | Lanza _ => None
                             end)
  /\ (forall h, nombre_hoja s = Some h -> h <> "" -> ~ In h hs ->
        hoja_leida s1 = PorIndice 0
        /\ In (HojaNoExiste h) (salida lectura)
        /\ In (HojaNoExiste h) (salida r))
  /\ (forall h, nombre_hoja s = Some h -> h <> "" -> In h hs ->
        hoja_leida s1 = PorNombre h
        /\ forall h', ~ In (HojaNoExiste h') (salida lectura))
  /\ (nombre_hoja s = None \/ nombre_hoja s = Some "" ->
        hoja_leida s1 = PorIndice 0
        /\ forall h', ~ In (HojaNoExiste h') (salida lectura)).
Proof.
  cbv zeta.
  destruct (cargar_excel_hojas f s) as (Hh & Hn & Hsal).
  destruct (elegir_hoja_casos (nombre_hoja s)
              (match sheet_names f with Devuelve hs => hs | Lanza _ => [] end))
    as (Hausente & Hpresente & Hsin).
  assert (Hsilencio : forall h',
             fst (Excel.elegir_hoja (nombre_hoja (con_hojas_enumeradas f s))
                    (hojas_disponibles (con_hojas_enumeradas f s))) = [] ->
             ~ In (HojaNoExiste h')
                  (salida (Excel._leer_archivo_excel f (con_hojas_enumeradas f s)))).
  { intros h' He. rewrite leer_archivo_excel_salida, He. simpl.
    destruct (read_excel f _); simpl; [tauto|].
    intros [H|[]]; discriminate H. }
  split; [exact Hh|]. split; [exact Hn|]. split.
  { unfold hoja_leida. rewrite Hh, Hn. reflexivity. }
  split; [apply leer_archivo_excel_efecto|].
  split; [|split].
  - intros h Hs Hne Hno.
    assert (Hin : In (HojaNoExiste h)
                    (salida (Excel._leer_archivo_excel f (con_hojas_enumeradas f s)))).
    { rewrite leer_archivo_excel_salida. simpl.
      rewrite (Hausente h Hs Hne Hno). simpl. now left. }
    split; [|split].
    + unfold hoja_leida; simpl. rewrite (Hausente h Hs Hne Hno). reflexivity.
    + exact Hin.
    + apply Hsal, Hin.
  - intros h Hs Hne Hin. split.
    + unfold hoja_leida; simpl. rewrite (Hpresente h Hs Hne Hin). reflexivity.
    + intros h'. apply Hsilencio. simpl.
      rewrite (Hpresente h Hs Hne Hin). reflexivity.
  - intros Hs. split.
    + unfold hoja_leida; simpl. rewrite (Hsin Hs). reflexivity.
    + intros h'. apply Hsilencio. simpl. rewrite (Hsin Hs). reflexivity.
Qed.

Lemma seleccion_de_hoja_witness :
  let s := Excel.init "ventas.xlsx" (Some "Q3") in
  let r := Excel.cargar_datos libro_trimestres s in
  hojas_disponibles (estado r) = ["Q1"; "Q2"]
  /\ hoja_leida (estado r) = PorIndice 0
  /\ In (HojaNoExiste "Q3") (salida r).
Proof.
  cbv zeta.
  destruct (seleccion_de_hoja libro_trimestres (Excel.init "ventas.xlsx" (Some "Q3")))
    as (Hh & _ & Hl & _ & Hausente & _).
  destruct (Hausente "Q3" eq_refl) as (H0 & _ & Hw).
  - discriminate.
  - simpl. intros [H|[H|[]]]; discriminate H.
  - split; [exact Hh|]. split; [|exact Hw].
    rewrite Hl. exact H0.
Defined.

(* ------------------------------------------------------------------ *)
(** ** limpiar_y_transformar_datos *)

Section Cadenas.

Lemma map_chars_map_chars (f g : ascii -> ascii) (s : string) :
  PyStr.map_chars f (PyStr.map_chars g s) = PyStr.map_chars (fun c => f (g c)) s.
Proof. induction s as [|c s IH]; simpl; [reflexivity | now rewrite IH]. Qed.

Lemma map_chars_ext (f g : ascii -> ascii) (s : string) :
  (forall c, f c = g c) -> PyStr.map_chars f s = PyStr.map_chars g s.
Proof.
  intros H. induction s as [|c s IH]; simpl; [reflexivity | now rewrite H, IH].
Qed.

Lemma normalizar_nombre_chars (s : string) :
  Pandas.normalizar_nombre s = PyStr.map_chars normalizar_char s.
Proof.
  unfold Pandas.normalizar_nombre, PyStr.replace_char, PyStr.lower.
  rewrite !map_chars_map_chars. reflexivity.
Qed.

Lemma normalizar_char_idem (c : ascii) :
  normalizar_char (normalizar_char c) = normalizar_char c.
Proof.
  destruct c as [[] [] [] [] [] [] [] []]; vm_compute; reflexivity.
Qed.

(** Normalising a label twice changes nothing more. *)
Lemma normalizar_nombre_idem (s : string) :
  Pandas.normalizar_nombre (Pandas.normalizar_nombre s) = Pandas.normalizar_nombre s.
Proof.
  rewrite !normalizar_nombre_chars, map_chars_map_chars.
  apply map_chars_ext, normalizar_char_idem.
Qed.

Lemma lstrip_sin_blanco (s : string) : sin_blanco_inicial (PyStr.lstrip s).
Proof.
  induction s as [|c s IH]; simpl; [exact I|].
  destruct (PyStr.isspace c) eqn:E; [exact IH | exact E].
Qed.

Lemma lstrip_id (s : string) : sin_blanco_inicial s -> PyStr.lstrip s = s.
Proof. destruct s as [|c s]; simpl; [reflexivity | now intros ->]. Qed.

Lemma rstrip_sin_blanco (s : string) :
  sin_blanco_inicial s -> sin_blanco_inicial (PyStr.rstrip s).
Proof.
  destruct s as [|c s]; simpl; [trivial|]. intros H.
  destruct (PyStr.rstrip s); [rewrite H|]; exact H.
Qed.

Lemma rstrip_cons (c : ascii) (r : string) :
  PyStr.rstrip (String c r) =
  match PyStr.rstrip r with
  | EmptyString => if PyStr.isspace c then EmptyString else String c EmptyString
  | r' => String c r'
  end.
Proof. reflexivity. Qed.

Lemma rstrip_idem (s : string) : PyStr.rstrip (PyStr.rstrip s) = PyStr.rstrip s.
Proof.
  induction s as [|c s IH]; simpl; [reflexivity|].
  destruct (PyStr.rstrip s) as [|c' s'] eqn:E.
  - destruct (PyStr.isspace c) eqn:Ec; simpl; [reflexivity | now rewrite Ec].
  - rewrite rstrip_cons, IH. reflexivity.
Qed.

(** Trimming twice changes nothing more. *)
Lemma strip_idem (s : string) : PyStr.strip (PyStr.strip s) = PyStr.strip s.
Proof.
  unfold PyStr.strip.
  rewrite lstrip_id by apply rstrip_sin_blanco, lstrip_sin_blanco.
  apply rstrip_idem.
Qed.

Lemma astype_str_strip_idem (c : celda) :
  Pandas.astype_str_strip (Pandas.astype_str_strip c) = Pandas.astype_str_strip c.
Proof.
  unfold Pandas.astype_str_strip. simpl. now rewrite strip_idem.
Qed.

End Cadenas.

Lemma contiene_etiqueta_true (e : etiqueta) (l : list etiqueta) :
  Pandas.contiene_etiqueta e l = true <-> In e l.
Proof.
  unfold Pandas.contiene_etiqueta.
  destruct (in_dec etiqueta_eq_dec e l); split; intros;
    try assumption; try reflexivity; try discriminate; contradiction.
Qed.

Lemma contiene_etiqueta_false (e : etiqueta) (l : list etiqueta) :
  Pandas.contiene_etiqueta e l = false <-> ~ In e l.
Proof.
  unfold Pandas.contiene_etiqueta.
  destruct (in_dec etiqueta_eq_dec e l); split; intros;
    try assumption; try reflexivity; try discriminate; contradiction.
Qed.

Lemma contiene_etiqueta_cons (h c : etiqueta) (rest : list etiqueta) :
  Pandas.contiene_etiqueta h (c :: rest)
  = if etiqueta_eq_dec h c then true else Pandas.contiene_etiqueta h rest.
Proof.
  destruct (etiqueta_eq_dec h c) as [->|Hne].
  - apply contiene_etiqueta_true. now left.
  - destruct (Pandas.contiene_etiqueta h rest) eqn:E.
    + apply contiene_etiqueta_true. right. now apply contiene_etiqueta_true.
    + apply contiene_etiqueta_false. apply contiene_etiqueta_false in E.
      intros [H|H]; [apply Hne; now symmetry | contradiction].
Qed.

Lemma limpiar_fila_nil (cols : list etiqueta) (r : fila) :
  limpiar_fila [] cols r = r.
Proof.
  revert r. induction cols as [|c cols IH]; intros [|x r]; simpl;
    try reflexivity. now rewrite IH.
Qed.

Lemma asignar_luego_limpiar (c : etiqueta) (rest cols : list etiqueta)
      (r : fila) :
  limpiar_fila rest cols (Pandas.asignar_en_fila Pandas.astype_str_strip c cols r)
  = limpiar_fila (c :: rest) cols r.
Proof.
  revert r. induction cols as [|h cols IH]; intros [|x r];
    cbn [limpiar_fila Pandas.asignar_en_fila]; try reflexivity.
  rewrite IH. f_equal. rewrite contiene_etiqueta_cons.
  destruct (etiqueta_eq_dec h c), (Pandas.contiene_etiqueta h rest);
    try reflexivity; apply astype_str_strip_idem.
Qed.

Lemma limpiar_columnas_texto_completa (etqs : list etiqueta) :
  forall (d : Dataset) (df : DataFrame),
    dataframe d = Some df ->
    (forall c, In c etqs -> Pandas.apariciones c (columns df) = 1) ->
    Base.limpiar_columnas_texto etqs d =
    mkEfecto
      (mkDataset (ruta_archivo d)
         (Some (mkDF (columns df) (columns_object df) (dtypes df)
                     (map (limpiar_fila etqs (columns df)) (filas df))))
         (esta_cargado d))
      [] (Devuelve tt).
Proof.
  induction etqs as [|c rest IH]; intros d df Hd Hu.
  - simpl. unfold ret. f_equal. destruct d as [ru da es]; simpl in *. subst da.
    f_equal. f_equal. destruct df as [co ob dt fi]; simpl. f_equal.
    rewrite <- (map_id fi) at 1. apply map_ext. intros r.
    symmetry. apply limpiar_fila_nil.
  - simpl. rewrite (@bind_el_dataframe _ _ _ _ Hd).
    rewrite (Hu c (or_introl eq_refl)). simpl Nat.eqb. cbv iota.
    rewrite (@bind_conocido _ _ _ _ _ d _ [] tt eq_refl).
    rewrite (IH (mkDataset (ruta_archivo d)
                   (Some (Pandas.asignar_columna Pandas.astype_str_strip c df))
                   (esta_cargado d))
                (Pandas.asignar_columna Pandas.astype_str_strip c df) eq_refl).
    + simpl. f_equal. f_equal. f_equal. f_equal. rewrite map_map.
      apply map_ext. intros r. apply asignar_luego_limpiar.
    + intros c' Hc'. simpl. apply Hu. now right.
Qed.

Lemma sin_colision_apariciones (df : DataFrame) :
  sin_colision df = true ->
  forall c, In c (etiquetas_texto df) ->
    Pandas.apariciones c (map Pandas.normalizar_etiqueta (columns df)) = 1.
Proof.
  unfold sin_colision. rewrite forallb_forall. intros H c Hc.
  apply Nat.eqb_eq, H, Hc.
Qed.

Lemma bind_silencioso {S A B} (m : M S A) (k : A -> M S B) (s s1 : S) (a : A) :
  m s = mkEfecto s1 [] (Devuelve a) -> bind m k s = k a s1.
Proof.
  intros H. unfold bind. rewrite H. simpl. destruct (k a s1); reflexivity.
Qed.

Lemma bind_asignar_campo {B} (X : DataFrame) (k : unit -> M Dataset B)
      (d : Dataset) :
  bind (Base.asignar_campo_dataframe X) k d
  = k tt (mkDataset (ruta_archivo d) (Some X) (esta_cargado d)).
Proof. apply bind_silencioso. reflexivity. Qed.

Lemma bind_el_dataframe_mk {B} (k : DataFrame -> M Dataset B)
      (ru : string) (X : DataFrame) (es : bool) :
  bind Base.el_dataframe k (mkDataset ru (Some X) es)
  = k X (mkDataset ru (Some X) es).
Proof. apply bind_el_dataframe. reflexivity. Qed.

Lemma bind_limpiar_columnas {B} (etqs : list etiqueta) (k : unit -> M Dataset B)
      (ru : string) (X : DataFrame) (es : bool) :
  (forall c, In c etqs -> Pandas.apariciones c (columns X) = 1) ->
  bind (Base.limpiar_columnas_texto etqs) k (mkDataset ru (Some X) es)
  = k tt (mkDataset ru
            (Some (mkDF (columns X) (columns_object X) (dtypes X)
                        (map (limpiar_fila etqs (columns X)) (filas X))))
            es).
Proof.
  intros H. apply bind_silencioso.
  exact (@limpiar_columnas_texto_completa etqs (mkDataset ru (Some X) es) X
           eq_refl H).
Qed.

(** Where the labels have no string methods the renaming raises before
    anything is assigned: the document is as it was. *)
Lemma limpiar_sin_str (d : Dataset) (df : DataFrame) :
  esta_cargado d = true -> dataframe d = Some df ->
  Pandas.str_disponible df = false ->
  Base.limpiar_y_transformar_datos d =
  mkEfecto d [IniciandoLimpieza] (Lanza AttributeError).
Proof.
  intros Hc Hd Hs. destruct d as [ru da es]. simpl in Hc, Hd. subst da es.
  unfold Base.limpiar_y_transformar_datos.
  rewrite estado_bind_leer. cbn [esta_cargado negb].
  rewrite bind_print, bind_el_dataframe_mk. cbv zeta.
  rewrite Hs, bind_raise. reflexivity.
Qed.

(** A completed cleaning, in one equation. *)
Lemma limpiar_completa (d : Dataset) (df : DataFrame) :
  esta_cargado d = true -> dataframe d = Some df ->
  Pandas.str_disponible df = true -> sin_colision df = true ->
  Base.limpiar_y_transformar_datos d =
  mkEfecto (mkDataset (ruta_archivo d) (Some (tabla_limpia df)) true)
           (lineas_limpieza df) (Devuelve true).
Proof.
  intros Hc Hd Hstr Hs. destruct d as [ru da es]. simpl in Hc, Hd. subst da es.
  unfold Base.limpiar_y_transformar_datos.
  rewrite estado_bind_leer. cbn [esta_cargado negb].
  rewrite bind_print, bind_el_dataframe_mk. cbv zeta.
  rewrite Hstr, bind_ret, bind_el_dataframe_mk.
  rewrite bind_asignar_campo, bind_el_dataframe_mk.
  rewrite bind_asignar_campo, bind_el_dataframe_mk.
  cbn [ruta_archivo esta_cargado].
  rewrite bind_limpiar_columnas by exact (@sin_colision_apariciones df Hs).
  reflexivity.
Qed.

Lemma in_sin_duplicados (v rs : list fila) (r : fila) :
  In r (Pandas.sin_duplicados_desde v rs) -> In r rs.
Proof.
  revert v. induction rs as [|x rs IH]; intros v; simpl; [tauto|].
  destruct (Pandas.esta_en x v).
  - intros H. right. eapply IH, H.
  - intros [H|H]; [now left | right; eapply IH, H].
Qed.


Lemma in_drop_duplicates (df : DataFrame) (r : fila) :
  In r (filas (Pandas.drop_duplicates df)) -> In r (filas df).
Proof.
  unfold Pandas.drop_duplicates; simpl.
  destruct (Pandas.empty df); [trivial | apply in_sin_duplicados].
Qed.


Lemma limpiar_fila_idem (e cols : list etiqueta) (r : fila) :
  limpiar_fila e cols (limpiar_fila e cols r) = limpiar_fila e cols r.
Proof.
  revert r. induction cols as [|c cols IH]; intros [|x r];
    cbn [limpiar_fila]; try reflexivity.
  rewrite IH. f_equal.
  destruct (Pandas.contiene_etiqueta c e);
    [apply astype_str_strip_idem | reflexivity].
Qed.



(** Normalising a label twice changes nothing more. *)
Lemma normalizar_etiqueta_idem (e : etiqueta) :
  Pandas.normalizar_etiqueta (Pandas.normalizar_etiqueta e)
  = Pandas.normalizar_etiqueta e.
Proof.
  destruct e as [s| |]; simpl; [|reflexivity|reflexivity].
  now rewrite normalizar_nombre_idem.
Qed.

Lemma normalizar_columnas_idem (cols : list etiqueta) :
  map Pandas.normalizar_etiqueta (map Pandas.normalizar_etiqueta cols)
  = map Pandas.normalizar_etiqueta cols.
Proof.
  rewrite map_map. apply map_ext. intros c. apply normalizar_etiqueta_idem.
Qed.

Lemma etiquetas_de_texto_str (df : DataFrame) :
  etiquetas_de_texto df = true -> Pandas.str_disponible df = true.
Proof.
  unfold etiquetas_de_texto, Pandas.str_disponible.
  destruct (columns df) as [|e l]; [discriminate|]. cbn [length Nat.eqb negb].
  cbn [andb forallb existsb]. intros H. apply andb_true_iff in H.
  destruct H as [-> _]. reflexivity.
Qed.

(** Once the string methods have renamed the labels they can do so again. *)
Lemma str_disponible_tabla_limpia (df : DataFrame) :
  Pandas.str_disponible df = true ->
  Pandas.str_disponible (tabla_limpia df) = true.
Proof.
  unfold Pandas.str_disponible, tabla_limpia. cbv zeta.
  cbn [columns columns_object]. rewrite andb_true_r.
  intros H. apply orb_true_iff in H. apply orb_true_iff.
  destruct H as [H|H].
  - left. apply existsb_exists in H. destruct H as (e & Hin & He).
    apply existsb_exists. exists (Pandas.normalizar_etiqueta e).
    split; [now apply in_map|]. destruct e; [reflexivity | discriminate He..].
  - right. apply andb_true_iff in H. destruct H as [H _].
    rewrite forallb_forall in H. apply forallb_forall.
    intros e He. apply in_map_iff in He. destruct He as (e0 & <- & Hin).
    specialize (H e0 Hin). destruct e0; [discriminate H | discriminate H |].
    reflexivity.
Qed.

Lemma etiquetas_texto_tabla_limpia (df : DataFrame) :
  etiquetas_texto (tabla_limpia df) = etiquetas_texto df.
Proof.
  unfold etiquetas_texto, tabla_limpia. simpl.
  now rewrite normalizar_columnas_idem.
Qed.

Lemma sin_colision_tabla_limpia (df : DataFrame) :
  sin_colision (tabla_limpia df) = sin_colision df.
Proof.
  unfold sin_colision. rewrite etiquetas_texto_tabla_limpia.
  unfold tabla_limpia. simpl. now rewrite normalizar_columnas_idem.
Qed.

(** Cleaning a cleaned table only drops the rows that trimming made equal. *)
Lemma tabla_limpia_dos_veces (df : DataFrame) :
  tabla_limpia (tabla_limpia df) = Pandas.drop_duplicates (tabla_limpia df).
Proof.
  assert (Hc : map Pandas.normalizar_etiqueta (columns (tabla_limpia df))
               = columns (tabla_limpia df)).
  { unfold tabla_limpia. simpl. apply normalizar_columnas_idem. }
  unfold tabla_limpia at 1. rewrite etiquetas_texto_tabla_limpia, Hc.
  change (Pandas.set_columns (columns (tabla_limpia df)) (tabla_limpia df))
    with (tabla_limpia df).
  transitivity (mkDF (columns (tabla_limpia df)) true
                     (dtypes (tabla_limpia df))
                     (filas (Pandas.drop_duplicates (tabla_limpia df))));
    [f_equal | reflexivity].
  etransitivity; [apply map_ext_in with (g := fun r => r) | apply map_id].
  intros r Hr. apply in_drop_duplicates in Hr.
  unfold tabla_limpia in Hr. simpl in Hr. apply in_map_iff in Hr.
  destruct Hr as (r0 & <- & _).
  unfold tabla_limpia. simpl. apply limpiar_fila_idem.
Qed.

(** C1, amended.  On a loaded document whose table has at least one column
    and only [str] labels, and in which no text column shares its normalised
    label with another column, [limpiar_y_transformar_datos] completes both
    times, and the second application leaves the table of the
    first with its duplicate rows dropped: same labels, same dtypes, same
    cells, first copies kept in order.  When the once-cleaned table has no
    duplicate row the second application changes nothing. *)
Theorem limpiar_dos_veces (d : Dataset) (df : DataFrame) :
  esta_cargado d = true -> dataframe d = Some df ->
  etiquetas_de_texto df = true -> sin_colision df = true ->
  let r1 := Base.limpiar_y_transformar_datos d in
  let r2 := Base.limpiar_y_transformar_datos (estado r1) in
  res r1 = Devuelve true
  /\ res r2 = Devuelve true
  /\ exists t1,
       dataframe (estado r1) = Some t1
       /\ dataframe (estado r2) = Some (Pandas.drop_duplicates t1)
       /\ (Pandas.duplicated_sum t1 = 0 -> estado r2 = estado r1).
Proof.
  intros Hc Hd Het Hs. cbv zeta.
  assert (Hstr := etiquetas_de_texto_str df Het).
  rewrite (limpiar_completa d Hc Hd Hstr Hs). cbn [estado res].
  rewrite (@limpiar_completa
             (mkDataset (ruta_archivo d) (Some (tabla_limpia df)) true)
             (tabla_limpia df) eq_refl eq_refl
             (str_disponible_tabla_limpia df Hstr))
    by (rewrite sin_colision_tabla_limpia; exact Hs).
  cbn [estado res ruta_archivo]. split; [reflexivity|]. split; [reflexivity|].
  exists (tabla_limpia df). rewrite tabla_limpia_dos_veces.
  repeat split.
  intros Hdup. now rewrite (drop_duplicates_id _ Hdup).
Qed.


Lemma limpiar_dos_veces_witness :
  let d := mkDataset "datos.csv" (Some tabla_espacios) true in
  let r1 := Base.limpiar_y_transformar_datos d in
  let r2 := Base.limpiar_y_transformar_datos (estado r1) in
  res r1 = Devuelve true
  /\ res r2 = Devuelve true
  /\ exists t1,
       dataframe (estado r1) = Some t1
       /\ dataframe (estado r2) = Some (Pandas.drop_duplicates t1)
       /\ (Pandas.duplicated_sum t1 = 0 -> estado r2 = estado r1).
Proof.
  exact (@limpiar_dos_veces (mkDataset "datos.csv" (Some tabla_espacios) true)
           tabla_espacios eq_refl eq_refl eq_refl eq_refl).
Defined.

(** C1, refuted as stated: trimming makes the two rows of [tabla_espacios]
    equal after duplicates have been dropped, so the first application leaves
    two rows and the second leaves one. *)
Lemma limpiar_no_idempotente :
  let d := mkDataset "datos.csv" (Some tabla_espacios) true in
  let r1 := Base.limpiar_y_transformar_datos d in
  let r2 := Base.limpiar_y_transformar_datos (estado r1) in
  dataframe (estado r1)
  = Some (mkDF [Texto "x"] true [object] [[Str "a"]; [Str "a"]])
  /\ dataframe (estado r2) = Some (mkDF [Texto "x"] true [object] [[Str "a"]])
  /\ dataframe (estado r2) <> dataframe (estado r1).
Proof.
  cbv zeta. repeat split; try reflexivity. vm_compute. discriminate.
Qed.



(* ------------------------------------------------------------------ *)
(** ** verificar_columnas_requeridas *)

(** X1. [verificar_columnas_requeridas] on a loaded dataset never changes it
    and answers by membership in the column labels: the columns it reports
    as missing are exactly the required names that are not labels of the
    table, in the order of the request; it returns True and prints the
    confirmation when every required name is a label, and returns False and
    prints the missing names when one is not. *)
Theorem verificar_columnas_correcta (d : Dataset) (df : DataFrame)
        (requeridas : list string) :
  esta_cargado d = true -> dataframe d = Some df ->
  let r := Base.verificar_columnas_requeridas requeridas d in
  let faltantes :=
    filter (fun c => negb (Pandas.contiene_etiqueta (Texto c) (columns df)))
           requeridas in
  estado r = d
  /\ (forall c, In c faltantes <-> In c requeridas /\ ~ In (Texto c) (columns df))
  /\ ((forall c, In c requeridas -> In (Texto c) (columns df)) ->
      res r = Devuelve true /\ salida r = [ColumnasPresentes])
  /\ ((exists c, In c requeridas /\ ~ In (Texto c) (columns df)) ->
      res r = Devuelve false /\ salida r = [ColumnasFaltantes faltantes]).
Proof.
  intros Hc Hd. cbv zeta.
  assert (Hfalt : forall c,
             In c (filter (fun c => negb (Pandas.contiene_etiqueta
                                            (Texto c) (columns df)))
                          requeridas)
             <-> In c requeridas /\ ~ In (Texto c) (columns df)).
  { intros c. rewrite filter_In, negb_true_iff, contiene_etiqueta_false. tauto. }
  unfold Base.verificar_columnas_requeridas.
  rewrite estado_bind_leer, Hc. cbn [negb].
  rewrite (@bind_el_dataframe _ _ _ _ Hd).
  destruct (filter (fun c => negb (Pandas.contiene_etiqueta
                                     (Texto c) (columns df))) requeridas)
    as [|c0 resto] eqn:E.
  - split; [reflexivity|]. split; [exact Hfalt|]. split.
    + intros _. split; reflexivity.
    + intros (c & Hin & Hno). exfalso. apply (proj2 (Hfalt c)). now split.
  - split; [reflexivity|]. split; [exact Hfalt|]. split.
    + intros Hall. exfalso.
      destruct (proj1 (Hfalt c0) (or_introl eq_refl)) as [Hin Hno].
      apply Hno, Hall, Hin.
    + intros _. split; reflexivity.
Qed.

Lemma verificar_columnas_correcta_witness :
  let d := mkDataset "ventas.csv" (Some tabla_ventas) true in
  res (Base.verificar_columnas_requeridas ["Fecha"; "monto"] d) = Devuelve false
  /\ salida (Base.verificar_columnas_requeridas ["Fecha"; "monto"] d)
     = [ColumnasFaltantes ["monto"]].
Proof.
  destruct (@verificar_columnas_correcta
              (mkDataset "ventas.csv" (Some tabla_ventas) true) tabla_ventas
              ["Fecha"; "monto"] eq_refl eq_refl) as (_ & _ & _ & H).
  apply H. exists "monto". split; [simpl; tauto|].
  simpl. intros [E|[E|[E|[]]]]; discriminate E.
Defined.

(* ------------------------------------------------------------------ *)
(** ** When limpiar_y_transformar_datos raises *)

Lemma forallb_false {A} (f : A -> bool) (l : list A) :
  forallb f l = false -> exists x, In x l /\ f x = false.
Proof.
  induction l as [|a l IH]; simpl; [discriminate|].
  destruct (f a) eqn:E; simpl.
  - intros H. destruct (IH H) as (x & Hx & Hf). exists x. split; [now right | exact Hf].
  - intros _. exists a. split; [now left | exact E].
Qed.

Lemma bind_lanza {S A B} (m : M S A) (k : A -> M S B) (s : S) (e : excepcion) :
  res (m s) = Lanza e ->
  bind m k s = mkEfecto (estado (m s)) (salida (m s)) (Lanza e).
Proof. intros H. unfold bind. rewrite H. reflexivity. Qed.

(** The loop over the text columns stops at the first label carried by
    several columns; the labels, the dtypes and the number of rows are then
    what they were. *)
Lemma limpiar_columnas_texto_lanza (etqs : list etiqueta) :
  forall (d : Dataset) (df : DataFrame),
    dataframe d = Some df ->
    (exists c, In c etqs /\ Pandas.apariciones c (columns df) <> 1) ->
    let r := Base.limpiar_columnas_texto etqs d in
    res r = Lanza AttributeError
    /\ salida r = []
    /\ ruta_archivo (estado r) = ruta_archivo d
    /\ esta_cargado (estado r) = esta_cargado d
    /\ exists t, dataframe (estado r) = Some t
         /\ columns t = columns df /\ dtypes t = dtypes df
         /\ length (filas t) = length (filas df).
Proof.
  induction etqs as [|c resto IH]; intros d df Hd (c0 & Hin & Hc0); cbv zeta.
  - destruct Hin.
  - simpl. rewrite (@bind_el_dataframe _ _ _ _ Hd).
    destruct (Pandas.apariciones c (columns df) =? 1) eqn:E.
    + rewrite bind_asignar_campo.
      assert (Hresto : exists c1, In c1 resto
                /\ Pandas.apariciones c1
                     (columns (Pandas.asignar_columna Pandas.astype_str_strip c df)) <> 1).
      { destruct Hin as [<-|Hin].
        - apply Nat.eqb_eq in E. contradiction.
        - exists c0. split; assumption. }
      destruct (IH (mkDataset (ruta_archivo d)
                      (Some (Pandas.asignar_columna Pandas.astype_str_strip c df))
                      (esta_cargado d))
                   (Pandas.asignar_columna Pandas.astype_str_strip c df)
                   eq_refl Hresto) as (H1 & H2 & H3 & H4 & t & H5 & H6 & H7 & H8).
      repeat split; try assumption.
      exists t. repeat split; try assumption.
      rewrite H8. simpl. apply length_map.
    + rewrite bind_raise. simpl. repeat split; try reflexivity.
      exists df. repeat split; assumption.
Qed.

Lemma limpiar_con_colision (d : Dataset) (df : DataFrame) :
  esta_cargado d = true -> dataframe d = Some df ->
  Pandas.str_disponible df = true -> sin_colision df = false ->
  let r := Base.limpiar_y_transformar_datos d in
  res r = Lanza AttributeError
  /\ salida r = [IniciandoLimpieza]
  /\ ruta_archivo (estado r) = ruta_archivo d
  /\ esta_cargado (estado r) = true
  /\ exists t, dataframe (estado r) = Some t
       /\ columns t = map Pandas.normalizar_etiqueta (columns df)
       /\ dtypes t = dtypes df
       /\ length (filas t)
          = length (filas (Pandas.drop_duplicates
                             (Pandas.set_columns
                                (map Pandas.normalizar_etiqueta (columns df))
                                df))).
Proof.
  intros Hc Hd Hstr Hs. destruct d as [ru da es]. simpl in Hc, Hd. subst da es.
  cbv zeta. unfold Base.limpiar_y_transformar_datos.
  rewrite estado_bind_leer. cbn [esta_cargado negb].
  rewrite bind_print, bind_el_dataframe_mk. cbv zeta.
  rewrite Hstr, bind_ret, bind_el_dataframe_mk.
  rewrite bind_asignar_campo, bind_el_dataframe_mk.
  rewrite bind_asignar_campo, bind_el_dataframe_mk.
  cbn [ruta_archivo esta_cargado].
  apply forallb_false in Hs. destruct Hs as (c & Hin & Hc).
  apply Nat.eqb_neq in Hc.
  set (X := Pandas.drop_duplicates
              (Pandas.set_columns
                 (map Pandas.normalizar_etiqueta (columns df)) df)).
  destruct (@limpiar_columnas_texto_lanza
              (Pandas.select_dtypes_object_columns X)
              (mkDataset ru (Some X) true) X eq_refl
              (ex_intro _ c (conj Hin Hc)))
    as (H1 & H2 & H3 & H4 & t & H5 & H6 & H7 & H8).
  rewrite (@bind_lanza _ _ _ _ _ _ _ H1). cbn [res estado salida].
  rewrite H2. repeat split; try assumption.
  exists t. repeat split; assumption.
Qed.

(** Once the labels have been renamed, whether the cleaning then returns or
    raises, the stored table has the normalised labels and the dtypes of the
    table it started from. *)
Lemma limpiar_forma_tabla (d : Dataset) (df : DataFrame) :
  esta_cargado d = true -> dataframe d = Some df ->
  Pandas.str_disponible df = true ->
  exists t, dataframe (estado (Base.limpiar_y_transformar_datos d)) = Some t
    /\ columns t = map Pandas.normalizar_etiqueta (columns df)
    /\ dtypes t = dtypes df.
Proof.
  intros Hc Hd Hstr. destruct (sin_colision df) eqn:Hs.
  - rewrite (limpiar_completa d Hc Hd Hstr Hs). cbn [estado dataframe].
    exists (tabla_limpia df). repeat split.
  - destruct (limpiar_con_colision d Hc Hd Hstr Hs)
      as (_ & _ & _ & _ & t & H5 & H6 & H7 & _).
    exists t. repeat split; assumption.
Qed.

(** X2. On a loaded dataset [limpiar_y_transformar_datos] returns True
    exactly when the column labels have the string methods and no text-typed
    column shares its normalised label with another column, and raises
    AttributeError in every other case.  Where the labels have no string
    methods (a typed Index: no column at all, integer headers) it raises at
    the renaming and the document is as it was.  Where they have them the
    dataset stays loaded and its table carries the normalised labels and the
    original dtypes, also when a collision then makes the loop over the text
    columns raise: the renaming and the removal of duplicates are not undone
    by the exception. *)
Theorem limpiar_lanza_si_colision (d : Dataset) (df : DataFrame) :
  esta_cargado d = true -> dataframe d = Some df ->
  let r := Base.limpiar_y_transformar_datos d in
  (res r = Devuelve true <->
   Pandas.str_disponible df = true /\ sin_colision df = true)
  /\ (res r = Lanza AttributeError <->
      Pandas.str_disponible df = false \/ sin_colision df = false)
  /\ esta_cargado (estado r) = true
  /\ (Pandas.str_disponible df = false -> estado r = d)
  /\ (Pandas.str_disponible df = true ->
      exists t, dataframe (estado r) = Some t
        /\ columns t = map Pandas.normalizar_etiqueta (columns df)
        /\ dtypes t = dtypes df).
Proof.
  intros Hc Hd. cbv zeta.
  destruct (Pandas.str_disponible df) eqn:Hstr.
  - destruct (sin_colision df) eqn:Hs.
    + rewrite (limpiar_completa d Hc Hd Hstr Hs).
      cbn [res estado esta_cargado dataframe].
      split; [split; [intros _; now split | reflexivity]|].
      split; [split; [discriminate | intros [H|H]; discriminate H]|].
      split; [reflexivity|]. split; [discriminate|].
      intros _. exists (tabla_limpia df). repeat split.
    + destruct (limpiar_con_colision d Hc Hd Hstr Hs)
        as (H1 & _ & _ & H4 & t & H5 & H6 & H7 & _).
      rewrite H1.
      split; [split; [discriminate | intros [_ H]; discriminate H]|].
      split; [split; [intros _; now right | reflexivity]|].
      split; [exact H4|]. split; [discriminate|].
      intros _. exists t. repeat split; assumption.
  - rewrite (limpiar_sin_str d Hc Hd Hstr). cbn [res estado].
    split; [split; [discriminate | intros [H _]; discriminate H]|].
    split; [split; [intros _; now left | reflexivity]|].
    split; [exact Hc|]. split; [reflexivity | discriminate].
Qed.

Lemma limpiar_lanza_si_colision_witness :
  res (Base.limpiar_y_transformar_datos
         (mkDataset "datos.csv" (Some tabla_colision) true))
  = Lanza AttributeError
  /\ estado (Base.limpiar_y_transformar_datos
               (mkDataset "anios.xlsx" (Some tabla_anios) true))
     = mkDataset "anios.xlsx" (Some tabla_anios) true.
Proof.
  split.
  - apply (proj2 (proj1 (proj2
             (@limpiar_lanza_si_colision
                (mkDataset "datos.csv" (Some tabla_colision) true)
                tabla_colision eq_refl eq_refl)))).
    right. reflexivity.
  - apply (proj1 (proj2 (proj2 (proj2
             (@limpiar_lanza_si_colision
                (mkDataset "anios.xlsx" (Some tabla_anios) true)
                tabla_anios eq_refl eq_refl))))).
    reflexivity.
Defined.

(* ------------------------------------------------------------------ *)
(** ** What cleaning does to the labels and to the number of rows *)

Lemma list_ascii_map_chars (f : ascii -> ascii) (s : string) :
  list_ascii_of_string (PyStr.map_chars f s) = map f (list_ascii_of_string s).
Proof. induction s as [|c s IH]; simpl; [reflexivity | now rewrite IH]. Qed.

Lemma normalizar_char_imagen (c : ascii) :
  normalizar_char c <> " "%char
  /\ normalizar_char c <> "-"%char
  /\ PyStr.lower_char (normalizar_char c) = normalizar_char c.
Proof.
  destruct c as [[] [] [] [] [] [] [] []];
    (split; [vm_compute; discriminate
            | split; [vm_compute; discriminate | vm_compute; reflexivity]]).
Qed.

(** A normalised label has no blank, no hyphen and no capital letter. *)
Lemma normalizar_nombre_caracteres (s : string) (c : ascii) :
  In c (list_ascii_of_string (Pandas.normalizar_nombre s)) ->
  c <> " "%char /\ c <> "-"%char /\ PyStr.lower_char c = c.
Proof.
  rewrite normalizar_nombre_chars, list_ascii_map_chars, in_map_iff.
  intros (c0 & <- & _). apply normalizar_char_imagen.
Qed.

(** X3. After [limpiar_y_transformar_datos] on a loaded dataset whose column
    labels have the string methods, whether it returned or raised, the stored
    table has as many labels as before, with the same dtypes: each [str]
    label has been normalised and contains no space, no hyphen and no
    upper-case letter, and each label that was not a [str] has become NaN.
    Where the labels have no string methods the document, and with it every
    label, is as it was. *)
Theorem etiquetas_tras_limpiar (d : Dataset) (df : DataFrame) :
  esta_cargado d = true -> dataframe d = Some df ->
  let r := Base.limpiar_y_transformar_datos d in
  (Pandas.str_disponible df = false -> estado r = d)
  /\ (Pandas.str_disponible df = true ->
      exists t, dataframe (estado r) = Some t
        /\ columns t = map Pandas.normalizar_etiqueta (columns df)
        /\ length (columns t) = length (columns df)
        /\ dtypes t = dtypes df
        /\ (forall j s, nth_error (columns df) j = Some (Texto s) ->
              nth_error (columns t) j
              = Some (Texto (Pandas.normalizar_nombre s)))
        /\ (forall j e, nth_error (columns df) j = Some e ->
              Pandas.es_texto e = false -> nth_error (columns t) j = Some Nulo)
        /\ (forall s c,
              In (Texto s) (columns t) -> In c (list_ascii_of_string s) ->
              c <> " "%char /\ c <> "-"%char /\ PyStr.lower_char c = c)).
Proof.
  intros Hc Hd. cbv zeta. split.
  - intros Hstr. now rewrite (limpiar_sin_str d Hc Hd Hstr).
  - intros Hstr.
    destruct (limpiar_forma_tabla d Hc Hd Hstr) as (t & Ht & Hcols & Hdt).
    exists t. split; [exact Ht|]. split; [exact Hcols|].
    split; [rewrite Hcols; apply length_map|]. split; [exact Hdt|].
    split; [|split].
    + intros j s Hj. rewrite Hcols, nth_error_map, Hj. reflexivity.
    + intros j e Hj He. rewrite Hcols, nth_error_map, Hj.
      destruct e; [discriminate He | reflexivity | reflexivity].
    + intros s c He Hin. rewrite Hcols in He. apply in_map_iff in He.
      destruct He as (e0 & E & _). destruct e0 as [s0| |]; try discriminate E.
      injection E as <-. eapply normalizar_nombre_caracteres, Hin.
Qed.

Lemma etiquetas_tras_limpiar_witness :
  exists t,
    dataframe (estado (Base.limpiar_y_transformar_datos
                         (mkDataset "ventas.csv" (Some tabla_ventas) true)))
    = Some t
    /\ columns t = textos ["fecha"; "monto_total"; "descripcion"].
Proof.
  destruct (proj2 (@etiquetas_tras_limpiar
                     (mkDataset "ventas.csv" (Some tabla_ventas) true)
                     tabla_ventas eq_refl eq_refl) eq_refl)
    as (t & Ht & Hcols & _).
  exists t. split; [exact Ht | exact Hcols].
Defined.

Lemma longitud_sin_duplicados (v rs : list fila) :
  length (Pandas.sin_duplicados_desde v rs)
  + length (filter (fun b : bool => b) (Pandas.duplicated_desde v rs))
  = length rs.
Proof.
  revert v. induction rs as [|r rs IH]; intros v; simpl; [reflexivity|].
  destruct (Pandas.esta_en r v); simpl; rewrite <- (IH (r :: v)); lia.
Qed.

(** The rows [drop_duplicates] removes are the ones [duplicated] counts. *)
Lemma longitud_drop_duplicates (df : DataFrame) :
  length (filas (Pandas.drop_duplicates df)) + Pandas.duplicated_sum df
  = length (filas df).
Proof.
  unfold Pandas.drop_duplicates, Pandas.duplicated_sum, Pandas.duplicated.
  cbn [filas]. destruct (Pandas.empty df); simpl; [lia|].
  apply longitud_sin_duplicados.
Qed.

Lemma duplicated_sum_set_columns (cols : list etiqueta) (df : DataFrame) :
  length cols = length (columns df) ->
  Pandas.duplicated_sum (Pandas.set_columns cols df) = Pandas.duplicated_sum df.
Proof.
  intros H. unfold Pandas.duplicated_sum, Pandas.duplicated, Pandas.empty.
  simpl. now rewrite H.
Qed.

Lemma filas_drop_duplicates_set_columns (cols : list etiqueta) (df : DataFrame) :
  length cols = length (columns df) ->
  filas (Pandas.drop_duplicates (Pandas.set_columns cols df))
  = filas (Pandas.drop_duplicates df).
Proof.
  intros H. unfold Pandas.drop_duplicates, Pandas.empty. simpl. now rewrite H.
Qed.

(** X4. Where the column labels have the string methods,
    [limpiar_y_transformar_datos] on a loaded dataset removes exactly the
    rows that [validar_integridad_datos] counts as duplicated, whether it
    then returns or raises: the rows kept plus that count are the rows of the
    original table.  Where the labels have no string methods it raises before
    any row is removed and the document is as it was.  When it completes, the
    count is the number it prints; and a table without duplicated rows keeps
    its number of rows in every case. *)
Theorem filas_tras_limpiar (d : Dataset) (df : DataFrame) :
  esta_cargado d = true -> dataframe d = Some df ->
  let r := Base.limpiar_y_transformar_datos d in
  (Pandas.str_disponible df = true ->
   exists t, dataframe (estado r) = Some t
     /\ length (filas t) + Pandas.duplicated_sum df = length (filas df))
  /\ (Pandas.str_disponible df = false -> estado r = d)
  /\ (res r = Devuelve true ->
      In (DuplicadasEliminadas (Pandas.duplicated_sum df)) (salida r))
  /\ (Pandas.duplicated_sum df = 0 ->
      exists t, dataframe (estado r) = Some t
        /\ length (filas t) = length (filas df)).
Proof.
  intros Hc Hd. cbv zeta.
  assert (Hlen : length (map Pandas.normalizar_etiqueta (columns df))
                 = length (columns df)) by apply length_map.
  assert (Hfilas : Pandas.str_disponible df = true ->
             exists t,
               dataframe (estado (Base.limpiar_y_transformar_datos d)) = Some t
               /\ length (filas t) + Pandas.duplicated_sum df
                  = length (filas df)).
  { intros Hstr. destruct (sin_colision df) eqn:Hs.
    - rewrite (limpiar_completa d Hc Hd Hstr Hs). cbn [estado dataframe].
      exists (tabla_limpia df). split; [reflexivity|].
      unfold tabla_limpia. cbv zeta. cbn [filas]. rewrite length_map.
      rewrite (filas_drop_duplicates_set_columns _ df Hlen).
      apply longitud_drop_duplicates.
    - destruct (limpiar_con_colision d Hc Hd Hstr Hs)
        as (_ & _ & _ & _ & t & Ht & _ & _ & Hn).
      exists t. split; [exact Ht|]. rewrite Hn.
      rewrite (filas_drop_duplicates_set_columns _ df Hlen).
      apply longitud_drop_duplicates. }
  split; [exact Hfilas|]. split; [|split].
  - intros Hstr. now rewrite (limpiar_sin_str d Hc Hd Hstr).
  - intros Hres.
    destruct (Pandas.str_disponible df) eqn:Hstr;
      [|rewrite (limpiar_sin_str d Hc Hd Hstr) in Hres; discriminate Hres].
    destruct (sin_colision df) eqn:Hs.
    + rewrite (limpiar_completa d Hc Hd Hstr Hs). cbn [salida].
      unfold lineas_limpieza.
      rewrite (filas_drop_duplicates_set_columns _ df Hlen).
      replace (length (filas df) - length (filas (Pandas.drop_duplicates df)))
        with (Pandas.duplicated_sum df)
        by (pose proof (longitud_drop_duplicates df); lia).
      simpl. tauto.
    + destruct (limpiar_con_colision d Hc Hd Hstr Hs) as (H1 & _). congruence.
  - intros H0. destruct (Pandas.str_disponible df) eqn:Hstr.
    + destruct (Hfilas eq_refl) as (t & Ht & Hn). exists t.
      split; [exact Ht | lia].
    + rewrite (limpiar_sin_str d Hc Hd Hstr). cbn [estado].
      exists df. split; [exact Hd | reflexivity].
Qed.

Lemma filas_tras_limpiar_witness :
  In (DuplicadasEliminadas 1)
     (salida (Base.limpiar_y_transformar_datos
                (mkDataset "datos.csv" (Some tabla_ejemplo) true)))
  /\ exists t,
       dataframe (estado (Base.limpiar_y_transformar_datos
                            (mkDataset "datos.csv" (Some tabla_ejemplo) true)))
       = Some t
       /\ length (filas t) + Pandas.duplicated_sum tabla_ejemplo
          = length (filas tabla_ejemplo).
Proof.
  split.
  - apply (proj1 (proj2 (proj2 (@filas_tras_limpiar
                           (mkDataset "datos.csv" (Some tabla_ejemplo) true)
                           tabla_ejemplo eq_refl eq_refl)))).
    reflexivity.
  - apply (proj1 (@filas_tras_limpiar
                    (mkDataset "datos.csv" (Some tabla_ejemplo) true)
                    tabla_ejemplo eq_refl eq_refl)).
    reflexivity.
Defined.

(* ------------------------------------------------------------------ *)
(** ** A load whose parse succeeds *)

Lemma heredado_conocido {S} `{Hereda S} {A} (m : M Dataset A) (s : S)
      (d : Dataset) (l : list mensaje) (r : resultado A) :
  m (base s) = mkEfecto d l r ->
  heredado m s = mkEfecto (con_base d s) l r.
Proof. intros E. unfold heredado. rewrite E. reflexivity. Qed.

Lemma valida_sin_duplicados (df : DataFrame) :
  valida df = true -> Pandas.duplicated_sum df = 0.
Proof.
  unfold valida. rewrite !andb_true_iff, !Nat.eqb_eq. tauto.
Qed.

(** A raising cleaning seen from the tail of [cargar_datos]. *)
Lemma limpiar_heredado_lanza {S} `{Hereda S} (s1 : S) (e : excepcion) :
  res (Base.limpiar_y_transformar_datos (base s1)) = Lanza e ->
  let m := (_ <- heredado Base.limpiar_y_transformar_datos ;; ret tt) in
  res (m s1) = Lanza e
  /\ base (estado (m s1))
     = estado (Base.limpiar_y_transformar_datos (base s1)).
Proof.
  intros H1. cbv zeta.
  assert (Hl : res (heredado Base.limpiar_y_transformar_datos s1) = Lanza e)
    by (unfold heredado; cbn [res]; exact H1).
  rewrite (@bind_lanza _ _ _ _ _ _ _ Hl). cbn [res estado].
  split; [reflexivity|]. unfold heredado. cbn [estado].
  apply base_con_base.
Qed.

(** The common tail of the two [cargar_datos]: validate, clean when valid,
    return [True]. *)
Lemma validar_y_limpiar {S} `{Hereda S} (s : S) (ru : string) (df : DataFrame) :
  base s = mkDataset ru (Some df) true ->
  let r :=
    (valido <- heredado Base.validar_integridad_datos ;;
     (if valido
      then _ <- heredado Base.limpiar_y_transformar_datos ;; ret tt
      else ret tt) ;;
     ret true) s in
  tras_validar_y_limpiar df ru (base (estado r)) (res r) (Lanza AttributeError).
Proof.
  intros Hb. cbv zeta.
  assert (Hv : heredado Base.validar_integridad_datos s =
               mkEfecto (con_base (base s) s)
                 (lineas_validacion (Pandas.isnull_sum_sum df)
                    (Pandas.duplicated_sum df) (Pandas.len df))
                 (Devuelve (valida df))).
  { apply heredado_conocido. rewrite Hb at 1.
    rewrite (@validar_cargado (mkDataset ru (Some df) true) df eq_refl eq_refl).
    rewrite Hb. reflexivity. }
  rewrite (@bind_conocido _ _ _ _ _ _ _ _ _ Hv). cbn [estado res salida].
  assert (Hb1 : base (con_base (base s) s) = mkDataset ru (Some df) true)
    by (rewrite base_con_base; exact Hb).
  destruct (valida df) eqn:Ev.
  - assert (Hnd := @valida_sin_duplicados df Ev).
    destruct (Pandas.str_disponible df) eqn:Hstr; [destruct (sin_colision df) eqn:Es|].
    + assert (Hl : heredado Base.limpiar_y_transformar_datos (con_base (base s) s)
                   = mkEfecto
                       (con_base (mkDataset ru (Some (tabla_limpia df)) true)
                                 (con_base (base s) s))
                       (lineas_limpieza df) (Devuelve true)).
      { apply heredado_conocido. rewrite Hb1.
        apply (@limpiar_completa (mkDataset ru (Some df) true) df
                 eq_refl eq_refl Hstr Es). }
      assert (Hi : (_ <- heredado Base.limpiar_y_transformar_datos ;; ret tt)
                     (con_base (base s) s)
                   = mkEfecto
                       (con_base (mkDataset ru (Some (tabla_limpia df)) true)
                                 (con_base (base s) s))
                       (lineas_limpieza df ++ []) (Devuelve tt)).
      { rewrite (@bind_conocido _ _ _ _ _ _ _ _ _ Hl). reflexivity. }
      rewrite (@bind_conocido _ _ _ _ _ _ _ _ _ Hi).
      cbn [estado res salida ret]. rewrite base_con_base.
      unfold tras_validar_y_limpiar. repeat split; intros; congruence.
    + destruct (@limpiar_con_colision (mkDataset ru (Some df) true) df
                  eq_refl eq_refl Hstr Es)
        as (H1 & _ & H3 & H4 & t & H5 & H6 & _ & H8).
      cbn [ruta_archivo] in H3. rewrite <- Hb1 in H1, H3, H4, H5.
      destruct (@limpiar_heredado_lanza _ _ (con_base (base s) s)
                  AttributeError H1) as [Hi Hbe].
      cbv zeta in Hi, Hbe.
      rewrite (@bind_lanza _ _ _ _ _ _ _ Hi). cbn [estado res].
      rewrite Hbe.
      unfold tras_validar_y_limpiar.
      repeat split; intros; try congruence; try assumption.
      exists t. repeat split; try assumption.
      rewrite H8.
      rewrite filas_drop_duplicates_set_columns by apply length_map.
      pose proof (longitud_drop_duplicates df). lia.
    + assert (H1 := @limpiar_sin_str (mkDataset ru (Some df) true) df
                      eq_refl eq_refl Hstr).
      rewrite <- Hb1 in H1 at 1.
      assert (H1r : res (Base.limpiar_y_transformar_datos
                           (base (con_base (base s) s)))
                    = Lanza AttributeError) by (rewrite H1; reflexivity).
      destruct (@limpiar_heredado_lanza _ _ (con_base (base s) s)
                  AttributeError H1r) as [Hi Hbe].
      cbv zeta in Hi, Hbe.
      rewrite (@bind_lanza _ _ _ _ _ _ _ Hi). cbn [estado res].
      rewrite Hbe, H1. cbn [estado].
      unfold tras_validar_y_limpiar.
      repeat split; intros; congruence.
  - rewrite !bind_ret. cbn [estado res salida ret]. rewrite Hb1.
    unfold tras_validar_y_limpiar. repeat split; intros; congruence.
Qed.

Section Seguro.

Context {S : Type}.
Variable K : S -> Prop.

Lemma seguro_print (m : mensaje) : seguro K (print m).
Proof. intros s Hs. split; [exact Hs | now exists tt]. Qed.

Lemma seguro_leer {A} (f : S -> A) : seguro K (leer f).
Proof. intros s Hs. split; [exact Hs | now exists (f s)]. Qed.

Lemma seguro_cuando (b : bool) (m : M S unit) :
  seguro K m -> seguro K (Base.cuando b m).
Proof.
  destruct b; intros Hm; [exact Hm|].
  intros s Hs. split; [exact Hs | now exists tt].
Qed.

Lemma hoare_bind_seguro {A B} (m : M S A) (k : A -> M S B)
      (Q : S -> resultado B -> Prop) :
  seguro K m -> (forall a, hoare K (k a) Q) -> hoare K (bind m k) Q.
Proof.
  intros Hm Hk s Hs. destruct (Hm s Hs) as [H1 [a Ha]].
  unfold bind. rewrite Ha. simpl. apply Hk, H1.
Qed.

End Seguro.

Lemma hoare_pre {S A} (P P' : S -> Prop) (m : M S A)
      (Q : S -> resultado A -> Prop) :
  (forall s, P s -> P' s) -> hoare P' m Q -> hoare P m Q.
Proof. intros HP Hm s Hs. apply Hm, HP, Hs. Qed.

Lemma validar_extension_csv_forma (s : DatasetCSV) :
  exists l, CSV._validar_extension_csv s = mkEfecto s l (Devuelve true).
Proof.
  unfold CSV._validar_extension_csv. rewrite estado_bind_leer.
  destruct (existsb _ _); eexists; reflexivity.
Qed.

Lemma seguro_detectar_codificacion (f : ArchivoCSV) (d : Dataset) :
  seguro (fun s => base s = d) (CSV._detectar_codificacion f).
Proof.
  intros s Hs. destruct (chardet_detect f) as [[enc conf]|e] eqn:E.
  - rewrite (@detectar_codificacion_resultado f s enc conf E).
    split; [exact Hs | now exists tt].
  - rewrite (@detectar_codificacion_lanza f s e E).
    split; [exact Hs | now exists tt].
Qed.

Lemma seguro_detectar_separador (f : ArchivoCSV) (d : Dataset) :
  seguro (fun s => base s = d) (CSV._detectar_separador f).
Proof.
  intros s Hs. destruct (detectar_separador_efecto f s) as (Hr & Hb & _).
  split; [now rewrite Hb | now exists tt].
Qed.

Lemma seguro_obtener_hojas (f : ArchivoExcel) (d : Dataset) :
  seguro (fun s => base s = d) (Excel._obtener_hojas_disponibles f).
Proof.
  intros s Hs. destruct (obtener_hojas_forma f s) as [l E]. rewrite E.
  split; [exact Hs | now exists tt].
Qed.

Ltac paso_seguro lema :=
  apply hoare_bind_seguro; [lema | intro].

Ltac paso_trivial :=
  first [ paso_seguro ltac:(apply seguro_print)
        | paso_seguro ltac:(apply seguro_leer) ].

(** The validation and cleaning of a freshly stored table, seen from
    [cargar_datos]: what raised inside is returned as [False]. *)
Lemma tras_validar_y_limpiar_devuelto (df : DataFrame) (ru : string)
      (d : Dataset) (b : bool) :
  tras_validar_y_limpiar df ru d (Devuelve b) (Lanza AttributeError) ->
  tras_validar_y_limpiar df ru d (Devuelve b) (Devuelve false).
Proof.
  unfold tras_validar_y_limpiar. intros (H1 & H2 & H3 & H4).
  split; [exact H1|]. split; [exact H2|]. split.
  - intros H H0 H5. destruct (H3 H H0 H5) as [E _]. discriminate E.
  - intros H H0. destruct (H4 H H0) as [E _]. discriminate E.
Qed.

Lemma tras_validar_y_limpiar_lanzado (df : DataFrame) (ru : string)
      (d : Dataset) (e : excepcion) :
  tras_validar_y_limpiar df ru d (Lanza e) (Lanza AttributeError) ->
  tras_validar_y_limpiar df ru d (Devuelve false) (Devuelve false).
Proof.
  unfold tras_validar_y_limpiar. intros (H1 & H2 & H3 & H4).
  split; [|split; [|split]].
  - intros H. destruct (H1 H) as [E _]. discriminate E.
  - intros H H0 H5. destruct (H2 H H0 H5) as [E _]. discriminate E.
  - intros H H0 H5. destruct (H3 H H0 H5) as [_ Hrest].
    split; [reflexivity | exact Hrest].
  - intros H H0. destruct (H4 H H0) as [_ Hrest].
    split; [reflexivity | exact Hrest].
Qed.

Lemma carga_csv_exito (f : ArchivoCSV) (s0 : DatasetCSV) :
  hoare (fun s => base s = base s0) (CSV.cargar_datos f)
    (fun s r =>
       forall df,
         read_csv f (CSV.separador s) (CSV.codificacion s) = Devuelve df ->
         tras_validar_y_limpiar df (ruta_archivo (base s0)) (base s) r
                                (Devuelve false)).
Proof.
  unfold CSV.cargar_datos.
  set (K := fun s : DatasetCSV => base s = base s0).
  set (ru := ruta_archivo (base s0)).
  apply hoare_try with
    (I := fun s => forall df,
            read_csv f (CSV.separador s) (CSV.codificacion s) = Devuelve df ->
            exists e, tras_validar_y_limpiar df ru (base s) (Lanza e)
                        (Lanza AttributeError)).
  2:{ intros e s Hs. destruct (manejar_error_csv_efecto e s) as [-> ->].
      intros df Hdf. destruct (Hs df Hdf) as [e' He'].
      eapply tras_validar_y_limpiar_lanzado, He'. }
  paso_trivial. paso_trivial.
  apply hoare_bind_res with (I := fun (a : bool) s => K s /\ a = true).
  { intros s Hs. destruct (validar_extension_csv_forma s) as [l E].
    rewrite E. simpl. now split. }
  intros [|]; [|intros s [_ H]; discriminate H].
  cbn [negb]. apply hoare_pre with (P' := K); [intros s [Hs _]; exact Hs|].
  paso_trivial.
  paso_seguro ltac:(apply seguro_cuando, seguro_detectar_codificacion).
  paso_trivial.
  paso_seguro ltac:(apply seguro_cuando, seguro_detectar_separador).
  apply hoare_bind_res with
    (I := fun (o : option DataFrame) s =>
            K s /\ match o with
                   | Some df =>
                       read_csv f (CSV.separador s) (CSV.codificacion s) = Devuelve df
                   | None =>
                       forall df,
                         read_csv f (CSV.separador s) (CSV.codificacion s)
                         <> Devuelve df
                   end).
  { intros s Hs. destruct (leer_archivo_csv_efecto f s) as [-> ->].
    destruct (read_csv f (CSV.separador s) (CSV.codificacion s)); split; auto.
    intros df; discriminate. }
  intros [df'|].
  - set (J := fun s : DatasetCSV =>
                base s = mkDataset ru (Some df') true
                /\ read_csv f (CSV.separador s) (CSV.codificacion s) = Devuelve df').
    apply hoare_bind_res with (I := fun (_ : unit) s => J s).
    { intros s [Hs Hr]. simpl. split; [|exact Hr].
      unfold ru. rewrite <- Hs. reflexivity. }
    intros _.
    do 7 paso_trivial.
    intros s [Hb Hr].
    assert (Hc : conserva
              (fun s => read_csv f (CSV.separador s) (CSV.codificacion s)
                        = Devuelve df')
              (valido <- heredado Base.validar_integridad_datos ;;
               (if valido
                then _ <- heredado Base.limpiar_y_transformar_datos ;; ret tt
                else ret tt) ;;
               ret true)) by conserva_propios.
    specialize (Hc s Hr). cbv beta in Hc.
    pose proof (validar_y_limpiar s Hb) as Ht. cbv zeta in Ht.
    destruct (res _) as [b|e].
    + intros df Hdf. rewrite Hc in Hdf. injection Hdf as <-.
      apply tras_validar_y_limpiar_devuelto, Ht.
    + intros df Hdf. rewrite Hc in Hdf. injection Hdf as <-.
      exists e. exact Ht.
  - intros s [_ Hno]. simpl. intros df Hdf. exfalso. exact (Hno df Hdf).
Qed.

Lemma carga_excel_exito (f : ArchivoExcel) (s0 : DatasetExcel) :
  hoare (fun s => base s = base s0) (Excel.cargar_datos f)
    (fun s r =>
       forall df,
         read_excel f (hoja_leida s) = Devuelve df ->
         tras_validar_y_limpiar df (ruta_archivo (base s0)) (base s) r
                                (Devuelve false)).
Proof.
  unfold Excel.cargar_datos.
  set (K := fun s : DatasetExcel => base s = base s0).
  set (ru := ruta_archivo (base s0)).
  apply hoare_try with
    (I := fun s => forall df,
            read_excel f (hoja_leida s) = Devuelve df ->
            exists e, tras_validar_y_limpiar df ru (base s) (Lanza e)
                        (Lanza AttributeError)).
  2:{ intros e s Hs. destruct (manejar_error_excel_efecto e s) as [-> ->].
      intros df Hdf. destruct (Hs df Hdf) as [e' He'].
      eapply tras_validar_y_limpiar_lanzado, He'. }
  paso_trivial. paso_trivial.
  apply hoare_bind_res with (I := fun (a : bool) s => K s /\ a = true).
  { intros s Hs. destruct (validar_extension_excel_forma s) as [l E].
    rewrite E. simpl. now split. }
  intros [|]; [|intros s [_ H]; discriminate H].
  cbn [negb]. apply hoare_pre with (P' := K); [intros s [Hs _]; exact Hs|].
  paso_seguro ltac:(apply seguro_obtener_hojas).
  apply hoare_bind_res with
    (I := fun (o : option DataFrame) s =>
            K s /\ match o with
                   | Some df => read_excel f (hoja_leida s) = Devuelve df
                   | None => forall df, read_excel f (hoja_leida s) <> Devuelve df
                   end).
  { intros s Hs. destruct (leer_archivo_excel_efecto f s) as [-> ->].
    destruct (read_excel f (hoja_leida s)); split; auto.
    intros df; discriminate. }
  intros [df'|].
  - set (J := fun s : DatasetExcel =>
                base s = mkDataset ru (Some df') true
                /\ read_excel f (hoja_leida s) = Devuelve df').
    apply hoare_bind_res with (I := fun (_ : unit) s => J s).
    { intros s [Hs Hr]. simpl. split; [|exact Hr].
      unfold ru. rewrite <- Hs. reflexivity. }
    intros _.
    do 5 paso_trivial.
    intros s [Hb Hr].
    assert (Hc : conserva
              (fun s => read_excel f (hoja_leida s) = Devuelve df')
              (valido <- heredado Base.validar_integridad_datos ;;
               (if valido
                then _ <- heredado Base.limpiar_y_transformar_datos ;; ret tt
                else ret tt) ;;
               ret true)) by conserva_propios.
    specialize (Hc s Hr). cbv beta in Hc.
    pose proof (validar_y_limpiar s Hb) as Ht. cbv zeta in Ht.
    destruct (res _) as [b|e].
    + intros df Hdf. rewrite Hc in Hdf. injection Hdf as <-.
      apply tras_validar_y_limpiar_devuelto, Ht.
    + intros df Hdf. rewrite Hc in Hdf. injection Hdf as <-.
      exists e. exact Ht.
  - intros s [_ Hno]. simpl. intros df Hdf. exfalso. exact (Hno df Hdf).
Qed.

Lemma valida_true (df : DataFrame) :
  valida df = true <->
  (forall f, In f (filas df) -> ~ In NaN f)
  /\ Pandas.duplicated_sum df = 0
  /\ filas df <> [].
Proof.
  unfold valida.
  rewrite !andb_true_iff, negb_true_iff, !Nat.eqb_eq, Nat.eqb_neq.
  rewrite isnull_sum_sum_cero. unfold Pandas.len.
  rewrite length_zero_iff_nil. tauto.
Qed.

(** X5. What a CSV load stores when the full parse, under the separator and
    encoding in force at the end of [cargar_datos], returns a table [df].  If
    [df] fails the validation (missing values, duplicated rows or no rows) it
    is stored as parsed and the load returns True.  If it passes, its labels
    have the string methods and no text-typed column collides after
    normalisation, the cleaned table is stored, with as many rows as [df],
    and the load returns True.  If it passes and a text-typed column
    collides, the load returns False although the dataset is left loaded with
    the renamed table.  If it passes and its labels have no string methods,
    the load returns False and the dataset is left loaded with [df] as
    parsed. *)
Theorem carga_csv_con_exito (f : ArchivoCSV) (s : DatasetCSV) (df : DataFrame) :
  let r := CSV.cargar_datos f s in
  let ru := ruta_archivo (base s) in
  read_csv f (CSV.separador (estado r)) (CSV.codificacion (estado r))
  = Devuelve df ->
  (valida df = false ->
     res r = Devuelve true /\ base (estado r) = mkDataset ru (Some df) true)
  /\ (valida df = true -> Pandas.str_disponible df = true ->
      sin_colision df = true ->
     res r = Devuelve true
     /\ base (estado r) = mkDataset ru (Some (tabla_limpia df)) true
     /\ length (filas (tabla_limpia df)) = length (filas df))
  /\ (valida df = true -> Pandas.str_disponible df = true ->
      sin_colision df = false ->
     res r = Devuelve false
     /\ esta_cargado (base (estado r)) = true
     /\ exists t, dataframe (base (estado r)) = Some t
          /\ columns t = map Pandas.normalizar_etiqueta (columns df)
          /\ length (filas t) = length (filas df))
  /\ (valida df = true -> Pandas.str_disponible df = false ->
     res r = Devuelve false
     /\ base (estado r) = mkDataset ru (Some df) true).
Proof.
  cbv zeta. intros Hdf.
  destruct (@carga_csv_exito f s s eq_refl df Hdf) as (H1 & H2 & H3 & H4).
  split; [exact H1|]. split; [|split; [|exact H4]].
  - intros Hv Hstr Hs. destruct (H2 Hv Hstr Hs) as [Hr Hb].
    repeat split; try assumption.
    unfold tabla_limpia. cbv zeta. cbn [filas]. rewrite length_map.
    rewrite filas_drop_duplicates_set_columns by apply length_map.
    pose proof (longitud_drop_duplicates df).
    pose proof (@valida_sin_duplicados df Hv). lia.
  - intros Hv Hstr Hs. destruct (H3 Hv Hstr Hs) as (Hr & _ & Hc & Ht).
    repeat split; assumption.
Qed.

Lemma carga_csv_con_exito_witness :
  let r := CSV.cargar_datos archivo_punto_y_coma (CSV.init "ventas.csv" None None) in
  res r = Devuelve true
  /\ base (estado r) = mkDataset "ventas.csv" (Some (tabla_limpia tabla_ventas)) true.
Proof.
  destruct (@carga_csv_con_exito archivo_punto_y_coma
              (CSV.init "ventas.csv" None None) tabla_ventas eq_refl)
    as (_ & H & _).
  destruct (H eq_refl eq_refl eq_refl) as (H1 & H2 & _). split; assumption.
Defined.

(** X6. The same for an Excel load whose parse of the chosen sheet returns a
    table [df]: stored as parsed, with True, when the validation fails;
    stored cleaned, with True, when it passes, the labels have the string
    methods and no label collides; and a False result with the dataset
    nevertheless loaded when the cleaning raises, with the renamed table on a
    collision and with [df] as parsed when the labels have no string methods,
    as on a sheet whose header cells are numbers. *)
Theorem carga_excel_con_exito (f : ArchivoExcel) (s : DatasetExcel)
        (df : DataFrame) :
  let r := Excel.cargar_datos f s in
  let ru := ruta_archivo (base s) in
  read_excel f (hoja_leida (estado r)) = Devuelve df ->
  (valida df = false ->
     res r = Devuelve true /\ base (estado r) = mkDataset ru (Some df) true)
  /\ (valida df = true -> Pandas.str_disponible df = true ->
      sin_colision df = true ->
     res r = Devuelve true
     /\ base (estado r) = mkDataset ru (Some (tabla_limpia df)) true
     /\ length (filas (tabla_limpia df)) = length (filas df))
  /\ (valida df = true -> Pandas.str_disponible df = true ->
      sin_colision df = false ->
     res r = Devuelve false
     /\ esta_cargado (base (estado r)) = true
     /\ exists t, dataframe (base (estado r)) = Some t
          /\ columns t = map Pandas.normalizar_etiqueta (columns df)
          /\ length (filas t) = length (filas df))
  /\ (valida df = true -> Pandas.str_disponible df = false ->
     res r = Devuelve false
     /\ base (estado r) = mkDataset ru (Some df) true).
Proof.
  cbv zeta. intros Hdf.
  destruct (@carga_excel_exito f s s eq_refl df Hdf) as (H1 & H2 & H3 & H4).
  split; [exact H1|]. split; [|split; [|exact H4]].
  - intros Hv Hstr Hs. destruct (H2 Hv Hstr Hs) as [Hr Hb].
    repeat split; try assumption.
    unfold tabla_limpia. cbv zeta. cbn [filas]. rewrite length_map.
    rewrite filas_drop_duplicates_set_columns by apply length_map.
    pose proof (longitud_drop_duplicates df).
    pose proof (@valida_sin_duplicados df Hv). lia.
  - intros Hv Hstr Hs. destruct (H3 Hv Hstr Hs) as (Hr & _ & Hc & Ht).
    repeat split; assumption.
Qed.

Lemma carga_excel_con_exito_witness :
  (let r := Excel.cargar_datos libro_trimestres
              (Excel.init "ventas.xlsx" (Some "Q2")) in
   res r = Devuelve true
   /\ base (estado r) = mkDataset "ventas.xlsx" (Some tabla_ejemplo) true)
  /\ (let r := Excel.cargar_datos libro_anios (Excel.init "anios.xlsx" None) in
      res r = Devuelve false
      /\ base (estado r) = mkDataset "anios.xlsx" (Some tabla_anios) true).
Proof.
  split.
  - destruct (@carga_excel_con_exito libro_trimestres
                (Excel.init "ventas.xlsx" (Some "Q2")) tabla_ejemplo eq_refl)
      as (H & _).
    exact (H eq_refl).
  - destruct (@carga_excel_con_exito libro_anios
                (Excel.init "anios.xlsx" None) tabla_anios eq_refl)
      as (_ & _ & _ & H).
    exact (H eq_refl eq_refl).
Defined.

(** X7. A load that returns True did parse the file: for both loaders, if
    [cargar_datos] returns True then the full parse returned some table, the
    dataset is loaded, and its table is that table as parsed or cleaned. *)
Theorem carga_devuelve_true (f : ArchivoCSV) (s : DatasetCSV)
        (g : ArchivoExcel) (x : DatasetExcel) :
  let r := CSV.cargar_datos f s in
  let q := Excel.cargar_datos g x in
  (res r = Devuelve true ->
   exists df,
     read_csv f (CSV.separador (estado r)) (CSV.codificacion (estado r))
     = Devuelve df
     /\ esta_cargado (base (estado r)) = true
     /\ (dataframe (base (estado r)) = Some df
         \/ dataframe (base (estado r)) = Some (tabla_limpia df)))
  /\ (res q = Devuelve true ->
      exists df,
        read_excel g (hoja_leida (estado q)) = Devuelve df
        /\ esta_cargado (base (estado q)) = true
        /\ (dataframe (base (estado q)) = Some df
            \/ dataframe (base (estado q)) = Some (tabla_limpia df))).
Proof.
  cbv zeta. split; intros Hres.
  - destruct (@carga_csv f s s eq_refl) as [[_ Hr] | [df Hdf]]; [congruence|].
    exists df. split; [exact Hdf|].
    destruct (@carga_csv_exito f s s eq_refl df Hdf) as (H1 & H2 & H3 & H4).
    destruct (valida df) eqn:Ev.
    + destruct (Pandas.str_disponible df) eqn:Et;
        [destruct (sin_colision df) eqn:Es|].
      * destruct (H2 eq_refl eq_refl eq_refl) as [_ ->].
        split; [reflexivity | now right].
      * destruct (H3 eq_refl eq_refl eq_refl) as [E _]. congruence.
      * destruct (H4 eq_refl eq_refl) as [E _]. congruence.
    + destruct (H1 eq_refl) as [_ ->]. split; [reflexivity | now left].
  - destruct (@carga_excel g x x eq_refl) as [[_ Hr] | [df Hdf]]; [congruence|].
    exists df. split; [exact Hdf|].
    destruct (@carga_excel_exito g x x eq_refl df Hdf) as (H1 & H2 & H3 & H4).
    destruct (valida df) eqn:Ev.
    + destruct (Pandas.str_disponible df) eqn:Et;
        [destruct (sin_colision df) eqn:Es|].
      * destruct (H2 eq_refl eq_refl eq_refl) as [_ ->].
        split; [reflexivity | now right].
      * destruct (H3 eq_refl eq_refl eq_refl) as [E _]. congruence.
      * destruct (H4 eq_refl eq_refl) as [E _]. congruence.
    + destruct (H1 eq_refl) as [_ ->]. split; [reflexivity | now left].
Qed.

Lemma carga_devuelve_true_witness :
  esta_cargado
    (base (estado (CSV.cargar_datos archivo_punto_y_coma
                     (CSV.init "ventas.csv" None None)))) = true.
Proof.
  destruct (proj1 (@carga_devuelve_true archivo_punto_y_coma
                     (CSV.init "ventas.csv" None None)
                     libro_trimestres (Excel.init "ventas.xlsx" None)) eq_refl)
    as (df & _ & H & _).
  exact H.
Defined.

Lemma res_try_devuelve {S A} (m : M S A) (h : excepcion -> M S A) (s : S) :
  (forall e s', exists a, res (h e s') = Devuelve a) ->
  exists a, res (try_except m h s) = Devuelve a.
Proof.
  intros Hh. unfold try_except. destruct (res (m s)) as [a|e] eqn:E.
  - exists a. exact E.
  - simpl. apply Hh.
Qed.

Lemma cargar_csv_no_lanza (f : ArchivoCSV) (s : DatasetCSV) :
  exists b, res (CSV.cargar_datos f s) = Devuelve b.
Proof.
  apply res_try_devuelve. intros e s'. exists false.
  apply manejar_error_csv_efecto.
Qed.

Lemma cargar_excel_no_lanza (f : ArchivoExcel) (s : DatasetExcel) :
  exists b, res (Excel.cargar_datos f s) = Devuelve b.
Proof.
  apply res_try_devuelve. intros e s'. exists false.
  apply manejar_error_excel_efecto.
Qed.

(** X8. The loading methods never raise: [cargar_datos] of both loaders,
    [cambiar_parametros_carga] and [cambiar_hoja] return a boolean whatever
    the file, the arguments and the state of the object. *)
Theorem carga_nunca_lanza :
  (forall f s, exists b, res (CSV.cargar_datos f s) = Devuelve b)
  /\ (forall f s, exists b, res (Excel.cargar_datos f s) = Devuelve b)
  /\ (forall f sep enc s,
        exists b, res (CSV.cambiar_parametros_carga f sep enc s) = Devuelve b)
  /\ (forall f hoja s, exists b, res (Excel.cambiar_hoja f hoja s) = Devuelve b).
Proof.
  split; [exact cargar_csv_no_lanza|]. split; [exact cargar_excel_no_lanza|].
  split.
  - intros f sep enc s. unfold CSV.cambiar_parametros_carga.
    rewrite estado_bind_leer.
    match goal with
    | |- context [bind (Base.cuando ?b ?m) _ s] =>
        assert (E1 : exists s1, Base.cuando b m s = mkEfecto s1 [] (Devuelve tt))
          by (destruct b; eexists; reflexivity)
    end.
    destruct E1 as [s1 E1]. rewrite (@bind_silencioso _ _ _ _ _ _ _ _ E1).
    rewrite estado_bind_leer.
    match goal with
    | |- context [bind (Base.cuando ?b ?m) _ s1] =>
        assert (E2 : exists s2, Base.cuando b m s1 = mkEfecto s2 [] (Devuelve tt))
          by (destruct b; eexists; reflexivity)
    end.
    destruct E2 as [s2 E2]. rewrite (@bind_silencioso _ _ _ _ _ _ _ _ E2).
    cbv zeta.
    match goal with
    | |- context [match ?l with [] => _ | _ :: _ => _ end] => destruct l
    end.
    + exists false. reflexivity.
    + rewrite bind_print. cbn [res]. apply cargar_csv_no_lanza.
  - intros f hoja s. unfold Excel.cambiar_hoja. rewrite estado_bind_leer.
    destruct (hojas_disponibles s) as [|h hs]; [exists false; reflexivity|].
    destruct (Base.contiene hoja (h :: hs)); cbn [negb].
    + rewrite estado_bind_leer, bind_print. cbn [res].
      rewrite (@bind_silencioso _ _ _ (Excel.set_nombre_hoja (Some hoja)) _ s
                 (mkDatasetExcel (xl_base s) (Some hoja) (hojas_disponibles s))
                 tt eq_refl).
      apply cargar_excel_no_lanza.
    + exists false. reflexivity.
Qed.

(* ------------------------------------------------------------------ *)
(** ** Explicit parameters and reloads *)

Lemma eq_opt_true (a b : option string) : PyStr.eq_opt a b = true <-> a = b.
Proof.
  destruct a as [x|], b as [y|]; simpl; split; intros H;
    try discriminate; try reflexivity.
  - apply String.eqb_eq in H. now subst.
  - injection H as ->. apply String.eqb_refl.
Qed.

Lemma conserva_bind_leer {S A B} (P : S -> Prop) (f : S -> A) (k : A -> M S B) :
  (forall s, P s -> P (estado (k (f s) s))) -> conserva P (bind (leer f) k).
Proof. intros H s Hs. rewrite estado_bind_leer. apply H, Hs. Qed.

Ltac conserva_csv_campos :=
  repeat first
    [ conserva_paso
    | apply conserva_heredado_propios; intros ? ? ?; assumption
    | apply conserva_modificar; intros ? ?; assumption ].

(** [cargar_datos] never writes the explicit separator and encoding. *)
Lemma cargar_csv_conserva_explicitos (f : ArchivoCSV) (sep enc : option string) :
  conserva (fun s => csv_separador s = sep /\ csv_codificacion s = enc)
           (CSV.cargar_datos f).
Proof.
  unfold CSV.cargar_datos, CSV._validar_extension_csv, CSV._detectar_codificacion,
    CSV._detectar_separador, CSV._leer_archivo_csv, CSV.manejar_error_carga,
    CSV.set_codificacion_detectada, CSV.set_separador_detectado.
  conserva_csv_campos.
Qed.

(** X9. [cambiar_parametros_carga] counts a parameter as changed only when
    the new value is truthy and differs from the stored explicit one.  With
    no change it prints one line, returns False and leaves the object as it
    was, without reloading.  A changed separator or encoding is stored and is
    the effective one after the reload; an unchanged one keeps its stored
    value.  With a change, the result and the final state are those of
    [cargar_datos] on an object with the same inherited fields. *)
Theorem cambiar_parametros_carga_efecto (f : ArchivoCSV)
        (nuevo_separador nueva_codificacion : option string) (s : DatasetCSV) :
  let r := CSV.cambiar_parametros_carga f nuevo_separador nueva_codificacion s in
  let cambia_sep :=
    PyStr.truthy nuevo_separador = true /\ nuevo_separador <> csv_separador s in
  let cambia_enc :=
    PyStr.truthy nueva_codificacion = true
    /\ nueva_codificacion <> csv_codificacion s in
  (~ cambia_sep -> ~ cambia_enc ->
   r = mkEfecto s [SinCambiosEnParametros] (Devuelve false))
  /\ (cambia_sep ->
      csv_separador (estado r) = nuevo_separador
      /\ CSV.separador (estado r) = nuevo_separador)
  /\ (~ cambia_sep -> csv_separador (estado r) = csv_separador s)
  /\ (cambia_enc ->
      csv_codificacion (estado r) = nueva_codificacion
      /\ CSV.codificacion (estado r) = nueva_codificacion)
  /\ (~ cambia_enc -> csv_codificacion (estado r) = csv_codificacion s)
  /\ (cambia_sep \/ cambia_enc ->
      exists s',
        base s' = base s
        /\ res r = res (CSV.cargar_datos f s')
        /\ estado r = estado (CSV.cargar_datos f s')).
Proof.
  cbv zeta. unfold CSV.cambiar_parametros_carga.
  rewrite estado_bind_leer.
  set (b1 := PyStr.truthy nuevo_separador
             && negb (PyStr.eq_opt nuevo_separador (csv_separador s))).
  assert (Hb1 : b1 = true <->
                PyStr.truthy nuevo_separador = true
                /\ nuevo_separador <> csv_separador s).
  { unfold b1. rewrite andb_true_iff, negb_true_iff.
    rewrite <- not_true_iff_false, eq_opt_true. tauto. }
  clearbody b1.
  set (s1 := if b1
             then mkDatasetCSV (csv_base s) nuevo_separador (csv_codificacion s)
                               (separador_detectado s) (codificacion_detectada s)
             else s).
  assert (E1 : Base.cuando b1 (CSV.set_separador nuevo_separador) s
               = mkEfecto s1 [] (Devuelve tt))
    by (unfold s1; destruct b1; reflexivity).
  rewrite (@bind_silencioso _ _ _ _ _ _ _ _ E1).
  rewrite estado_bind_leer.
  assert (Hcod1 : csv_codificacion s1 = csv_codificacion s)
    by (unfold s1; destruct b1; reflexivity).
  rewrite Hcod1.
  set (b2 := PyStr.truthy nueva_codificacion
             && negb (PyStr.eq_opt nueva_codificacion (csv_codificacion s))).
  assert (Hb2 : b2 = true <->
                PyStr.truthy nueva_codificacion = true
                /\ nueva_codificacion <> csv_codificacion s).
  { unfold b2. rewrite andb_true_iff, negb_true_iff.
    rewrite <- not_true_iff_false, eq_opt_true. tauto. }
  clearbody b2.
  set (s2 := if b2
             then mkDatasetCSV (csv_base s1) (csv_separador s1) nueva_codificacion
                               (separador_detectado s1) (codificacion_detectada s1)
             else s1).
  assert (E2 : Base.cuando b2 (CSV.set_codificacion nueva_codificacion) s1
               = mkEfecto s2 [] (Devuelve tt))
    by (unfold s2; destruct b2; reflexivity).
  rewrite (@bind_silencioso _ _ _ _ _ _ _ _ E2).
  cbv zeta.
  assert (Hsep2 : csv_separador s2 = if b1 then nuevo_separador else csv_separador s)
    by (unfold s2, s1; destruct b1, b2; reflexivity).
  assert (Hcod2 : csv_codificacion s2
                  = if b2 then nueva_codificacion else csv_codificacion s)
    by (unfold s2, s1; destruct b1, b2; reflexivity).
  assert (Hbase2 : base s2 = base s)
    by (unfold s2, s1; destruct b1, b2; reflexivity).
  assert (Hcarga := @cargar_csv_conserva_explicitos f (csv_separador s2)
                      (csv_codificacion s2) s2 (conj eq_refl eq_refl)).
  destruct Hcarga as [Hc1 Hc2].
  match goal with |- (_ -> _ -> ?t = _) /\ _ => set (r := t) end.
  assert (HA : b1 = false -> b2 = false ->
               r = mkEfecto s [SinCambiosEnParametros] (Devuelve false)).
  { intros B1 B2. subst r s2 s1. subst b1 b2. reflexivity. }
  assert (HB : b1 = true \/ b2 = true ->
               res r = res (CSV.cargar_datos f s2)
               /\ estado r = estado (CSV.cargar_datos f s2)).
  { intros HB. subst r.
    destruct b1, b2; try (destruct HB; discriminate);
      cbn [List.app]; rewrite bind_print; split; reflexivity. }
  assert (HC : csv_separador (estado r) = csv_separador s2
               /\ csv_codificacion (estado r) = csv_codificacion s2).
  { destruct b1 eqn:B1; [|destruct b2 eqn:B2].
    - destruct (HB (or_introl eq_refl)) as [_ ->]. now split.
    - destruct (HB (or_intror eq_refl)) as [_ ->]. now split.
    - rewrite (HA eq_refl eq_refl). cbn [estado].
      subst s2 s1. now split. }
  destruct HC as [HC1 HC2]. rewrite Hsep2 in HC1. rewrite Hcod2 in HC2.
  split; [|split; [|split; [|split; [|split]]]].
  - intros Hn1 Hn2. apply HA.
    + destruct b1; [exfalso; apply Hn1, Hb1; reflexivity | reflexivity].
    + destruct b2; [exfalso; apply Hn2, Hb2; reflexivity | reflexivity].
  - intros H1. assert (Ht := proj1 H1). apply Hb1 in H1. rewrite H1 in HC1.
    split; [exact HC1|].
    unfold CSV.separador, PyStr.py_or. rewrite HC1, Ht. reflexivity.
  - intros Hn1. destruct b1; [exfalso; apply Hn1, Hb1; reflexivity | exact HC1].
  - intros H2. assert (Ht := proj1 H2). apply Hb2 in H2. rewrite H2 in HC2.
    split; [exact HC2|].
    unfold CSV.codificacion, PyStr.py_or. rewrite HC2, Ht. reflexivity.
  - intros Hn2. destruct b2; [exfalso; apply Hn2, Hb2; reflexivity | exact HC2].
  - intros Hcambia. exists s2. split; [exact Hbase2|]. apply HB.
    destruct Hcambia as [H|H]; [left; apply Hb1, H | right; apply Hb2, H].
Qed.

Lemma cambiar_parametros_carga_efecto_witness :
  CSV.separador
    (estado (CSV.cambiar_parametros_carga archivo_punto_y_coma (Some "|") None
               (CSV.init "ventas.csv" None None)))
  = Some "|".
Proof.
  apply (proj1 (proj2 (@cambiar_parametros_carga_efecto archivo_punto_y_coma
                         (Some "|") None (CSV.init "ventas.csv" None None)))).
  split; [reflexivity | discriminate].
Defined.

Lemma cuando_false {S} (m : M S unit) : Base.cuando false m = ret tt.
Proof. reflexivity. Qed.

(** X10. An explicit parameter switches its detection off: when
    [cargar_datos] starts with a truthy explicit encoding the detected
    encoding is left as it was and the effective encoding is the explicit
    one, and likewise for the separator. *)
Theorem parametros_explicitos_sin_deteccion (f : ArchivoCSV) (s : DatasetCSV) :
  let r := CSV.cargar_datos f s in
  (PyStr.truthy (csv_codificacion s) = true ->
   codificacion_detectada (estado r) = codificacion_detectada s
   /\ CSV.codificacion (estado r) = csv_codificacion s)
  /\ (PyStr.truthy (csv_separador s) = true ->
      separador_detectado (estado r) = separador_detectado s
      /\ CSV.separador (estado r) = csv_separador s).
Proof.
  cbv zeta. split; intros Ht.
  - assert (Hc : conserva
              (fun s' => csv_codificacion s' = csv_codificacion s
                         /\ codificacion_detectada s' = codificacion_detectada s)
              (CSV.cargar_datos f)).
    { unfold CSV.cargar_datos, CSV._validar_extension_csv.
      apply conserva_try; [|intro; unfold CSV.manejar_error_carga; conserva_csv_campos].
      apply conserva_bind; [conserva_csv_campos | intro].
      apply conserva_bind; [conserva_csv_campos | intro].
      apply conserva_bind; [conserva_csv_campos | intro].
      match goal with |- conserva _ (if ?b then _ else _) => destruct b end;
        [conserva_csv_campos|].
      apply conserva_bind_leer. intros s' [H1 H2].
      rewrite H1, Ht. cbn [negb]. rewrite cuando_false, bind_ret.
      match goal with
      | |- context [estado (?k s')] =>
          assert (Hr : conserva
                    (fun s' => csv_codificacion s' = csv_codificacion s
                               /\ codificacion_detectada s' = codificacion_detectada s)
                    k)
            by (unfold CSV._detectar_separador, CSV._leer_archivo_csv,
                  CSV.set_separador_detectado; conserva_csv_campos)
      end.
      exact (Hr s' (conj H1 H2)). }
    destruct (Hc s (conj eq_refl eq_refl)) as [H1 H2].
    split; [exact H2|].
    unfold CSV.codificacion, PyStr.py_or. rewrite H1, Ht. reflexivity.
  - assert (Hc : conserva
              (fun s' => csv_separador s' = csv_separador s
                         /\ separador_detectado s' = separador_detectado s)
              (CSV.cargar_datos f)).
    { unfold CSV.cargar_datos, CSV._validar_extension_csv.
      apply conserva_try; [|intro; unfold CSV.manejar_error_carga; conserva_csv_campos].
      apply conserva_bind; [conserva_csv_campos | intro].
      apply conserva_bind; [conserva_csv_campos | intro].
      apply conserva_bind; [conserva_csv_campos | intro].
      match goal with |- conserva _ (if ?b then _ else _) => destruct b end;
        [conserva_csv_campos|].
      apply conserva_bind; [conserva_csv_campos | intro].
      apply conserva_bind;
        [unfold CSV._detectar_codificacion, CSV.set_codificacion_detectada;
         conserva_csv_campos | intro].
      apply conserva_bind_leer. intros s' [H1 H2].
      rewrite H1, Ht. cbn [negb]. rewrite cuando_false, bind_ret.
      match goal with
      | |- context [estado (?k s')] =>
          assert (Hr : conserva
                    (fun s' => csv_separador s' = csv_separador s
                               /\ separador_detectado s' = separador_detectado s)
                    k)
            by (unfold CSV._leer_archivo_csv; conserva_csv_campos)
      end.
      exact (Hr s' (conj H1 H2)). }
    destruct (Hc s (conj eq_refl eq_refl)) as [H1 H2].
    split; [exact H2|].
    unfold CSV.separador, PyStr.py_or. rewrite H1, Ht. reflexivity.
Qed.

Lemma parametros_explicitos_sin_deteccion_witness :
  let s := CSV.init "ventas.csv" (Some ",") (Some "latin-1") in
  let r := CSV.cargar_datos archivo_punto_y_coma s in
  separador_detectado (estado r) = None
  /\ CSV.separador (estado r) = Some ",".
Proof.
  apply (proj2 (@parametros_explicitos_sin_deteccion archivo_punto_y_coma
                  (CSV.init "ventas.csv" (Some ",") (Some "latin-1")))).
  reflexivity.
Defined.

(* ------------------------------------------------------------------ *)
(** ** cambiar_hoja *)

(** X11. [cambiar_hoja] consults the sheets recorded by the last load, not
    the file.  With no recorded sheets it prints one line, returns False and
    changes nothing; a name that is not recorded is rejected with the list of
    recorded sheets, again without change.  A recorded name is stored and the
    file reloaded: the recorded sheets become those the file now enumerates,
    and the sheet read is the requested one if the file still has it, the
    first sheet if it no longer does. *)
Theorem cambiar_hoja_efecto (f : ArchivoExcel) (hoja : string) (s : DatasetExcel) :
  let r := Excel.cambiar_hoja f hoja s in
  let enumeradas := match sheet_names f with Devuelve hs => hs | Lanza _ => [] end in
  (hojas_disponibles s = [] ->
   r = mkEfecto s [SinInformacionDeHojas] (Devuelve false))
  /\ (hojas_disponibles s <> [] -> ~ In hoja (hojas_disponibles s) ->
      r = mkEfecto s [HojaInexistente hoja; HojasDisponibles (hojas_disponibles s)]
                   (Devuelve false))
  /\ (In hoja (hojas_disponibles s) ->
      nombre_hoja (estado r) = Some hoja
      /\ hojas_disponibles (estado r) = enumeradas
      /\ (hoja <> "" -> In hoja enumeradas ->
          hoja_leida (estado r) = PorNombre hoja)
      /\ (hoja <> "" -> ~ In hoja enumeradas ->
          hoja_leida (estado r) = PorIndice 0)).
Proof.
  cbv zeta. unfold Excel.cambiar_hoja. rewrite estado_bind_leer.
  split; [|split].
  - intros ->. reflexivity.
  - intros Hne Hno. destruct (hojas_disponibles s) as [|h hs] eqn:E;
      [contradiction|].
    apply contiene_false in Hno. rewrite Hno. reflexivity.
  - intros Hin. destruct (hojas_disponibles s) as [|h hs] eqn:E;
      [destruct Hin|].
    apply contiene_true in Hin. rewrite Hin. cbn [negb].
    rewrite estado_bind_leer, bind_print. cbn [estado].
    rewrite (@bind_silencioso _ _ _ (Excel.set_nombre_hoja (Some hoja)) _ s
               (mkDatasetExcel (xl_base s) (Some hoja) (hojas_disponibles s))
               tt eq_refl).
    destruct (cargar_excel_hojas f
                (mkDatasetExcel (xl_base s) (Some hoja) (hojas_disponibles s)))
      as (Hh & Hn & _).
    cbn [nombre_hoja] in Hn.
    split; [exact Hn|]. split; [exact Hh|].
    destruct (elegir_hoja_casos (Some hoja)
                (match sheet_names f with Devuelve hs => hs | Lanza _ => [] end))
      as (Hausente & Hpresente & _).
    split.
    + intros Hne Hen. unfold hoja_leida. rewrite Hn, Hh.
      rewrite (Hpresente hoja eq_refl Hne Hen). reflexivity.
    + intros Hne Hen. unfold hoja_leida. rewrite Hn, Hh.
      rewrite (Hausente hoja eq_refl Hne Hen). reflexivity.
Qed.

Lemma cambiar_hoja_efecto_witness :
  Excel.cambiar_hoja libro_trimestres "Q2" (Excel.init "ventas.xlsx" None)
  = mkEfecto (Excel.init "ventas.xlsx" None) [SinInformacionDeHojas]
             (Devuelve false).
Proof.
  apply (proj1 (@cambiar_hoja_efecto libro_trimestres "Q2"
                  (Excel.init "ventas.xlsx" None))).
  reflexivity.
Defined.

(* ------------------------------------------------------------------ *)
(** ** The extension check *)

Lemma endswith_spec (s suf : string) :
  PyStr.endswith s suf = true <-> exists pre, s = String.append pre suf.
Proof.
  induction s as [|c s IH].
  - cbn [PyStr.endswith]. rewrite orb_false_r, String.eqb_eq. split.
    + intros <-. now exists "".
    + intros [[|c pre] H]; simpl in H; [exact H | discriminate].
  - cbn [PyStr.endswith]. rewrite orb_true_iff, String.eqb_eq, IH. split.
    + intros [<- | [pre ->]].
      * now exists "".
      * now exists (String c pre).
    + intros [[|c' pre] H]; simpl in H.
      * now left.
      * injection H as <- ->. right. now exists pre.
Qed.

(** The path ends, letter case apart, in one of the extensions. *)
Lemma existsb_endswith (exts : list string) (ruta : string) :
  existsb (PyStr.endswith (PyStr.lower ruta)) exts = true
  <-> extension_reconocida exts ruta.
Proof.
  rewrite existsb_exists. unfold extension_reconocida. split.
  - intros (ext & Hin & He). apply endswith_spec in He. destruct He as [pre He].
    now exists ext, pre.
  - intros (ext & pre & Hin & He). exists ext. split; [exact Hin|].
    apply endswith_spec. now exists pre.
Qed.

(** X12. The extension checks only warn: [_validar_extension_csv] and
    [_validar_extension_excel] always return True and leave the object
    unchanged; they print nothing when the lower-cased path ends with one of
    the known extensions and the two warning lines when it does not. *)
Theorem extension_solo_avisa :
  (forall s : DatasetCSV,
      let r := CSV._validar_extension_csv s in
      res r = Devuelve true /\ estado r = s
      /\ (extension_reconocida [".csv"; ".txt"; ".tsv"] (ruta_archivo (base s))
          -> salida r = [])
      /\ (~ extension_reconocida [".csv"; ".txt"; ".tsv"] (ruta_archivo (base s))
          -> salida r = [ExtensionCSVNoReconocida (ruta_archivo (base s));
                         ExtensionesValidas [".csv"; ".txt"; ".tsv"]]))
  /\ (forall s : DatasetExcel,
      let r := Excel._validar_extension_excel s in
      res r = Devuelve true /\ estado r = s
      /\ (extension_reconocida [".xlsx"; ".xls"; ".xlsm"] (ruta_archivo (base s))
          -> salida r = [])
      /\ (~ extension_reconocida [".xlsx"; ".xls"; ".xlsm"] (ruta_archivo (base s))
          -> salida r = [ExtensionExcelNoReconocida (ruta_archivo (base s));
                         ExtensionesValidas [".xlsx"; ".xls"; ".xlsm"]])).
Proof.
  split; intros s; cbv zeta.
  - unfold CSV._validar_extension_csv. rewrite estado_bind_leer.
    destruct (existsb _ _) eqn:E.
    + apply existsb_endswith in E. repeat split; try reflexivity.
      intros Hn. contradiction.
    + repeat split; try reflexivity.
      intros Hr. apply existsb_endswith in Hr.
      unfold CSV.extensiones_validas in E. congruence.
  - unfold Excel._validar_extension_excel. rewrite estado_bind_leer.
    destruct (existsb _ _) eqn:E.
    + apply existsb_endswith in E. repeat split; try reflexivity.
      intros Hn. contradiction.
    + repeat split; try reflexivity.
      intros Hr. apply existsb_endswith in Hr.
      unfold Excel.extensiones_validas in E. congruence.
Qed.

Lemma extension_solo_avisa_witness :
  salida (CSV._validar_extension_csv (CSV.init "DATOS.CSV" None None)) = [].
Proof.
  apply (proj1 extension_solo_avisa (CSV.init "DATOS.CSV" None None)).
  exists ".csv", "datos". split; [now left | reflexivity].
Defined.

(* ------------------------------------------------------------------ *)
(** ** Exporting *)

(** X13. The two exporters report a failed write by their result.  On an
    unloaded dataset they return False after one line, without writing and
    without changing the object.  On a loaded one they hand the stored table
    to the writer and leave the object unchanged; they return True when the
    writer returns, and return False with the error line when it raises. *)
Theorem exportar_efecto :
  (forall (f : ArchivoCSV) (destino sep enc : string) (s : DatasetCSV),
      let r := CSV.exportar_con_nuevos_parametros f destino sep enc s in
      (esta_cargado (base s) = false ->
       r = mkEfecto s [SinDatosParaExportar] (Devuelve false))
      /\ (forall df,
            esta_cargado (base s) = true -> dataframe (base s) = Some df ->
            estado r = s
            /\ (to_csv f df destino sep enc = Devuelve tt ->
                res r = Devuelve true)
            /\ (forall e, to_csv f df destino sep enc = Lanza e ->
                  res r = Devuelve false /\ salida r = [ErrorAlExportar e])))
  /\ (forall (f : ArchivoExcel) (destino : string) (s : DatasetExcel),
      let r := Excel.exportar_hoja_actual f destino s in
      (esta_cargado (base s) = false ->
       r = mkEfecto s [SinDatosParaExportar] (Devuelve false))
      /\ (forall df,
            esta_cargado (base s) = true -> dataframe (base s) = Some df ->
            estado r = s
            /\ (to_excel f df destino = Devuelve tt ->
                res r = Devuelve true /\ salida r = [HojaExportada destino])
            /\ (forall e, to_excel f df destino = Lanza e ->
                  res r = Devuelve false /\ salida r = [ErrorAlExportar e]))).
Proof.
  split.
  - intros f destino sep enc s. cbv zeta.
    unfold CSV.exportar_con_nuevos_parametros. rewrite estado_bind_leer.
    split.
    + intros ->. reflexivity.
    + intros df Hc Hd. rewrite Hc. cbn [negb].
      destruct s as [[ru da es] a b c d]. simpl in Hc, Hd. subst da es.
      set (s := mkDatasetCSV (mkDataset ru (Some df) true) a b c d).
      assert (E : heredado Base.el_dataframe s = mkEfecto s [] (Devuelve df))
        by reflexivity.
      unfold try_except. cbv zeta.
      rewrite !(@bind_silencioso _ _ _ _ _ _ _ _ E). cbv beta.
      destruct (to_csv f df destino sep enc) as [[]|e]; cbn [llamar].
      * rewrite !bind_ret. cbv beta.
        repeat (rewrite !bind_print; cbn [res estado]).
        cbn [ret res estado].
        split; [reflexivity|].
        split; [intros _; reflexivity | intros e' He'; discriminate He'].
      * rewrite !bind_raise. cbv beta. cbn [res estado salida].
        rewrite !bind_print.
        cbn [res estado salida ret List.app].
        split; [reflexivity|].
        split; [intros H; discriminate H|].
        intros e' He'. injection He' as <-. split; reflexivity.
  - intros f destino s. cbv zeta.
    unfold Excel.exportar_hoja_actual. rewrite estado_bind_leer.
    split.
    + intros ->. reflexivity.
    + intros df Hc Hd. rewrite Hc. cbn [negb].
      destruct s as [[ru da es] a b]. simpl in Hc, Hd. subst da es.
      set (s := mkDatasetExcel (mkDataset ru (Some df) true) a b).
      assert (E : heredado Base.el_dataframe s = mkEfecto s [] (Devuelve df))
        by reflexivity.
      unfold try_except. cbv zeta.
      rewrite !(@bind_silencioso _ _ _ _ _ _ _ _ E). cbv beta.
      destruct (to_excel f df destino) as [[]|e]; cbn [llamar].
      * rewrite !bind_ret. cbv beta. rewrite !bind_print.
        cbn [res estado salida ret].
        split; [reflexivity|].
        split; [intros _; split; reflexivity | intros e' He'; discriminate He'].
      * rewrite !bind_raise. cbv beta. cbn [res estado salida].
        rewrite !bind_print.
        cbn [res estado salida ret List.app].
        split; [reflexivity|].
        split; [intros H; discriminate H|].
        intros e' He'. injection He' as <-. split; reflexivity.
Qed.

Lemma exportar_efecto_witness :
  res (CSV.exportar_con_nuevos_parametros archivo_vacio "salida.csv" ";" "utf-8"
         csv_con_tabla) = Devuelve true.
Proof.
  destruct (proj2 (proj1 exportar_efecto archivo_vacio "salida.csv" ";" "utf-8"
                     csv_con_tabla) tabla_ejemplo eq_refl eq_refl)
    as (_ & H & _).
  apply H. reflexivity.
Defined.

(* ------------------------------------------------------------------ *)
(** ** The statistical summary *)

(** X14. [mostrar_resumen_estadistico] on a loaded dataset leaves it
    unchanged; it returns the [describe(include='all')] summary, which it
    also prints, when the table has a column, and raises ValueError when the
    table has none. *)
Theorem resumen_estadistico_cargado (d : Dataset) (df : DataFrame) :
  esta_cargado d = true -> dataframe d = Some df ->
  let r := Base.mostrar_resumen_estadistico d in
  estado r = d
  /\ (columns df = [] -> res r = Lanza ValueError)
  /\ (columns df <> [] ->
      res r = Devuelve (Some (describe_all df))
      /\ In (Estadisticas df) (salida r)).
Proof.
  intros Hc Hd. cbv zeta. destruct d as [ru da es]. simpl in Hc, Hd. subst da es.
  unfold Base.mostrar_resumen_estadistico. rewrite estado_bind_leer.
  cbn [esta_cargado negb].
  rewrite !bind_print, bind_el_dataframe_mk, !bind_print.
  cbn [estado res salida].
  unfold Base.describe. destruct (columns df) as [|c cs].
  - split; [reflexivity|].
    split; [intros _; reflexivity | intros Hne; now contradiction Hne].
  - split; [reflexivity|]. split; [intros Hn; discriminate Hn|].
    intros _. split; [reflexivity | simpl; tauto].
Qed.

Lemma resumen_estadistico_cargado_witness :
  res (Base.mostrar_resumen_estadistico
         (mkDataset "vacio.xlsx" (Some (mkDF [] false [] [])) true))
  = Lanza ValueError.
Proof.
  apply (proj1 (proj2 (@resumen_estadistico_cargado
                         (mkDataset "vacio.xlsx" (Some (mkDF [] false [] [])) true)
                         (mkDF [] false [] []) eq_refl eq_refl))).
  reflexivity.
Defined.

(** A loaded table without columns makes the summary raise. *)
Lemma resumen_sin_columnas (ru : string) (df : DataFrame) :
  columns df = [] ->
  res (Base.mostrar_resumen_estadistico (mkDataset ru (Some df) true))
  = Lanza ValueError.
Proof.
  intros Hcols. unfold Base.mostrar_resumen_estadistico.
  rewrite estado_bind_leer. cbn [esta_cargado negb].
  rewrite !bind_print, bind_el_dataframe_mk, !bind_print. cbn [res].
  unfold Base.describe. rewrite Hcols. reflexivity.
Qed.

(** X15. An empty sheet loads and then breaks the summary: when the parse of
    the chosen sheet returns a table without columns, the dataset is loaded
    after [cargar_datos] and [mostrar_resumen_estadistico] on it raises
    ValueError; [cargar_datos] itself returns True when the table has no rows
    either, as the table of an empty sheet. *)
Theorem hoja_sin_columnas (f : ArchivoExcel) (s : DatasetExcel) (df : DataFrame) :
  let r := Excel.cargar_datos f s in
  read_excel f (hoja_leida (estado r)) = Devuelve df ->
  columns df = [] ->
  (filas df = [] -> res r = Devuelve true)
  /\ esta_cargado (base (estado r)) = true
  /\ res (Base.mostrar_resumen_estadistico (base (estado r))) = Lanza ValueError.
Proof.
  cbv zeta. intros Hdf Hcols.
  destruct (@carga_excel_exito f s s eq_refl df Hdf) as (H1 & H2 & _ & H4).
  assert (Hs : sin_colision df = true).
  { unfold sin_colision, etiquetas_texto. rewrite Hcols. reflexivity. }
  destruct (valida df) eqn:Ev.
  - assert (Hf : filas df <> []).
    { intros E. unfold valida, Pandas.len in Ev. rewrite E in Ev.
      rewrite andb_false_r in Ev. discriminate Ev. }
    destruct (Pandas.str_disponible df) eqn:Et.
    + destruct (H2 eq_refl eq_refl Hs) as (Hr & Hb). rewrite Hr, Hb.
      repeat split. apply resumen_sin_columnas.
      unfold tabla_limpia. simpl. now rewrite Hcols.
    + destruct (H4 eq_refl eq_refl) as (Hr & Hb). rewrite Hb.
      split; [intros E; contradiction|]. split; [reflexivity|].
      apply resumen_sin_columnas. exact Hcols.
  - destruct (H1 eq_refl) as (Hr & Hb). rewrite Hr, Hb.
    repeat split. apply resumen_sin_columnas. exact Hcols.
Qed.

Lemma hoja_sin_columnas_witness :
  let r := Excel.cargar_datos libro_hoja_vacia (Excel.init "vacio.xlsx" None) in
  res r = Devuelve true
  /\ esta_cargado (base (estado r)) = true
  /\ res (Base.mostrar_resumen_estadistico (base (estado r))) = Lanza ValueError.
Proof.
  destruct (@hoja_sin_columnas libro_hoja_vacia (Excel.init "vacio.xlsx" None)
              (mkDF [] false [] []) eq_refl eq_refl) as (H1 & H2 & H3).
  split; [exact (H1 eq_refl) | split; [exact H2 | exact H3]].
Defined.

(* ------------------------------------------------------------------ *)
(** ** The display methods *)

Lemma lineas_hojas_in (k : nat) (activa : option string) (hojas : list string)
      (i : nat) (h : string) (b : bool) :
  In (LineaHoja i h b) (Excel.lineas_hojas k activa hojas)
  <-> k <= i /\ nth_error hojas (i - k) = Some h
      /\ b = PyStr.eq_opt (Some h) activa.
Proof.
  revert k. induction hojas as [|x xs IH]; intros k; cbn [Excel.lineas_hojas].
  - split; [intros [] | intros (_ & H & _)].
    destruct (i - k); discriminate H.
  - cbn [In]. rewrite IH. split.
    + intros [E | (Hk & Hn & Hb)].
      * injection E as <- <- <-. rewrite Nat.sub_diag. repeat split. lia.
      * split; [lia|]. split; [|exact Hb].
        replace (i - k) with (S (i - S k)) by lia. exact Hn.
    + intros (Hk & Hn & Hb). destruct (Nat.eq_dec i k) as [-> | Hne].
      * left. rewrite Nat.sub_diag in Hn. injection Hn as ->. now subst b.
      * right. split; [lia|]. split; [|exact Hb].
        replace (i - k) with (S (i - S k)) in Hn by lia. exact Hn.
Qed.

Lemma mostrar_hojas_forma (s : DatasetExcel) :
  Excel.mostrar_informacion_hojas s
  = mkEfecto s
      (match hojas_disponibles s with
       | [] => [SinInformacionDeHojas]
       | _ :: _ =>
           Regla "=" 50 :: TituloHojas :: Regla "=" 50
           :: Excel.lineas_hojas 1 (nombre_hoja s) (hojas_disponibles s)
              ++ [Regla "=" 50]
       end)
      (Devuelve tt).
Proof.
  unfold Excel.mostrar_informacion_hojas. rewrite estado_bind_leer.
  destruct (hojas_disponibles s) as [|h hs]; [reflexivity|].
  rewrite !bind_print, estado_bind_leer.
  rewrite (@bind_conocido _ _ _ _ _ s s _ tt (imprimir_forma _ s)).
  reflexivity.
Qed.

(** X18. After a load, [mostrar_informacion_hojas] leaves the object
    unchanged, returns [None] and lists the sheets the file enumerates,
    numbered from 1 in file order; a line is marked active exactly when its
    sheet equals the stored sheet name.  So a marked sheet is the stored name
    and one of the file's sheets, and when no name is stored, or the stored
    name is not in the file and the load read the first sheet instead, no
    sheet is marked active. *)
Theorem hojas_marcadas (f : ArchivoExcel) (s : DatasetExcel) :
  let r := Excel.cargar_datos f s in
  let q := Excel.mostrar_informacion_hojas (estado r) in
  let enumeradas := match sheet_names f with Devuelve hs => hs | Lanza _ => [] end in
  estado q = estado r /\ res q = Devuelve tt
  /\ (forall i h b,
        In (LineaHoja i h b) (salida q)
        <-> 1 <= i /\ nth_error enumeradas (i - 1) = Some h
            /\ b = PyStr.eq_opt (Some h) (nombre_hoja s))
  /\ (forall i h, In (LineaHoja i h true) (salida q) ->
        nombre_hoja s = Some h /\ In h enumeradas)
  /\ (nombre_hoja s = None
      \/ (exists n, nombre_hoja s = Some n /\ ~ In n enumeradas) ->
      forall i h, ~ In (LineaHoja i h true) (salida q)).
Proof.
  cbv zeta. rewrite mostrar_hojas_forma. cbn [estado res salida].
  destruct (cargar_excel_hojas f s) as (Hh & Hn & _). rewrite Hh, Hn.
  set (enumeradas := match sheet_names f with Devuelve hs => hs | Lanza _ => [] end).
  assert (Hlin : forall i h b,
             In (LineaHoja i h b)
                (match enumeradas with
                 | [] => [SinInformacionDeHojas]
                 | _ :: _ =>
                     Regla "=" 50 :: TituloHojas :: Regla "=" 50
                     :: Excel.lineas_hojas 1 (nombre_hoja s) enumeradas
                        ++ [Regla "=" 50]
                 end)
             <-> 1 <= i /\ nth_error enumeradas (i - 1) = Some h
                 /\ b = PyStr.eq_opt (Some h) (nombre_hoja s)).
  { intros i h b. rewrite <- lineas_hojas_in.
    destruct enumeradas as [|x xs] eqn:E.
    - cbn [In Excel.lineas_hojas]. split; [intros [H|[]]; discriminate H | intros []].
    - rewrite <- E. cbn [In]. rewrite in_app_iff. cbn [In]. split.
      + intros [H|[H|[H|[H|[H|[]]]]]]; try discriminate H. exact H.
      + intros H. right. right. right. now left. }
  split; [reflexivity|]. split; [reflexivity|]. split; [exact Hlin|].
  assert (Hact : forall i h,
             In (LineaHoja i h true)
                (match enumeradas with
                 | [] => [SinInformacionDeHojas]
                 | _ :: _ =>
                     Regla "=" 50 :: TituloHojas :: Regla "=" 50
                     :: Excel.lineas_hojas 1 (nombre_hoja s) enumeradas
                        ++ [Regla "=" 50]
                 end) ->
             nombre_hoja s = Some h /\ In h enumeradas).
  { intros i h Hin. apply Hlin in Hin. destruct Hin as (_ & Hnth & Hb).
    split.
    - symmetry in Hb. apply eq_opt_true in Hb. now symmetry.
    - eapply nth_error_In, Hnth. }
  split; [exact Hact|].
  intros Hsin i h Hin. destruct (Hact i h Hin) as [E Hen].
  destruct Hsin as [Hnone | (n & Hsome & Hno)]; [congruence|].
  rewrite E in Hsome. injection Hsome as <-. exact (Hno Hen).
Qed.

Lemma hojas_marcadas_witness :
    ~ In (LineaHoja 1 "Q1" true)
         (salida (Excel.mostrar_informacion_hojas
                    (estado (Excel.cargar_datos libro_trimestres
                               (Excel.init "ventas.xlsx" (Some "Q9")))))).
Proof.
  apply (proj2 (proj2 (proj2 (proj2
           (@hojas_marcadas libro_trimestres
              (Excel.init "ventas.xlsx" (Some "Q9"))))))).
  right. exists "Q9". split; [reflexivity|].
  simpl. intros [E|[E|[]]]; discriminate E.
Defined.

Lemma seguro_ret {S A} (K : S -> Prop) (a : A) : seguro K (ret a).
Proof. intros s Hs. split; [exact Hs | now exists a]. Qed.

Lemma seguro_bind {S A B} (K : S -> Prop) (m : M S A) (k : A -> M S B) :
  seguro K m -> (forall a, seguro K (k a)) -> seguro K (bind m k).
Proof.
  intros Hm Hk s Hs. destruct (Hm s Hs) as [H1 [a Ha]].
  unfold bind. rewrite Ha. cbn [estado res].
  destruct (Hk a _ H1) as [H2 [b Hb]]. split; [exact H2 | now exists b].
Qed.

(** On an object that stays the same, a field read has a known value. *)
Lemma seguro_bind_leer {S A B} (s0 : S) (f : S -> A) (k : A -> M S B) :
  seguro (fun s => s = s0) (k (f s0)) ->
  seguro (fun s => s = s0) (bind (leer f) k).
Proof.
  intros Hk s Hs. rewrite estado_bind_leer. subst s. exact (Hk s0 eq_refl).
Qed.

(** Reading the table of a loaded object neither fails nor changes it. *)
Lemma seguro_el_dataframe (d : Dataset) (df : DataFrame) :
  dataframe d = Some df -> seguro (fun d' => d' = d) Base.el_dataframe.
Proof.
  intros Hd s ->. unfold Base.el_dataframe. rewrite Hd.
  split; [reflexivity | now exists df].
Qed.

Lemma seguro_el_dataframe_csv (s : DatasetCSV) (df : DataFrame) :
  dataframe (base s) = Some df ->
  seguro (fun s' => s' = s) (heredado Base.el_dataframe).
Proof.
  intros Hd s' ->. unfold heredado, Base.el_dataframe. rewrite Hd.
  destruct s; split; [reflexivity | now exists df].
Qed.

Ltac paso_consulta :=
  match goal with
  | |- seguro _ (bind (leer _) _) => apply seguro_bind_leer
  | |- seguro _ (bind _ _) => apply seguro_bind; [| intro]
  | |- seguro _ (print _) => apply seguro_print
  | |- seguro _ (ret _) => apply seguro_ret
  | |- seguro _ (let _ := _ in _) => cbv zeta
  end.

(** A computation that keeps the object and returns [None], run. *)
Lemma seguro_unit {S} (m : M S unit) (s : S) :
  seguro (fun s' => s' = s) m -> estado (m s) = s /\ res (m s) = Devuelve tt.
Proof.
  intros Hm. destruct (Hm s eq_refl) as [H [[] Ha]]. now split.
Qed.

(** A synchronised object that says it is loaded has a table. *)
Lemma sincronizado_tabla (d : Dataset) :
  sincronizado d -> esta_cargado d = true -> exists df, dataframe d = Some df.
Proof.
  intros Hs Hc. destruct (dataframe d) as [df|] eqn:E; [now exists df|].
  exfalso. apply (proj1 Hs Hc). exact E.
Qed.

(** X19. On an object whose loaded flag agrees with its table, the display
    methods [obtener_informacion_basica], [mostrar_informacion_archivo] and
    [previsualizar_estructura] return [None] without raising and leave the
    object unchanged; [previsualizar_estructura] on an unloaded object prints
    its diagnostic only. *)
Theorem consultas_sin_efecto :
  (forall d : Dataset,
      sincronizado d ->
      let r := Base.obtener_informacion_basica d in
      estado r = d /\ res r = Devuelve tt)
  /\ (forall s : DatasetCSV,
      sincronizado (base s) ->
      let r := CSV.mostrar_informacion_archivo s in
      estado r = s /\ res r = Devuelve tt)
  /\ (forall (n : nat) (s : DatasetCSV),
      sincronizado (base s) ->
      let r := CSV.previsualizar_estructura n s in
      estado r = s /\ res r = Devuelve tt
      /\ (esta_cargado (base s) = false -> salida r = [SinDatosParaPrevisualizar])).
Proof.
  split; [|split].
  - intros d Hs. cbv zeta. apply seguro_unit.
    unfold Base.obtener_informacion_basica. apply seguro_bind_leer.
    destruct (esta_cargado d) eqn:Hc; cbn [negb]; [|repeat paso_consulta].
    destruct (sincronizado_tabla Hs Hc) as [df Hd].
    repeat paso_consulta. exact (@seguro_el_dataframe d df Hd).
  - intros s Hs. cbv zeta. apply seguro_unit.
    unfold CSV.mostrar_informacion_archivo. repeat paso_consulta.
    destruct (esta_cargado (base s)) eqn:Hc; [|repeat paso_consulta].
    destruct (sincronizado_tabla Hs Hc) as [df Hd].
    repeat paso_consulta. exact (@seguro_el_dataframe_csv s df Hd).
  - intros n s Hs. cbv zeta. split; [|split].
    + apply seguro_unit. unfold CSV.previsualizar_estructura.
      apply seguro_bind_leer.
      destruct (esta_cargado (base s)) eqn:Hc; cbn [negb]; [|repeat paso_consulta].
      destruct (sincronizado_tabla Hs Hc) as [df Hd].
      repeat paso_consulta. exact (@seguro_el_dataframe_csv s df Hd).
    + apply seguro_unit. unfold CSV.previsualizar_estructura.
      apply seguro_bind_leer.
      destruct (esta_cargado (base s)) eqn:Hc; cbn [negb]; [|repeat paso_consulta].
      destruct (sincronizado_tabla Hs Hc) as [df Hd].
      repeat paso_consulta. exact (@seguro_el_dataframe_csv s df Hd).
    + intros Hc. unfold CSV.previsualizar_estructura.
      rewrite estado_bind_leer, Hc. reflexivity.
Qed.

Lemma consultas_sin_efecto_witness :
  estado (CSV.previsualizar_estructura 5 csv_con_tabla) = csv_con_tabla.
Proof.
  apply (proj2 (proj2 consultas_sin_efecto) 5 csv_con_tabla).
  split; [discriminate | reflexivity].
Defined.

(* ------------------------------------------------------------------ *)
(** ** DataSaver.guardar_dataframe *)

Lemma ultimo_sufijo_ausente (c : ascii) (s : string) :
  sin_caracter c s -> OsPath.ultimo_sufijo c s = None.
Proof.
  induction s as [|a r IH]; simpl; [reflexivity|].
  intros [Ha Hr]. rewrite (IH Hr).
  apply Ascii.eqb_neq in Ha. now rewrite Ha.
Qed.

Lemma sin_caracter_append (c : ascii) (s t : string) :
  sin_caracter c s -> sin_caracter c t -> sin_caracter c (String.append s t).
Proof.
  induction s as [|a r IH]; simpl; [tauto|].
  intros [Ha Hr] Ht. split; [exact Ha | now apply IH].
Qed.

Lemma ultimo_sufijo_append (c : ascii) (s t : string) :
  sin_caracter c s -> sin_caracter c t ->
  OsPath.ultimo_sufijo c (String.append s (String c t)) = Some (String c t).
Proof.
  induction s as [|a r IH]; simpl; intros Hs Ht.
  - rewrite (ultimo_sufijo_ausente c t Ht). now rewrite Ascii.eqb_refl.
  - destruct Hs as [_ Hr]. now rewrite (IH Hr Ht).
Qed.

(** The extension of [nombre.ext] is [.ext]. *)
Lemma splitext_nombre_simple (nombre ext : string) :
  nombre_simple nombre -> sin_caracter "/" ext -> sin_caracter "." ext ->
  OsPath.splitext_ext (String.append nombre (String "." ext)) = String "." ext.
Proof.
  intros (Hne & Hbarra & Hpunto) Hbe Hpe. unfold OsPath.splitext_ext, OsPath.basename.
  assert (Hs : sin_caracter "/" (String.append nombre (String "." ext))).
  { apply sin_caracter_append; [exact Hbarra|]. simpl. split; [discriminate | exact Hbe]. }
  rewrite (ultimo_sufijo_ausente _ _ Hs).
  destruct nombre as [|a r]; [contradiction|].
  simpl in Hpunto. destruct Hpunto as [Ha Hr].
  cbn [String.append OsPath.sin_puntos_iniciales].
  apply Ascii.eqb_neq in Ha. rewrite Ha.
  change (String a (String.append r (String "." ext)))
    with (String.append (String a r) (String "." ext)).
  rewrite ultimo_sufijo_append; [reflexivity | | exact Hpe].
  simpl. split; [now apply Ascii.eqb_neq | exact Hr].
Qed.

(** A file name made of dots and a dot-free word has no extension. *)
Lemma splitext_archivo_oculto (puntos palabra : string) :
  (forall c, In c (list_ascii_of_string puntos) -> c = "."%char) ->
  sin_caracter "/" palabra -> sin_caracter "." palabra ->
  OsPath.splitext_ext (String.append puntos palabra) = "".
Proof.
  intros Hp Hb Hw. unfold OsPath.splitext_ext, OsPath.basename.
  assert (Hbarra : sin_caracter "/" (String.append puntos palabra)).
  { apply sin_caracter_append; [|exact Hb].
    clear -Hp. induction puntos as [|a r IH]; simpl; [exact I|].
    split.
    - rewrite (Hp a (or_introl eq_refl)). discriminate.
    - apply IH. intros c Hc. apply Hp. now right. }
  rewrite (ultimo_sufijo_ausente _ _ Hbarra).
  assert (Hq : OsPath.sin_puntos_iniciales (String.append puntos palabra)
               = OsPath.sin_puntos_iniciales palabra).
  { clear -Hp. induction puntos as [|a r IH]; simpl; [reflexivity|].
    rewrite (Hp a (or_introl eq_refl)). simpl.
    apply IH. intros c Hc. apply Hp. now right. }
  rewrite Hq.
  assert (Hs : sin_caracter "." (OsPath.sin_puntos_iniciales palabra)).
  { destruct palabra as [|a r]; simpl; [exact I|].
    simpl in Hw. destruct Hw as [Ha Hr].
    assert (E := Ha). apply Ascii.eqb_neq in E. rewrite E. simpl. now split. }
  now rewrite (ultimo_sufijo_ausente _ _ Hs).
Qed.

(** X16. [guardar_dataframe] chooses the writer by the lower-cased extension
    of the destination.  For a non-empty table and a destination
    [nombre.ext], where [nombre] is a plain file name and [ext] has no dot or
    slash, it succeeds exactly when the CSV writer returns if the extension is
    [.csv], exactly when the Excel writer returns if it is [.xlsx] or [.xls],
    and otherwise exactly when the MySQL engine exists and [to_sql] returns. *)
Theorem guardar_dataframe_destino (engine : bool) (w : Destinos)
        (df : DataFrame) (nombre ext if_exists : string) :
  Pandas.empty df = false ->
  nombre_simple nombre -> sin_caracter "/" ext -> sin_caracter "." ext ->
  let destino := String.append nombre (String "." ext) in
  let r := Saver.guardar_dataframe engine w (Some df) destino if_exists in
  let extension := PyStr.lower (String "." ext) in
  (extension = ".csv" ->
   snd r = true <-> guardar_csv w df destino = Devuelve tt)
  /\ (extension = ".xlsx" \/ extension = ".xls" ->
      snd r = true <-> guardar_excel w df destino = Devuelve tt)
  /\ (extension <> ".csv" -> extension <> ".xlsx" -> extension <> ".xls" ->
      snd r = true <->
      engine = true /\ to_sql w df destino if_exists = Devuelve tt).
Proof.
  intros He Hn Hb Hp. cbv zeta. unfold Saver.guardar_dataframe.
  rewrite He, (@splitext_nombre_simple _ _ Hn Hb Hp).
  split; [|split].
  - intros ->. simpl.
    destruct (guardar_csv w df _) as [[]|e]; simpl; split; intros H;
      try reflexivity; discriminate.
  - intros Hx.
    assert (E1 : String.eqb (PyStr.lower (String "." ext)) ".csv" = false).
    { apply String.eqb_neq. destruct Hx as [-> | ->]; discriminate. }
    assert (E2 : (String.eqb (PyStr.lower (String "." ext)) ".xlsx"
                  || String.eqb (PyStr.lower (String "." ext)) ".xls")%bool = true).
    { apply orb_true_iff. rewrite !String.eqb_eq. exact Hx. }
    rewrite E1, E2.
    destruct (guardar_excel w df _) as [[]|e]; simpl; split; intros H;
      try reflexivity; discriminate.
  - intros H1 H2 H3.
    apply String.eqb_neq in H1, H2, H3. rewrite H1, H2, H3. simpl.
    destruct engine; simpl.
    + destruct (to_sql w df _ if_exists) as [[]|e]; simpl; split;
        try (intros _; split; reflexivity);
        try (intros H; discriminate H);
        intros [_ H]; discriminate H.
    + split; [intros H; discriminate H | intros [H _]; discriminate H].
Qed.

Lemma guardar_dataframe_destino_witness :
  snd (Saver.guardar_dataframe false
         (mkDestinos (fun _ _ => Devuelve tt)
                     (fun _ _ => Lanza PermissionError)
                     (fun _ _ _ => Lanza PermissionError))
         (Some tabla_ventas) "Ventas.CSV" "replace") = true.
Proof.
  assert (Hn : nombre_simple "Ventas") by (repeat split; discriminate).
  assert (Hb : sin_caracter "/" "CSV") by (repeat split; discriminate).
  assert (Hp : sin_caracter "." "CSV") by (repeat split; discriminate).
  apply (proj1 (@guardar_dataframe_destino false
                  (mkDestinos (fun _ _ => Devuelve tt)
                              (fun _ _ => Lanza PermissionError)
                              (fun _ _ _ => Lanza PermissionError))
                  tabla_ventas "Ventas" "CSV" "replace" eq_refl Hn Hb Hp));
    reflexivity.
Defined.

(** X17. When [guardar_dataframe] writes nothing.  Without a table, or with
    an empty one, it returns False after the warning, whatever the
    destination, the engine and the writers.  With a non-empty table and no
    MySQL engine it returns False for every destination whose file name is a
    run of dots followed by a dot-free word, such as [tabla] or [.csv]: such
    a name has no extension and is taken for a table name, and the result
    does not depend on the writers. *)
Theorem guardar_dataframe_sin_escritura (engine : bool) (w : Destinos)
        (dataframe : option DataFrame) (destino if_exists : string) :
  let r := Saver.guardar_dataframe engine w dataframe destino if_exists in
  ((dataframe = None \/ exists df, dataframe = Some df /\ Pandas.empty df = true)
   -> r = ([DataFrameVacio], false))
  /\ (forall df puntos palabra,
        dataframe = Some df -> Pandas.empty df = false -> engine = false ->
        destino = String.append puntos palabra ->
        (forall c, In c (list_ascii_of_string puntos) -> c = "."%char) ->
        sin_caracter "/" palabra -> sin_caracter "." palabra ->
        r = ([SinConexionMySQL], false)).
Proof.
  cbv zeta. unfold Saver.guardar_dataframe. split.
  - intros [-> | (df & -> & He)]; [reflexivity | now rewrite He].
  - intros df puntos palabra -> He -> -> Hp Hb Hw. rewrite He.
    now rewrite (@splitext_archivo_oculto puntos palabra Hp Hb Hw).
Qed.

Lemma guardar_dataframe_sin_escritura_witness :
  Saver.guardar_dataframe true
    (mkDestinos (fun _ _ => Devuelve tt) (fun _ _ => Devuelve tt)
                (fun _ _ _ => Devuelve tt))
    None "salida/ventas.csv" "replace"
  = ([DataFrameVacio], false)
  /\ Saver.guardar_dataframe false
       (mkDestinos (fun _ _ => Devuelve tt) (fun _ _ => Devuelve tt)
                   (fun _ _ _ => Devuelve tt))
       (Some tabla_ventas) ".csv" "replace"
     = ([SinConexionMySQL], false).
Proof.
  split.
  - apply (proj1 (@guardar_dataframe_sin_escritura true
                    (mkDestinos (fun _ _ => Devuelve tt) (fun _ _ => Devuelve tt)
                                (fun _ _ _ => Devuelve tt))
                    None "salida/ventas.csv" "replace")).
    left. reflexivity.
  - refine (proj2 (@guardar_dataframe_sin_escritura false
                     (mkDestinos (fun _ _ => Devuelve tt)
                                 (fun _ _ => Devuelve tt)
                                 (fun _ _ _ => Devuelve tt))
                     (Some tabla_ventas) ".csv" "replace")
                  tabla_ventas "." "csv" eq_refl eq_refl eq_refl eq_refl _ _ _).
    + intros c [<- | []]. reflexivity.
    + simpl. repeat split; discriminate.
    + simpl. repeat split; discriminate.
Defined.
